(** * AutoRestarter: the in-process supervisor of the bot server

    A shallow embedding of the [AutoRestarter] class (the process supervisor
    shipped next to the download helpers in [dados/src/utils]) and the
    properties of its restart policy.

    The class is stateful, performs file I/O that may fail, catches
    exceptions and ends the process through [process.exit].  It is embedded
    in a small monad over the pair of the object ([this]) and the outside
    world (disk, clock, pending timers, console), whose results are a normal
    return, a thrown exception or a synchronous process exit.

    Every handler is run to completion before the next one starts; faults of
    the file system are drawn from a schedule stored in the world, so that a
    statement quantified over all worlds covers every combination of failing
    and succeeding file operations.

    The download helpers that come with the class run one shell command
    each and settle a promise; they are embedded as functions from what the
    command reports to the lines written on the console and the way the
    promise settles. *)

From Stdlib Require Import ZArith Ascii String List Lia Bool DecimalString
  DecimalPos DecimalZ.
Import ListNotations.

Set Warnings "-register-all".
Local Open Scope Z_scope.
Local Open Scope string_scope.

(** ** JavaScript values *)

(** The values the supervisor observes on thrown errors and writes as log
    payloads: primitives, plain objects and arrays.  Numbers are the
    integers (every number the supervisor computes with is one); no value
    is a function. *)
Inductive value : Type :=
| VUndefined
| VNull
| VBool (b : bool)
| VNum (n : Z)
| VStr (s : string)
| VObj (fields : list (string * value))
| VArr (items : list value).

(** ToBoolean. *)
Definition truthy (v : value) : bool :=
  match v with
  | VUndefined | VNull => false
  | VBool b => b
  | VNum n => negb (n =? 0)%Z
  | VStr s => negb (s =? EmptyString)%string
  | VObj _ | VArr _ => true
  end.

(** [a || b]. *)
Definition js_or (a b : value) : value := if truthy a then a else b.

Definition string_of_Z (z : Z) : string := NilZero.string_of_int (Z.to_int z).

(** ToString, as performed by a template literal.  An array prints its
    elements separated by commas, [null] and [undefined] as nothing
    ([Array.prototype.join]); a number is printed in full, as numbers below
    10^21 in absolute value are. *)
Fixpoint display (v : value) : string :=
  match v with
  | VUndefined => "undefined"
  | VNull => "null"
  | VBool true => "true"
  | VBool false => "false"
  | VNum n => string_of_Z n
  | VStr s => s
  | VObj _ => "[object Object]"
  | VArr items =>
      (fix join (l : list value) : string :=
         match l with
         | [] => EmptyString
         | x :: r =>
             let shown :=
               match x with
               | VUndefined | VNull => EmptyString
               | _ => display x
               end in
             match r with
             | [] => shown
             | _ :: _ => shown ++ "," ++ join r
             end
         end) items
  end.

(** [v === p] for a string [p]. *)
Definition strict_eq_string (v : value) (p : string) : bool :=
  match v with
  | VStr s => (s =? p)%string
  | _ => false
  end.

(** [String.prototype.includes]: [p] occurs in [s] at some position. *)
Fixpoint includes (s p : string) : bool :=
  prefix p s ||
  match s with
  | EmptyString => false
  | String _ s' => includes s' p
  end.

(** What the handlers read from a thrown value [error] through [error?.x]:
    every field is [VUndefined] when [error] is [null] or [undefined] or
    lacks the property; [err_toString] is the result of [error?.toString()]. *)
Record js_error : Type := mk_error {
  err_message : value;
  err_toString : value;
  err_code : value;
  err_errno : value;
  err_stack : value
}.

(** [process.memoryUsage()], in bytes. *)
Record memory_usage : Type := mk_mem {
  rss : Z;
  heapTotal : Z;
  heapUsed : Z;
  external : Z;
  arrayBuffers : Z
}.

Definition memory_value (m : memory_usage) : value :=
  VObj [("rss", VNum (rss m)); ("heapTotal", VNum (heapTotal m));
        ("heapUsed", VNum (heapUsed m)); ("external", VNum (external m));
        ("arrayBuffers", VNum (arrayBuffers m))].

(** [Math.round(bytes / 1024 / 1024)]: the division by a power of two is
    exact, and [Math.round] rounds half up. *)
Definition round_MB (bytes : Z) : Z := (bytes + 524288) / 1048576.

(** ** The disk *)

(** One line of the log file: [JSON.stringify(logEntry) + '\n'].  The
    [timestamp] is the instant whose ISO-8601 text is written. *)
Record log_entry : Type := mk_entry {
  le_timestamp : Z;
  le_type : string;
  le_data : value;
  le_pid : Z;
  le_uptime : Z;
  le_memoryUsage : memory_usage
}.

(** The object written to [restart-state.json] by [saveRestartState].  When
    read back, a field may be missing; [st_timestamp] is [None] as well when
    the text does not denote an instant ([new Date(x)] is then invalid).
    Documents whose counters are present but are not numbers are outside
    this type. *)
Record restart_state : Type := mk_state {
  st_restartCount : option Z;
  st_lastRestart : option Z;
  st_timestamp : option Z;
  st_pid : option Z;
  st_memoryUsage : option memory_usage;
  st_uptime : option Z
}.

(** What [JSON.parse] makes of a text that it accepts. *)
Inductive parsed : Type :=
| PNull                         (* null: reading a property throws *)
| PScalar                       (* number, string, boolean, array: properties read undefined *)
| PObject (d : restart_state).

(** A text file, up to what [JSON.parse] makes of it: either the text is
    rejected, or it is the serialisation of a value. *)
Inductive text : Type :=
| NotJSON (raw : string)
| JSONOf (p : parsed).

(** [JSON.stringify(state, null, 2)]. *)
Definition JSON_stringify (d : restart_state) : text := JSONOf (PObject d).

Record disk : Type := mk_disk {
  logs_dir : bool;                        (* the directory of the log file exists *)
  log_file : option (list log_entry);     (* logs/auto-restart.log *)
  state_file : option text;               (* restart-state.json *)
  pid_file : option string                (* nazuna.pid *)
}.

(** ** The world *)

(** Calls that leave the process, in the order they are made. *)
Inductive io_event : Type :=
| Ev_on (event : string)                         (* process.on(event, handler) *)
| Ev_setInterval (ms : Z)                        (* setInterval(checkMemoryUsage, ms) *)
| Ev_mkdir (path : string) (ok : bool)
| Ev_appendFile (path : string) (line : log_entry) (ok : bool)
| Ev_writeFile (path : string) (ok : bool)
| Ev_readFile (path : string) (ok : bool)
| Ev_unlink (path : string) (ok : bool)
| Ev_console (level : string) (msg : string)
| Ev_console_value (level : string) (msg : string) (v : value)
                                                 (* console[level](msg, v), v not a string *)
| Ev_setTimeout (at_ms : Z) (delay : Z) (code : Z)   (* setTimeout(() => process.exit(code), delay) *)
| Ev_exit (code : Z)                             (* process.exit(code), at once *)
| Ev_gc
| Ev_cache_clear
| Ev_exec (cmd : string)
| Ev_kill (signal : string).

(** What a write that fails leaves of its file.  [fs.writeFile] opens its
    target for writing, which empties it, and then writes the text: a
    failure before the file is open (EACCES, EMFILE) leaves the file as it
    was, a failure after (ENOSPC, EIO) leaves it empty or holding a
    beginning of the text. *)
Inductive damage : Type :=
| Untouched
| Torn (raw : string).

Record World : Type := mk_world {
  files : disk;
  trace : list io_event;
  clock : Z;                      (* Date.now() *)
  faults : list bool;             (* the next file operations that fail *)
  pid : Z;                        (* process.pid *)
  uptime : Z;                     (* process.uptime() *)
  memoryUsage : memory_usage;     (* process.memoryUsage() *)
  global_gc : bool;               (* global.gc is defined *)
  global_messagesCache : bool;    (* global.messagesCache is set, to a Map *)
  env_NAZUNA_RESTARTED : value;
  env_NAZUNA_RESTART_COUNT : value;
  damages : list damage           (* what the next writes that fail leave *)
}.

Definition set_files (f : disk) (w : World) : World :=
  mk_world f (trace w) (clock w) (faults w) (pid w) (uptime w) (memoryUsage w)
           (global_gc w) (global_messagesCache w)
           (env_NAZUNA_RESTARTED w) (env_NAZUNA_RESTART_COUNT w) (damages w).

Definition set_faults (l : list bool) (w : World) : World :=
  mk_world (files w) (trace w) (clock w) l (pid w) (uptime w) (memoryUsage w)
           (global_gc w) (global_messagesCache w)
           (env_NAZUNA_RESTARTED w) (env_NAZUNA_RESTART_COUNT w) (damages w).

Definition set_damages (l : list damage) (w : World) : World :=
  mk_world (files w) (trace w) (clock w) (faults w) (pid w) (uptime w)
           (memoryUsage w) (global_gc w) (global_messagesCache w)
           (env_NAZUNA_RESTARTED w) (env_NAZUNA_RESTART_COUNT w) l.

Definition emit (e : io_event) (w : World) : World :=
  mk_world (files w) (trace w ++ [e])%list (clock w) (faults w) (pid w) (uptime w)
           (memoryUsage w) (global_gc w) (global_messagesCache w)
           (env_NAZUNA_RESTARTED w) (env_NAZUNA_RESTART_COUNT w) (damages w).

(** ** The object *)

Record AutoRestarter : Type := mk_restarter {
  restartCount : Z;
  maxRestarts : Z;
  restartCooldown : Z;
  lastRestart : Z;
  criticalErrors : list string;
  logFile : string;
  pidFile : string;
  isShuttingDown : bool;
  childProcess : option bool      (* a tracked child and its [killed] flag *)
}.

Definition set_restartCount (n : Z) (a : AutoRestarter) : AutoRestarter :=
  mk_restarter n (maxRestarts a) (restartCooldown a) (lastRestart a)
               (criticalErrors a) (logFile a) (pidFile a) (isShuttingDown a)
               (childProcess a).

Definition set_lastRestart (t : Z) (a : AutoRestarter) : AutoRestarter :=
  mk_restarter (restartCount a) (maxRestarts a) (restartCooldown a) t
               (criticalErrors a) (logFile a) (pidFile a) (isShuttingDown a)
               (childProcess a).

Definition set_isShuttingDown (b : bool) (a : AutoRestarter) : AutoRestarter :=
  mk_restarter (restartCount a) (maxRestarts a) (restartCooldown a)
               (lastRestart a) (criticalErrors a) (logFile a) (pidFile a) b
               (childProcess a).

(** ** The monad *)

Record exn : Type := mk_exn { exn_name : string; exn_message : string }.

Inductive outcome (A : Type) : Type :=
| Return (a : A)
| Throw (e : exn)
| Exit (code : Z).       (* process.exit was called: nothing runs after it *)
Arguments Return {A} a.
Arguments Throw {A} e.
Arguments Exit {A} code.

Definition machine : Type := AutoRestarter * World.

Definition M (A : Type) : Type := machine -> outcome A * machine.

Definition ret {A} (a : A) : M A := fun m => (Return a, m).

Definition bind {A B} (c : M A) (k : A -> M B) : M B :=
  fun m =>
    match c m with
    | (Return a, m') => k a m'
    | (Throw e, m') => (Throw e, m')
    | (Exit n, m') => (Exit n, m')
    end.

(** [try { c } catch (error) { h error }]. *)
Definition try_catch {A} (c : M A) (h : exn -> M A) : M A :=
  fun m =>
    match c m with
    | (Throw e, m') => h e m'
    | r => r
    end.

Definition throw {A} (e : exn) : M A := fun m => (Throw e, m).

Declare Scope js_scope.
Delimit Scope js_scope with js.
Notation "x <- c ;; k" := (bind c (fun x => k))
  (at level 61, c at next level, right associativity) : js_scope.
Notation "c ;; k" := (bind c (fun _ => k))
  (at level 61, right associativity) : js_scope.
Local Open Scope js_scope.

Definition get_this : M AutoRestarter := fun m => (Return (fst m), m).
Definition get_world : M World := fun m => (Return (snd m), m).
Definition modify_this (f : AutoRestarter -> AutoRestarter) : M unit :=
  fun m => (Return tt, (f (fst m), snd m)).
Definition modify_world (f : World -> World) : M unit :=
  fun m => (Return tt, (fst m, f (snd m))).

(** ** Runtime primitives *)

(** The next file operation fails when the schedule says so. *)
Definition next_fault : M bool :=
  fun m =>
    (Return (hd false (faults (snd m))),
     (fst m, set_faults (tl (faults (snd m))) (snd m))).

(** What the next write that fails leaves of its file. *)
Definition next_damage : M damage :=
  fun m =>
    (Return (hd Untouched (damages (snd m))),
     (fst m, set_damages (tl (damages (snd m))) (snd m))).

Definition io (e : io_event) : M unit := modify_world (emit e).

Definition fs_error (code : string) : exn := mk_exn "Error" code.

Definition update_disk (f : disk -> disk) : M unit :=
  modify_world (fun w => set_files (f (files w)) w).

(** [fs.mkdir(dir, { recursive: true })]. *)
Definition fs_mkdir (dir : string) : M unit :=
  failed <- next_fault ;;
  if failed then io (Ev_mkdir dir false) ;; throw (fs_error "EACCES")
  else
    io (Ev_mkdir dir true) ;;
    update_disk (fun d => mk_disk true (log_file d) (state_file d) (pid_file d)).

(** [fs.appendFile(this.logFile, logLine)]: the file is created when absent;
    its directory has to exist. *)
Definition fs_appendFile (path : string) (line : log_entry) : M unit :=
  failed <- next_fault ;;
  w <- get_world ;;
  if failed then io (Ev_appendFile path line false) ;; throw (fs_error "EIO")
  else if negb (logs_dir (files w)) then
    io (Ev_appendFile path line false) ;; throw (fs_error "ENOENT")
  else
    io (Ev_appendFile path line true) ;;
    update_disk (fun d =>
      mk_disk (logs_dir d)
              (Some (match log_file d with Some l => l | None => [] end ++ [line])%list)
              (state_file d) (pid_file d)).

(** [fs.writeFile(stateFile, JSON.stringify(state, null, 2))].  The text of
    a state is an object in braces, so that neither the empty text nor a
    beginning of it is accepted by [JSON.parse]. *)
Definition fs_writeFile_state (path : string) (t : text) : M unit :=
  failed <- next_fault ;;
  if failed then
    io (Ev_writeFile path false) ;;
    left_behind <- next_damage ;;
    match left_behind with
    | Untouched => throw (fs_error "EACCES")
    | Torn raw =>
        update_disk (fun d => mk_disk (logs_dir d) (log_file d)
                                      (Some (NotJSON raw)) (pid_file d)) ;;
        throw (fs_error "ENOSPC")
    end
  else
    io (Ev_writeFile path true) ;;
    update_disk (fun d => mk_disk (logs_dir d) (log_file d) (Some t) (pid_file d)).

(** [fs.writeFile(this.pidFile, process.pid.toString())]. *)
Definition fs_writeFile_pid (path : string) (t : string) : M unit :=
  failed <- next_fault ;;
  if failed then
    io (Ev_writeFile path false) ;;
    left_behind <- next_damage ;;
    match left_behind with
    | Untouched => throw (fs_error "EACCES")
    | Torn raw =>
        update_disk (fun d => mk_disk (logs_dir d) (log_file d) (state_file d)
                                      (Some raw)) ;;
        throw (fs_error "ENOSPC")
    end
  else
    io (Ev_writeFile path true) ;;
    update_disk (fun d => mk_disk (logs_dir d) (log_file d) (state_file d) (Some t)).

(** [fs.readFile(stateFile, 'utf8')]: fails on a missing file, and on a file
    that is there but cannot be read. *)
Definition fs_readFile_state (path : string) : M text :=
  failed <- next_fault ;;
  w <- get_world ;;
  if failed then io (Ev_readFile path false) ;; throw (fs_error "EACCES")
  else
    match state_file (files w) with
    | None => io (Ev_readFile path false) ;; throw (fs_error "ENOENT")
    | Some t => io (Ev_readFile path true) ;; ret t
    end.

(** [fs.unlink(this.pidFile)]. *)
Definition fs_unlink_pid (path : string) : M unit :=
  failed <- next_fault ;;
  w <- get_world ;;
  if failed then io (Ev_unlink path false) ;; throw (fs_error "EACCES")
  else
    match pid_file (files w) with
    | None => io (Ev_unlink path false) ;; throw (fs_error "ENOENT")
    | Some _ =>
        io (Ev_unlink path true) ;;
        update_disk (fun d => mk_disk (logs_dir d) (log_file d) (state_file d) None)
    end.

(** [JSON.parse(stateData)]. *)
Definition JSON_parse (t : text) : M parsed :=
  match t with
  | NotJSON _ => throw (mk_exn "SyntaxError" "Unexpected token")
  | JSONOf p => ret p
  end.

Definition console_error (msg : string) : M unit := io (Ev_console "error" msg).
Definition console_warn (msg : string) : M unit := io (Ev_console "warn" msg).
Definition console_log (msg : string) : M unit := io (Ev_console "log" msg).

(** [console.error(msg, v)]: the two are printed with a space between them,
    a string as it is and any other value as [util.inspect] shows it. *)
Definition console_error_with (msg : string) (v : value) : M unit :=
  match v with
  | VStr s => console_error (msg ++ " " ++ s)
  | _ => io (Ev_console_value "error" msg v)
  end.

(** [setTimeout(() => { process.exit(code); }, delay)]. *)
Definition setTimeout_exit (code delay : Z) : M unit :=
  w <- get_world ;;
  io (Ev_setTimeout (clock w) delay code).

(** [process.exit(code)]. *)
Definition process_exit {A} (code : Z) : M A :=
  fun m => (Exit code, (fst m, emit (Ev_exit code) (snd m))).

(** [path.dirname] of a path that does not end in a separator: the path up
    to its last separator. *)
Fixpoint before_last_slash (p : string) : option string :=
  match p with
  | EmptyString => None
  | String c r =>
      match before_last_slash r with
      | Some d => Some (String c d)
      | None => if Ascii.eqb c "/"%char then Some EmptyString else None
      end
  end.

Definition path_dirname (p : string) : string :=
  match before_last_slash p with
  | Some EmptyString => "/"
  | Some d => d
  | None => "."
  end.

(** [Array.prototype.some] with a callback that may throw. *)
Fixpoint some {A} (l : list A) (f : A -> M bool) : M bool :=
  match l with
  | [] => ret false
  | x :: r => b <- f x ;; if b then ret true else some r f
  end.

(** [for (const x of l) { body }]. *)
Fixpoint for_of {A} (l : list A) (body : A -> M unit) : M unit :=
  match l with
  | [] => ret tt
  | x :: r => body x ;; for_of r body
  end.

(** [v.includes(p)]: a string has the method ([String.prototype.includes])
    and so has an array ([Array.prototype.includes], which looks for an
    element equal to [p]); no other value here has it. *)
Definition js_includes (v : value) (p : string) : M bool :=
  match v with
  | VStr s => ret (includes s p)
  | VArr items => ret (existsb (fun x => strict_eq_string x p) items)
  | _ => throw (mk_exn "TypeError" "errorMessage.includes is not a function")
  end.

(** Reading a property of what [JSON.parse] returned. *)
Definition empty_state : restart_state := mk_state None None None None None None.

Definition properties (p : parsed) : M restart_state :=
  match p with
  | PNull => throw (mk_exn "TypeError" "Cannot read properties of null")
  | PScalar => ret empty_state
  | PObject d => ret d
  end.

(** [x || 0] for a number or [undefined]. *)
Definition or_zero (x : option Z) : Z :=
  match x with
  | Some n => if (n =? 0)%Z then 0 else n
  | None => 0
  end.

Definition option_value (x : option Z) : value :=
  match x with
  | Some n => VNum n
  | None => VUndefined
  end.

(** ** The class *)

Section Supervisor.

(** [Date.prototype.toDateString] and [Date.prototype.toISOString] of an
    instant, in the zone of the process. *)
Variable toDateString : Z -> string.
Variable toISOString : Z -> string.

(** [new Date(state.timestamp).toDateString() === new Date().toDateString()]:
    an invalid date prints as no day. *)
Definition same_day (timestamp : option Z) (now : Z) : bool :=
  match timestamp with
  | Some t => (toDateString t =? toDateString now)%string
  | None => false
  end.

Definition stateFile : string := "restart-state.json".

Definition logEvent (type : string) (data : value) : M unit :=
  try_catch
    (this <- get_this ;;
     let logsDir := path_dirname (logFile this) in
     fs_mkdir logsDir ;;
     w <- get_world ;;
     let logEntry :=
       mk_entry (clock w) type data (pid w) (uptime w) (memoryUsage w) in
     fs_appendFile (logFile this) logEntry)
    (fun error =>
       console_error ("❌ Erro ao escrever log: " ++ exn_message error)).

Definition saveRestartState : M unit :=
  try_catch
    (this <- get_this ;;
     w <- get_world ;;
     let state :=
       mk_state (Some (restartCount this)) (Some (lastRestart this))
                (Some (clock w)) (Some (pid w)) (Some (memoryUsage w))
                (Some (uptime w)) in
     fs_writeFile_state stateFile (JSON_stringify state) ;;
     fs_writeFile_pid (pidFile this) (string_of_Z (pid w)))
    (fun error =>
       console_warn ("⚠️ Erro ao salvar estado: " ++ exn_message error)).

Definition forceRestart (reason : string) : M unit :=
  try_catch
    (logEvent "force_restart" (VStr reason) ;;
     saveRestartState)
    (fun _ => ret tt) ;;
  setTimeout_exit 1 1000.

Definition performEmergencyCleanup : M unit :=
  try_catch
    (w <- get_world ;;
     (if global_gc w then io Ev_gc else ret tt) ;;
     (if global_messagesCache w then io Ev_cache_clear else ret tt) ;;
     let tempDirs := ["/tmp/nazuna-*"; "./temp/*"] in
     for_of tempDirs (fun tempPattern =>
       try_catch
         (io (Ev_exec ("rm -rf " ++ tempPattern)))
         (fun _ => ret tt)))
    (fun error =>
       console_warn ("⚠️ Erro na limpeza emergencial: " ++ exn_message error)).

Definition loadRestartState : M unit :=
  try_catch
    (stateData <- fs_readFile_state stateFile ;;
     parsed_state <- JSON_parse stateData ;;
     state <- properties parsed_state ;;
     w <- get_world ;;
     if same_day (st_timestamp state) (clock w) then
       modify_this (set_restartCount (or_zero (st_restartCount state))) ;;
       modify_this (set_lastRestart (or_zero (st_lastRestart state))) ;;
       this <- get_this ;;
       logEvent "state_loaded"
         (VObj [("previousRestarts", VNum (restartCount this));
                ("previousPid", option_value (st_pid state))])
     else
       modify_this (set_restartCount 0) ;;
       modify_this (set_lastRestart 0))
    (fun _ =>
       modify_this (set_restartCount 0) ;;
       modify_this (set_lastRestart 0)).

Definition restartProcess : M unit :=
  try_catch
    (console_log "🔄 [RENDER RESTART] Solicitando reinício limpo via process.exit(0)..." ;;
     logEvent "restart_initiated_render"
       (VStr "O Render detectará o desligamento e reiniciará o container automaticamente.") ;;
     setTimeout_exit 0 2000)
    (fun error =>
       console_error ("❌ Falha na solicitação de reinício: " ++ exn_message error) ;;
       process_exit 1).

Definition gracefulShutdown (signal : string) : M unit :=
  this <- get_this ;;
  if isShuttingDown this then ret tt
  else
    modify_this (set_isShuttingDown true) ;;
    try_catch
      (logEvent "graceful_shutdown" (VStr signal) ;;
       this <- get_this ;;
       try_catch (fs_unlink_pid (pidFile this)) (fun _ => ret tt) ;;
       match childProcess this with
       | Some false => io (Ev_kill "SIGTERM")
       | _ => ret tt
       end ;;
       w <- get_world ;;
       (if global_gc w then io Ev_gc else ret tt) ;;
       setTimeout_exit
         (if (signal =? "MAX_RESTARTS_REACHED")%string then 1 else 0) 2000)
      (fun error =>
         console_error ("❌ Erro durante shutdown: " ++ exn_message error) ;;
         process_exit 1).

Definition initiateRestart (reason : string) : M unit :=
  this <- get_this ;;
  if isShuttingDown this then ret tt
  else
    w <- get_world ;;
    let now := clock w in
    if (now - lastRestart this <? restartCooldown this)%Z then
      logEvent "restart_blocked"
        (VStr ("Restart bloqueado por cooldown. Razão: " ++ reason))
    else if (restartCount this >=? maxRestarts this)%Z then
      logEvent "restart_limit"
        (VStr ("Limite de " ++ string_of_Z (maxRestarts this)
               ++ " reinicializações atingido. Sistema será finalizado.")) ;;
      gracefulShutdown "MAX_RESTARTS_REACHED"
    else
      modify_this (fun a => set_restartCount (restartCount a + 1) a) ;;
      modify_this (set_lastRestart now) ;;
      modify_this (set_isShuttingDown true) ;;
      this <- get_this ;;
      logEvent "restart_initiated"
        (VObj [("reason", VStr reason);
               ("count", VNum (restartCount this));
               ("maxRestarts", VNum (maxRestarts this))]) ;;
      try_catch
        (performEmergencyCleanup ;;
         saveRestartState ;;
         restartProcess)
        (fun error =>
           console_error ("❌ Erro durante reinicialização: " ++ exn_message error) ;;
           forceRestart "Falha no processo de reinicialização").

(** The normalised message and code of a thrown value. *)
Definition errorMessage_of (error : js_error) : value :=
  js_or (err_message error) (js_or (err_toString error) (VStr "Erro desconhecido")).

Definition errorCode_of (error : js_error) : value :=
  js_or (err_code error) (js_or (err_errno error) (VStr "UNKNOWN")).

(** The block guarded by the [try] of [handleCriticalError]. *)
Definition handleCriticalError_try (type : string) (error : js_error) : M unit :=
  let errorMessage := errorMessage_of error in
  let errorCode := errorCode_of error in
  this <- get_this ;;
  w <- get_world ;;
  logEvent "critical_error"
    (VObj [("type", VStr type);
           ("message", errorMessage);
           ("code", errorCode);
           ("stack", js_or (err_stack error) (VStr "Stack não disponível"));
           ("timestamp", VStr (toISOString (clock w)));
           ("memoryUsage", memory_value (memoryUsage w));
           ("restartCount", VNum (restartCount this))]) ;;
  this <- get_this ;;
  needsRestart <- some (criticalErrors this) (fun criticalError =>
                    b <- js_includes errorMessage criticalError ;;
                    ret (b || strict_eq_string errorCode criticalError)) ;;
  if needsRestart then
    initiateRestart ("Erro crítico detectado: " ++ display errorCode
                     ++ " - " ++ display errorMessage)
  else
    console_error_with ("❌ Erro não crítico capturado (" ++ type ++ "):")
                       errorMessage.

Definition handleCriticalError (type : string) (error : js_error) : M unit :=
  try_catch
    (handleCriticalError_try type error)
    (fun logError =>
       console_error ("❌ Erro ao processar erro crítico: " ++ exn_message logError) ;;
       forceRestart "Falha no sistema de logs").

Definition checkMemoryUsage : M unit :=
  try_catch
    (w <- get_world ;;
     let memUsage := memoryUsage w in
     let memUsedMB := round_MB (heapUsed memUsage) in
     let memTotalMB := round_MB (heapTotal memUsage) in
     (if (memUsedMB >? 512)%Z then
        logEvent "high_memory"
          (VObj [("heapUsed", VNum memUsedMB);
                 ("heapTotal", VNum memTotalMB);
                 ("rss", VNum (round_MB (rss memUsage)));
                 ("external", VNum (round_MB (external memUsage)))])
      else ret tt) ;;
     (if (memUsedMB >? 1024)%Z then
        initiateRestart ("Uso crítico de memória: " ++ string_of_Z memUsedMB ++ "MB")
      else ret tt))
    (fun error =>
       console_error ("❌ Erro ao verificar uso de memória: " ++ exn_message error)).

Definition start : M unit :=
  try_catch
    (loadRestartState ;;
     this <- get_this ;;
     w <- get_world ;;
     logEvent "auto_restart_started"
       (VObj [("restartCount", VNum (restartCount this));
              ("maxRestarts", VNum (maxRestarts this));
              ("pid", VNum (pid w))]) ;;
     if strict_eq_string (env_NAZUNA_RESTARTED w) "true" then
       logEvent "restart_success"
         (VObj [("previousRestartCount",
                 js_or (env_NAZUNA_RESTART_COUNT w) (VStr "unknown"))])
     else ret tt)
    (fun error =>
       console_error ("❌ Erro ao iniciar sistema de auto-restart: " ++ exn_message error)).

Definition stop : M unit :=
  modify_this (set_isShuttingDown true) ;;
  logEvent "auto_restart_stopped" (VStr "Manual stop").

Definition getStats : M value :=
  this <- get_this ;;
  w <- get_world ;;
  ret (VObj [("restartCount", VNum (restartCount this));
             ("maxRestarts", VNum (maxRestarts this));
             ("lastRestart", VNum (lastRestart this));
             ("isShuttingDown", VBool (isShuttingDown this));
             ("uptime", VNum (uptime w));
             ("memoryUsage", memory_value (memoryUsage w));
             ("pid", VNum (pid w))]).

Definition manualRestart (reason : string) : M unit :=
  logEvent "manual_restart" (VStr reason) ;;
  initiateRestart reason.

(** *** Construction *)

Definition setupErrorHandlers : M unit :=
  io (Ev_on "uncaughtException") ;;
  io (Ev_on "unhandledRejection") ;;
  io (Ev_on "warning") ;;
  io (Ev_setInterval 60000).

Definition setupGracefulShutdown : M unit :=
  let signals := ["SIGTERM"; "SIGINT"; "SIGUSR2"] in
  for_of signals (fun signal => io (Ev_on signal)).

(** The fields as the constructor assigns them. *)
Definition fresh : AutoRestarter :=
  mk_restarter 0 5 30000 0
    ["ENOSPC"; "ENOMEM"; "EMFILE"; "ECONNRESET"; "ERR_UNHANDLED_ERROR";
     "UnhandledPromiseRejectionWarning"]
    "logs/auto-restart.log" "nazuna.pid" false None.

Definition constructor : M unit :=
  modify_this (fun _ => fresh) ;;
  setupErrorHandlers ;;
  setupGracefulShutdown.

(** *** The callbacks installed by the constructor *)

Definition on_uncaughtException (error : js_error) : M unit :=
  handleCriticalError "uncaughtException" error.

Definition on_unhandledRejection (reason : js_error) : M unit :=
  handleCriticalError "unhandledRejection" reason.

Definition on_warning (name message : string) : M unit :=
  if (name =? "MaxListenersExceededWarning")%string then
    logEvent "warning" (VStr ("MaxListeners exceeded: " ++ message))
  else ret tt.

Definition on_interval : M unit := checkMemoryUsage.

Definition on_signal (signal : string) : M unit := gracefulShutdown signal.

End Supervisor.

(** ** How a process ends *)

(** The timers armed with [process.exit], as (due time, exit code). *)
Fixpoint exit_timers (t : list io_event) : list (Z * Z) :=
  match t with
  | [] => []
  | Ev_setTimeout at_ms delay code :: r => (at_ms + delay, code) :: exit_timers r
  | _ :: r => exit_timers r
  end.

(** The timer that fires first: the least due time, and among equal due
    times the one armed first. *)
Fixpoint first_due (l : list (Z * Z)) : option (Z * Z) :=
  match l with
  | [] => None
  | (due, code) :: r =>
      match first_due r with
      | Some (due', code') =>
          if (due' <? due)%Z then Some (due', code') else Some (due, code)
      | None => Some (due, code)
      end
  end.

(** A direct call of [process.exit] in the trace. *)
Fixpoint exited (t : list io_event) : option Z :=
  match t with
  | [] => None
  | Ev_exit code :: _ => Some code
  | _ :: r => exited r
  end.

(** The exit code the process ends with, if its trace ends it at all. *)
Definition exit_code (t : list io_event) : option Z :=
  match exited t with
  | Some code => Some code
  | None => option_map snd (first_due (exit_timers t))
  end.

(** Events that neither arm an exit timer nor exit. *)
Definition quiet (e : io_event) : bool :=
  match e with
  | Ev_setTimeout _ _ _ | Ev_exit _ => false
  | _ => true
  end.

(** The lines of the log file. *)
Definition lines (w : World) : list log_entry :=
  match log_file (files w) with
  | Some l => l
  | None => []
  end.

(** ** The life of a deployment *)

(** The public entry points of an instance (JavaScript has no private
    methods: every method can be called from outside). *)
Inductive call : Type :=
| Call_start
| Call_stop
| Call_getStats
| Call_manualRestart (reason : string)
| Call_handleCriticalError (type : string) (error : js_error)
| Call_checkMemoryUsage
| Call_initiateRestart (reason : string)
| Call_forceRestart (reason : string)
| Call_performEmergencyCleanup
| Call_saveRestartState
| Call_loadRestartState
| Call_restartProcess
| Call_gracefulShutdown (signal : string)
| Call_logEvent (type : string) (data : value)
| Call_warning (name message : string).

(** What the environment decides between two calls: the time, the memory
    in use, which file operations will fail and what the failing writes
    leave, and the runtime flags.  The disk, the trace and the process id
    are not the environment's to change: the files belong to the
    supervisor. *)
Record environment : Type := mk_env {
  env_clock : Z;
  env_faults : list bool;
  env_uptime : Z;
  env_memoryUsage : memory_usage;
  env_gc : bool;
  env_messagesCache : bool;
  env_damages : list damage
}.

Definition observe (e : environment) (w : World) : World :=
  mk_world (files w) (trace w) (env_clock e) (env_faults e) (pid w)
           (env_uptime e) (env_memoryUsage e) (env_gc e) (env_messagesCache e)
           (env_NAZUNA_RESTARTED w) (env_NAZUNA_RESTART_COUNT w) (env_damages e).

(** A new process over the disk the previous one left. *)
Definition relaunch (e : environment) (new_pid : Z) (restarted count : value)
  (w : World) : World :=
  mk_world (files w) [] (env_clock e) (env_faults e) new_pid
           (env_uptime e) (env_memoryUsage e) (env_gc e) (env_messagesCache e)
           restarted count (env_damages e).

Definition discard {A} (c : M A) : M unit := c ;; ret tt.

(** The state file is the supervisor's own: when it holds a state, the
    count in it is one the supervisor may have written. *)
Definition trusted (d : disk) : Prop :=
  forall doc, state_file d = Some (JSONOf (PObject doc)) ->
              (or_zero (st_restartCount doc) <= 5)%Z.

Section Lifecycle.

Variable toDateString : Z -> string.
Variable toISOString : Z -> string.

Definition run (c : call) : M unit :=
  match c with
  | Call_start => start toDateString
  | Call_stop => stop
  | Call_getStats => discard getStats
  | Call_manualRestart reason => manualRestart reason
  | Call_handleCriticalError type error => handleCriticalError toISOString type error
  | Call_checkMemoryUsage => checkMemoryUsage
  | Call_initiateRestart reason => initiateRestart reason
  | Call_forceRestart reason => forceRestart reason
  | Call_performEmergencyCleanup => performEmergencyCleanup
  | Call_saveRestartState => saveRestartState
  | Call_loadRestartState => loadRestartState toDateString
  | Call_restartProcess => restartProcess
  | Call_gracefulShutdown signal => gracefulShutdown signal
  | Call_logEvent type data => logEvent type data
  | Call_warning name message => on_warning name message
  end.

(** The machine states a deployment goes through: a process is started on
    a disk whose state file is the supervisor's own, its methods are called
    in any order in any environment, and the process may be replaced by a
    new one on the same disk at any time. *)
Inductive reachable : machine -> Prop :=
| reach_boot : forall a0 w0,
    trusted (files w0) ->
    reachable (snd (constructor (a0, w0)))
| reach_call : forall a w e c,
    reachable (a, w) ->
    reachable (snd (run c (a, observe e w)))
| reach_relaunch : forall a w e p v1 v2,
    reachable (a, w) ->
    reachable (snd (constructor (a, relaunch e p v1 v2 w))).

(** A sequence of calls, each in the environment of its moment. *)
Fixpoint run_all (calls : list (environment * call)) (m : machine) : machine :=
  match calls with
  | [] => m
  | (e, c) :: r => run_all r (snd (run c (fst m, observe e (snd m))))
  end.

End Lifecycle.

(** The policy parameters held by the object. *)
Definition config (a : AutoRestarter) : Z * Z * list string :=
  (maxRestarts a, restartCooldown a, criticalErrors a).

(** The log types that mark the start of a restart or of a shutdown. *)
Definition ordinary (type : string) : bool :=
  negb (type =? "restart_initiated")%string
  && negb (type =? "graceful_shutdown")%string.

(** * The download helpers *)

(** ** File names *)

(** Where the code looks at the characters of a string one by one, the
    string is the sequence of its UTF-16 code units. *)
Definition is_digit_unit (c : N) : bool := ((48 <=? c) && (c <=? 57))%N.
Definition is_lower_unit (c : N) : bool := ((97 <=? c) && (c <=? 122))%N.
Definition is_upper_unit (c : N) : bool := ((65 <=? c) && (c <=? 90))%N.

(** [name.replace(/[^a-z0-9]/gi, '_')]: every unit outside [a-z], [A-Z] and
    [0-9] becomes an underscore (without the [u] flag, ignoring case never
    maps a unit above 127 onto an ASCII letter). *)
Definition replace_non_alnum (name : list N) : list N :=
  map (fun c =>
         if is_lower_unit c || is_upper_unit c || is_digit_unit c then c
         else 95%N) name.

Section FileNames.

(** [String.prototype.toLowerCase]. *)
Variable toLowerCase : list N -> list N.

Definition sanitizeFileName (name : list N) : list N :=
  toLowerCase (replace_non_alnum name).

End FileNames.

(** ** Running the downloader *)

(** What [exec] reports for a command: the error handed to its callback if
    the command failed, the text on its two outputs, and the files that
    exist once it has ended. *)
Record exec_result : Type := mk_exec {
  exec_error : option string;        (* error.message *)
  exec_stdout : string;
  exec_stderr : string;
  exists_after : string -> bool      (* fs.existsSync *)
}.

Inductive promise (A : Type) : Type :=
| Resolved (a : A)
| Rejected (message : string).
Arguments Resolved {A} a.
Arguments Rejected {A} message.

(** The double quote. *)
Definition quote_mark : string := String (ascii_of_nat 34) EmptyString.

(** [path.join(dir, name)] for a normalised [dir] and a plain [name]. *)
Definition path_join (dir name : string) : string := dir ++ "/" ++ name.

(** [x || y] on strings. *)
Definition or_string (x y : string) : string :=
  if (x =? EmptyString)%string then y else x.

Section Downloads.

(** [child_process.exec], and the folder for temporary files. *)
Variable shell : string -> exec_result.
Variable TEMP_FOLDER : string.

Definition mp3_command (url outputPath bitrate : string) : string :=
  "python3 -m yt_dlp --no-playlist --no-check-certificate -f "
  ++ quote_mark ++ "ba" ++ quote_mark ++ " -o - "
  ++ quote_mark ++ url ++ quote_mark
  ++ " | ffmpeg -i pipe:0 -vn -acodec libmp3lame -ab " ++ bitrate
  ++ " -preset ultrafast -threads 0 -f mp3 "
  ++ quote_mark ++ outputPath ++ quote_mark.

(** The lines written on the console, and how the promise settles. *)
Definition downloadMp3V2 (url outputPath bitrate : string)
  : list string * promise string :=
  let command := mp3_command url outputPath bitrate in
  let r := shell command in
  match exec_error r with
  | Some message =>
      (["[ERRO DOWNLOAD V2]: " ++ or_string (exec_stderr r) message],
       Rejected "❌ Falha na conversão de áudio. Tente o modo rápido.")
  | None =>
      if negb (exists_after r outputPath) then
        ([], Rejected "❌ Arquivo de saída não foi gerado.")
      else ([], Resolved outputPath)
  end.

Definition mp4_fileName (timestamp : Z) : string :=
  path_join TEMP_FOLDER ("video_" ++ string_of_Z timestamp ++ ".mp4").

Definition mp4_command (fileName videoUrl : string) : string :=
  "python3 -m yt_dlp -f "
  ++ quote_mark ++ "best[height<=720][ext=mp4]/best[ext=mp4]/best" ++ quote_mark
  ++ " --output " ++ quote_mark ++ fileName ++ quote_mark
  ++ " --restrict-filenames " ++ quote_mark ++ videoUrl ++ quote_mark.

(** The guarded block of [downloadYoutubeMp4_Fast], started at [now]: the
    file name, or the error thrown. *)
Definition downloadYoutubeMp4_Fast_try (videoUrl : string) (now : Z)
  : string + string :=
  let timestamp := now in
  let fileName := mp4_fileName timestamp in
  let command := mp4_command fileName videoUrl in
  let r := shell command in
  match exec_error r with
  | Some message => inr message
  | None =>
      if negb (exists_after r fileName) then
        inr "Erro: Arquivo não encontrado após download."
      else inl fileName
  end.

Definition downloadYoutubeMp4_Fast (videoUrl : string) (now : Z)
  : list string * promise string :=
  match downloadYoutubeMp4_Fast_try videoUrl now with
  | inl fileName => ([], Resolved fileName)
  | inr message =>
      (["ERRO NO DOWNLOAD DE VÍDEO: " ++ message],
       Rejected "❌ Falha ao baixar o vídeo. O arquivo pode ser muito grande ou o link está protegido.")
  end.

Definition m4a_fileName (timestamp : Z) : string :=
  path_join TEMP_FOLDER ("audio_" ++ string_of_Z timestamp ++ ".m4a").

Definition user_agent : string :=
  "Mozilla/5.0 (Windows NT 10.0; Win64; x64) AppleWebKit/537.36 (KHTML, like Gecko) Chrome/119.0.0.0 Safari/537.36".

Definition m4a_command (fileName videoUrl : string) : string :=
  "python3 -m yt_dlp -f "
  ++ quote_mark ++ "bestaudio[ext=m4a]" ++ quote_mark
  ++ " --output " ++ quote_mark ++ fileName ++ quote_mark
  ++ " --restrict-filenames " ++ quote_mark ++ videoUrl ++ quote_mark
  ++ " --user-agent " ++ quote_mark ++ user_agent ++ quote_mark
  ++ " --no-check-certificate --geo-bypass".

Definition downloadYoutubeM4A_Fast_try (videoUrl : string) (now : Z)
  : string + string :=
  let timestamp := now in
  let fileName := m4a_fileName timestamp in
  let command := m4a_command fileName videoUrl in
  let r := shell command in
  match exec_error r with
  | Some message => inr message
  | None =>
      if negb (exists_after r fileName) then
        inr "Arquivo não encontrado após o download."
      else inl fileName
  end.

Definition downloadYoutubeM4A_Fast (videoUrl : string) (now : Z)
  : list string * promise string :=
  match downloadYoutubeM4A_Fast_try videoUrl now with
  | inl fileName => ([], Resolved fileName)
  | inr message =>
      (["Erro no download de áudio: " ++ message],
       Rejected "❌ Falha ao baixar a música no modo rápido. Tente novamente mais tarde.")
  end.

End Downloads.

(** ** Looking a video up *)

(** The document [yt-dlp --dump-json] prints, as far as it is read; a field
    that is absent reads [VUndefined].  Documents whose [view_count] is
    present but is not a number are outside this type. *)
Record video_document : Type := mk_document {
  doc_title : value;
  doc_channel : value;
  doc_view_count : option Z;
  doc_duration_string : value;
  doc_webpage_url : value;
  doc_thumbnail : value;
  doc_duration : value;
  doc_id : value
}.

(** What [JSON.parse] makes of the output when it accepts it. *)
Inductive parsed_document : Type :=
| DNull                         (* null: reading a property throws *)
| DScalar                       (* number, string, boolean, array: properties read undefined *)
| DObject (d : video_document).

(** The object [getVideoMetadata] returns. *)
Record video_metadata : Type := mk_metadata {
  vm_title : value;
  vm_author : value;
  vm_views : value;
  vm_duration : value;
  vm_url : value;
  vm_thumbnail : value;
  vm_seconds : value;
  vm_id : value
}.

Definition no_document : video_document :=
  mk_document VUndefined VUndefined None VUndefined VUndefined VUndefined
              VUndefined VUndefined.

Section Metadata.

Variable shell : string -> exec_result.

(** [JSON.parse]: the message of the [SyntaxError], or the document. *)
Variable JSON_parse_document : string -> string + parsed_document.

(** [Number.prototype.toLocaleString('pt-BR')]. *)
Variable toLocaleString_pt_BR : Z -> string.

Definition metadata_command (query : string) : string :=
  "python3 -m yt_dlp --dump-json "
  ++ quote_mark ++ "ytsearch1:" ++ query ++ quote_mark
  ++ " --no-playlist --restrict-filenames --user-agent "
  ++ quote_mark ++ user_agent ++ quote_mark
  ++ " --no-check-certificate --geo-bypass".

(** [metadata.view_count ? metadata.view_count.toLocaleString('pt-BR') : 'N/A']. *)
Definition views_of (view_count : option Z) : value :=
  match view_count with
  | Some n => if (n =? 0)%Z then VStr "N/A" else VStr (toLocaleString_pt_BR n)
  | None => VStr "N/A"
  end.

Definition metadata_of (metadata : video_document) : video_metadata :=
  mk_metadata (doc_title metadata) (doc_channel metadata)
              (views_of (doc_view_count metadata))
              (js_or (doc_duration_string metadata) (VStr "N/A"))
              (doc_webpage_url metadata) (doc_thumbnail metadata)
              (doc_duration metadata) (doc_id metadata).

(** The guarded block of [getVideoMetadata]: the object returned, or the
    message of the error thrown. *)
Definition getVideoMetadata_try (query : string) : video_metadata + string :=
  let command := metadata_command query in
  let r := shell command in
  match exec_error r with
  | Some message => inr message
  | None =>
      match JSON_parse_document (exec_stdout r) with
      | inl message => inr message
      | inr DNull => inr "Cannot read properties of null (reading 'title')"
      | inr DScalar => inl (metadata_of no_document)
      | inr (DObject metadata) => inl (metadata_of metadata)
      end
  end.

Definition getVideoMetadata (query : string)
  : list string * promise video_metadata :=
  match getVideoMetadata_try query with
  | inl metadata => ([], Resolved metadata)
  | inr message =>
      (["Erro ao buscar metadados: " ++ message],
       Rejected "❌ Falha ao buscar informações da música. Verifique se o link é válido.")
  end.

End Metadata.

(** * The vocabulary of the properties *)

(** ** Worlds and computations *)

(** [w'] continues [w]: the environment is the same and the trace has grown
    by events none of which ends the process. *)
Record continues (w w' : World) : Prop := mk_continues {
  cont_clock : clock w' = clock w;
  cont_pid : pid w' = pid w;
  cont_uptime : uptime w' = uptime w;
  cont_memoryUsage : memoryUsage w' = memoryUsage w;
  cont_gc : global_gc w' = global_gc w;
  cont_cache : global_messagesCache w' = global_messagesCache w;
  cont_restarted : env_NAZUNA_RESTARTED w' = env_NAZUNA_RESTARTED w;
  cont_count : env_NAZUNA_RESTART_COUNT w' = env_NAZUNA_RESTART_COUNT w;
  cont_trace : exists l, trace w' = (trace w ++ l)%list /\ forallb quiet l = true
}.

(** A computation is tame when, whatever the faults, it returns or throws,
    leaves the object alone and the world continued; it is calm when
    moreover it never throws. *)
Definition tame {A} (c : M A) : Prop :=
  forall a w, exists w',
    continues w w' /\
    ((exists x, c (a, w) = (Return x, (a, w'))) \/
     (exists e, c (a, w) = (Throw e, (a, w')))).

Definition calm {A} (c : M A) : Prop :=
  forall a w, exists x w', c (a, w) = (Return x, (a, w')) /\ continues w w'.

(** ** Invariants *)

(** What an invariant [I] of the machine has to respect so that the runtime
    primitives keep it; [allowed] tells which log types may be appended
    under it. *)
Record runtime_invariant (I : machine -> Prop) (allowed : string -> bool) : Prop :=
  mk_runtime_invariant {
  ri_emit : forall e a w, I (a, w) -> I (a, emit e w);
  ri_faults : forall l a w, I (a, w) -> I (a, set_faults l w);
  ri_files : forall d a w,
    I (a, w) ->
    state_file d = state_file (files w) ->
    log_file d = log_file (files w) ->
    I (a, set_files d w);
  ri_append : forall line a w,
    allowed (le_type line) = true ->
    I (a, w) ->
    I (a, set_files (mk_disk (logs_dir (files w))
                             (Some (lines w ++ [line])%list)
                             (state_file (files w)) (pid_file (files w))) w);
  ri_save : forall a w ts p mem up,
    I (a, w) ->
    I (a, set_files
            (mk_disk (logs_dir (files w)) (log_file (files w))
               (Some (JSON_stringify
                        (mk_state (Some (restartCount a)) (Some (lastRestart a))
                                  ts p mem up)))
               (pid_file (files w))) w);
  ri_latch : forall a w, I (a, w) -> I (set_isShuttingDown true a, w);
  ri_damages : forall l a w, I (a, w) -> I (a, set_damages l w);
  ri_tear : forall raw a w,
    I (a, w) ->
    I (a, set_files (mk_disk (logs_dir (files w)) (log_file (files w))
                             (Some (NotJSON raw)) (pid_file (files w))) w)
}.

(** A computation keeps the invariant [I]. *)
Definition keeps (I : machine -> Prop) {A} (c : M A) : Prop :=
  forall m, I m -> I (snd (c m)).

(** The types logged by the methods other than [initiateRestart],
    [gracefulShutdown] and [loadRestartState]. *)
Definition helper_types : list string :=
  ["critical_error"; "force_restart"; "high_memory"; "auto_restart_started";
   "restart_success"; "manual_restart"; "warning"; "auto_restart_stopped";
   "restart_initiated_render"].

(** A call respects [allowed] when it does not hand [logEvent] a type
    that is not. *)
Definition respects (allowed : string -> bool) (c : call) : bool :=
  match c with
  | Call_logEvent type _ => allowed type
  | _ => true
  end.

(** ** Outcomes *)

(** [c] returns: it neither throws nor exits, whatever the machine. *)
Definition returns {A} (c : M A) : Prop :=
  forall m, exists x m', c m = (Return x, m').

(** [c] does not exit: it returns or throws. *)
Definition stays {A} (c : M A) : Prop :=
  forall m, (exists x m', c m = (Return x, m')) \/ (exists e m', c m = (Throw e, m')).

(** ** Classification *)

(** [p] occurs in [s]. *)
Definition occurs_in (p s : string) : Prop :=
  exists before after, s = before ++ p ++ after.

(** The decision of [handleCriticalError] on a message that is a string. *)
Definition needsRestart (patterns : list string) (errorMessage : string)
  (errorCode : value) : bool :=
  existsb (fun criticalError =>
             includes errorMessage criticalError
             || strict_eq_string errorCode criticalError) patterns.

(** ** The effect of each method on the world *)

(** The line [logEvent] writes. *)
Definition log_line (type : string) (data : value) (w : World) : log_entry :=
  mk_entry (clock w) type data (pid w) (uptime w) (memoryUsage w).

(** The world after [logEvent]: the directory cannot be made, or the line
    cannot be appended, or the line is appended. *)
Definition logged (type : string) (data : value) (a : AutoRestarter) (w : World)
  : World :=
  let dir := path_dirname (logFile a) in
  let w1 := set_faults (tl (faults w)) w in
  if hd false (faults w) then
    emit (Ev_console "error" "❌ Erro ao escrever log: EACCES")
         (emit (Ev_mkdir dir false) w1)
  else
    let w2 :=
      set_faults (tl (tl (faults w)))
        (set_files (mk_disk true (log_file (files w)) (state_file (files w))
                            (pid_file (files w)))
                   (emit (Ev_mkdir dir true) w1)) in
    let line := log_line type data w in
    if hd false (tl (faults w)) then
      emit (Ev_console "error" "❌ Erro ao escrever log: EIO")
           (emit (Ev_appendFile (logFile a) line false) w2)
    else
      set_files (mk_disk true (Some (lines w ++ [line])%list)
                         (state_file (files w)) (pid_file (files w)))
                (emit (Ev_appendFile (logFile a) line true) w2).

(** The policy parameters are [c0]. *)
Definition has_config (c0 : Z * Z * list string) (m : machine) : Prop :=
  config (fst m) = c0.

(** The latch is set, and the log has grown since [base] by ordinary lines
    only. *)
Definition latched_since (base : list log_entry) (m : machine) : Prop :=
  isShuttingDown (fst m) = true /\
  exists l, lines (snd m) = (base ++ l)%list /\
            forallb (fun e => ordinary (le_type e)) l = true.

(** The object with its counters reset, and with the counters of a state. *)
Definition zeroed (a : AutoRestarter) : AutoRestarter :=
  set_lastRestart 0 (set_restartCount 0 a).

Definition restored (d : restart_state) (a : AutoRestarter) : AutoRestarter :=
  set_lastRestart (or_zero (st_lastRestart d))
                  (set_restartCount (or_zero (st_restartCount d)) a).

(** The state [loadRestartState] accepts: the file can be read, parses to
    an object, and was saved on the day of the load. *)
Definition accepted (toDateString : Z -> string) (w : World) : option restart_state :=
  if hd false (faults w) then None
  else
    match state_file (files w) with
    | Some (JSONOf (PObject d)) =>
        if same_day toDateString (st_timestamp d) (clock w) then Some d else None
    | _ => None
    end.

(** The world once the file has been read, or not. *)
Definition read_attempt (w : World) : World :=
  emit (Ev_readFile stateFile
          (negb (hd false (faults w))
           && match state_file (files w) with Some _ => true | None => false end))
       (set_faults (tl (faults w)) w).

(** The machine after [loadRestartState]. *)
Definition loaded (toDateString : Z -> string) (a : AutoRestarter) (w : World)
  : machine :=
  match accepted toDateString w with
  | Some d =>
      (restored d a,
       logged "state_loaded"
         (VObj [("previousRestarts", VNum (or_zero (st_restartCount d)));
                ("previousPid", option_value (st_pid d))])
         (restored d a) (read_attempt w))
  | None => (zeroed a, read_attempt w)
  end.

(** The state [saveRestartState] serialises. *)
Definition saved_state (a : AutoRestarter) (w : World) : restart_state :=
  mk_state (Some (restartCount a)) (Some (lastRestart a)) (Some (clock w))
           (Some (pid w)) (Some (memoryUsage w)) (Some (uptime w)).

(** The world after a write of [path] has failed and the failure has been
    reported by [saveRestartState]; [tear] puts what is left into the
    file. *)
Definition write_failed (path : string) (tear : string -> disk -> disk)
  (w : World) : World :=
  let w1 := set_damages (tl (damages w)) (emit (Ev_writeFile path false) w) in
  match hd Untouched (damages w) with
  | Untouched => emit (Ev_console "warn" "⚠️ Erro ao salvar estado: EACCES") w1
  | Torn raw =>
      emit (Ev_console "warn" "⚠️ Erro ao salvar estado: ENOSPC")
           (set_files (tear raw (files w)) w1)
  end.

(** The world after [saveRestartState]: the state cannot be written, or the
    pid cannot, or both are. *)
Definition saved (a : AutoRestarter) (w : World) : World :=
  let w1 := set_faults (tl (faults w)) w in
  if hd false (faults w) then
    write_failed stateFile
      (fun raw d => mk_disk (logs_dir d) (log_file d) (Some (NotJSON raw))
                            (pid_file d)) w1
  else
    let w2 :=
      set_faults (tl (tl (faults w)))
        (set_files (mk_disk (logs_dir (files w)) (log_file (files w))
                            (Some (JSON_stringify (saved_state a w)))
                            (pid_file (files w)))
                   (emit (Ev_writeFile stateFile true) w1)) in
    if hd false (tl (faults w)) then
      write_failed (pidFile a)
        (fun raw d => mk_disk (logs_dir d) (log_file d) (state_file d) (Some raw))
        w2
    else
      set_files (mk_disk (logs_dir (files w)) (log_file (files w))
                         (Some (JSON_stringify (saved_state a w)))
                         (Some (string_of_Z (pid w))))
                (emit (Ev_writeFile (pidFile a) true) w2).

(** The count is within the limit, the limit is the constructor's, and the
    state file is trusted. *)
Definition within_limit (m : machine) : Prop :=
  (restartCount (fst m) <= maxRestarts (fst m))%Z /\
  maxRestarts (fst m) = 5%Z /\
  trusted (files (snd m)).

(** The world after [performEmergencyCleanup]. *)
Definition cleaned (w : World) : World :=
  let w1 := if global_gc w then emit Ev_gc w else w in
  let w2 := if global_messagesCache w then emit Ev_cache_clear w1 else w1 in
  emit (Ev_exec "rm -rf ./temp/*") (emit (Ev_exec "rm -rf /tmp/nazuna-*") w2).

(** The world after the guarded [fs.unlink(this.pidFile)]. *)
Definition unlinked (a : AutoRestarter) (w : World) : World :=
  let w1 := set_faults (tl (faults w)) w in
  if hd false (faults w) then emit (Ev_unlink (pidFile a) false) w1
  else
    match pid_file (files w) with
    | None => emit (Ev_unlink (pidFile a) false) w1
    | Some _ =>
        set_files (mk_disk (logs_dir (files w)) (log_file (files w))
                           (state_file (files w)) None)
                  (emit (Ev_unlink (pidFile a) true) w1)
    end.

(** The world after a shutdown that was not behind the latch. *)
Definition shut_down (signal : string) (a : AutoRestarter) (w : World) : World :=
  let w1 := logged "graceful_shutdown" (VStr signal) a w in
  let w2 := unlinked a w1 in
  let w3 := match childProcess a with
            | Some false => emit (Ev_kill "SIGTERM") w2
            | _ => w2
            end in
  let w4 := if global_gc w3 then emit Ev_gc w3 else w3 in
  emit (Ev_setTimeout (clock w4) 2000
          (if (signal =? "MAX_RESTARTS_REACHED")%string then 1 else 0)) w4.

(** The object after a restart has been initiated at time [now]. *)
Definition restarting (now : Z) (a : AutoRestarter) : AutoRestarter :=
  set_isShuttingDown true (set_lastRestart now (set_restartCount (restartCount a + 1) a)).

(** The world after [restartProcess]. *)
Definition restart_requested (a : AutoRestarter) (w : World) : World :=
  let w1 :=
    logged "restart_initiated_render"
      (VStr "O Render detectará o desligamento e reiniciará o container automaticamente.")
      a
      (emit (Ev_console "log"
               "🔄 [RENDER RESTART] Solicitando reinício limpo via process.exit(0)...") w) in
  emit (Ev_setTimeout (clock w1) 2000 0) w1.

(** The world after a restart has been initiated. *)
Definition restarted (reason : string) (a : AutoRestarter) (w : World) : World :=
  let a1 := restarting (clock w) a in
  let w1 :=
    logged "restart_initiated"
      (VObj [("reason", VStr reason);
             ("count", VNum (restartCount a + 1));
             ("maxRestarts", VNum (maxRestarts a))]) a1 w in
  restart_requested a1 (saved a1 (cleaned w1)).

(** ** Messages *)

(** The message logged when the limit is reached. *)
Definition limit_message (a : AutoRestarter) : value :=
  VStr ("Limite de " ++ string_of_Z (maxRestarts a)
        ++ " reinicializações atingido. Sistema será finalizado.").


(** What [handleCriticalError] logs first, and the two messages that
    follow its decision. *)
Definition critical_error_data (toISOString : Z -> string) (type : string)
  (error : js_error)
  (a : AutoRestarter) (w : World) : value :=
  VObj [("type", VStr type);
        ("message", errorMessage_of error);
        ("code", errorCode_of error);
        ("stack", js_or (err_stack error) (VStr "Stack não disponível"));
        ("timestamp", VStr (toISOString (clock w)));
        ("memoryUsage", memory_value (memoryUsage w));
        ("restartCount", VNum (restartCount a))].

Definition critical_reason (error : js_error) : string :=
  "Erro crítico detectado: " ++ display (errorCode_of error)
  ++ " - " ++ display (errorMessage_of error).

Definition non_critical_report (type : string) (error : js_error) : string :=
  "❌ Erro não crítico capturado (" ++ type ++ "): "
  ++ display (errorMessage_of error).

(** ** Sample data *)

(** A calendar and a clock format for the examples: the day number and the
    millisecond count, in UTC. *)
Definition utc_day (t : Z) : string := string_of_Z (t / 86400000).

Definition utc_stamp (t : Z) : string := string_of_Z t.

Definition no_memory : memory_usage := mk_mem 0 0 0 0 0.

(** A first deployment: nothing on disk, no fault scheduled. *)
Definition first_world (now : Z) : World :=
  mk_world (mk_disk false None None None) [] now [] 1 0 no_memory false false
           VUndefined VUndefined [].

Definition calm_env (now : Z) : environment :=
  mk_env now [] 0 no_memory false false [].

(** An afternoon in November 2023, and ten seconds later. *)
Definition an_instant : Z := 1700000000000.

Definition ten_seconds_later : Z := 1700000010000.

(** An instance that has used up its restarts, the last one at
    [an_instant]. *)
Definition exhausted : AutoRestarter :=
  mk_restarter 5 5 30000 an_instant (criticalErrors fresh)
               (logFile fresh) (pidFile fresh) false None.

(** The state such an instance saved on its last restart, and a disk that
    holds it. *)
Definition exhausted_state : restart_state :=
  mk_state (Some 5) (Some an_instant) (Some an_instant) (Some 1)
           (Some no_memory) (Some 0).

Definition exhausted_world : World :=
  mk_world (mk_disk true None (Some (JSON_stringify exhausted_state)) None)
           [] ten_seconds_later [] 2 0 no_memory false false VUndefined VUndefined [].

(** A new process on that disk, started ten seconds after the last
    restart. *)
Definition relaunched : machine :=
  snd (run utc_day utc_stamp Call_start
         (fst (snd (constructor (fresh, exhausted_world))),
          observe (calm_env ten_seconds_later)
                  (snd (snd (constructor (fresh, exhausted_world)))))).

(** [fs.writeFile] is not atomic: it opens its target for writing, which
    empties the file, and then writes the text.  A process that is killed
    in between (exit status 137) leaves the file empty. *)
Definition fs_writeFile_state_killed (path : string) : M unit :=
  io (Ev_writeFile path false) ;;
  update_disk (fun d => mk_disk (logs_dir d) (log_file d) (Some (NotJSON EmptyString))
                                (pid_file d)) ;;
  (fun m => (Exit 137, m)).

(** [saveRestartState] when the process is killed during its first write. *)
Definition saveRestartState_killed : M unit :=
  try_catch
    (this <- get_this ;;
     w <- get_world ;;
     fs_writeFile_state_killed stateFile ;;
     fs_writeFile_pid (pidFile this) (string_of_Z (pid w)))
    (fun error =>
       console_warn ("⚠️ Erro ao salvar estado: " ++ exn_message error)).

(** A disk whose state file a write has cut short. *)
Definition cut_short : World :=
  mk_world (mk_disk true None (Some (NotJSON "{ restartCou")) None)
           [] an_instant [] 2 0 no_memory false false VUndefined VUndefined [].

(** An instance on its third restart of the day, over the state it saved on
    the second. *)
Definition third_restart : AutoRestarter :=
  mk_restarter 3 5 30000 an_instant (criticalErrors fresh)
               (logFile fresh) (pidFile fresh) true None.

Definition second_state : restart_state :=
  mk_state (Some 2) (Some 1699990000000) (Some 1699990000000) (Some 1)
           (Some no_memory) (Some 0).

Definition second_world : World :=
  mk_world (mk_disk true None (Some (JSON_stringify second_state)) None)
           [] an_instant [] 2 0 no_memory false false VUndefined VUndefined [].

(** The same disk when it is full: the next write fails after its file has
    been opened, and leaves it empty. *)
Definition disk_full : World :=
  mk_world (mk_disk true None (Some (JSON_stringify second_state)) None)
           [] an_instant [true] 2 0 no_memory false false VUndefined VUndefined
           [Torn EmptyString].

Definition a_minute_later : Z := 1700000060000.

Definition booted : machine := snd (constructor (fresh, first_world an_instant)).

(** An error of code [ENOSPC]. *)
Definition no_space : js_error :=
  mk_error (VStr "ENOSPC: no space left on device, write")
           (VStr "Error: ENOSPC: no space left on device, write")
           (VStr "ENOSPC") (VNum (-28)) VUndefined.

(** An error that matches no pattern. *)
Definition harmless : js_error :=
  mk_error (VStr "Cannot read properties of undefined")
           (VStr "TypeError: Cannot read properties of undefined")
           VUndefined VUndefined VUndefined.

(** The object a new process has after loading what the first restart of
    the day saved. *)
Definition after_first_restart : AutoRestarter :=
  mk_restarter 1 5 30000 an_instant (criticalErrors fresh)
               (logFile fresh) (pidFile fresh) false None.

(** A world in which the next file operation fails. *)
Definition failing_world : World :=
  mk_world (mk_disk false None None None) [] an_instant [true] 1 0 no_memory
           false false VUndefined VUndefined [].

(** ** Further vocabulary *)

(** What [toLowerCase] does to a unit below 128, and to a string of such
    units. *)
Definition lower_unit (c : N) : N := if is_upper_unit c then (c + 32)%N else c.

Definition lowers_ascii (toLowerCase : list N -> list N) : Prop :=
  forall s, Forall (fun c => (c < 128)%N) s -> toLowerCase s = map lower_unit s.

(** A lower-case letter, a digit or an underscore. *)
Definition safe_unit (c : N) : bool :=
  is_lower_unit c || is_digit_unit c || (c =? 95)%N.

(** The log holds [base] and what was appended since. *)
Definition extends_log (base : list log_entry) (m : machine) : Prop :=
  exists l, lines (snd m) = (base ++ l)%list.

(** Since the counters were [count] and [last], at most one restart was
    initiated, and it set the latch. *)
Definition restarted_at_most_once (count last : Z) (m : machine) : Prop :=
  (restartCount (fst m) = count /\ lastRestart (fst m) = last) \/
  (isShuttingDown (fst m) = true /\ restartCount (fst m) = (count + 1)%Z).

(** The calls that do not read the state file. *)
Definition keeps_counters (c : call) : bool :=
  match c with
  | Call_start | Call_loadRestartState => false
  | _ => true
  end.

(** The values that have an [includes] method. *)
Definition has_includes (v : value) : bool :=
  match v with
  | VStr _ | VArr _ => true
  | _ => false
  end.

(** The decision of [handleCriticalError] on a message that is an array:
    a pattern is an element of it, or is the code. *)
Definition listed (patterns : list string) (items : list value)
  (errorCode : value) : bool :=
  existsb (fun criticalError =>
             existsb (fun x => strict_eq_string x criticalError) items
             || strict_eq_string errorCode criticalError) patterns.

(** The report of an error that is not critical and whose message is not a
    string. *)
Definition non_critical_event (type : string) (error : js_error) : io_event :=
  Ev_console_value "error" ("❌ Erro não crítico capturado (" ++ type ++ "):")
                   (errorMessage_of error).

(** The calls that go through the latch before they arm an exit:
    [forceRestart] and [restartProcess] arm theirs unconditionally, and an
    error whose message is neither a string nor an array ends in
    [forceRestart]. *)
Definition latch_guarded (c : call) : bool :=
  match c with
  | Call_forceRestart _ | Call_restartProcess => false
  | Call_handleCriticalError _ error => has_includes (errorMessage_of error)
  | _ => true
  end.

(** Behind the latch, [c] returns with the latch still set and arms no
    exit. *)
Definition hushed {A} (c : M A) : Prop :=
  forall a w,
    isShuttingDown a = true ->
    exists x a' w',
      c (a, w) = (Return x, (a', w')) /\
      isShuttingDown a' = true /\ continues w w'.

(** Every event [c] causes satisfies [P]. *)
Definition emits (P : io_event -> bool) {A} (c : M A) : Prop :=
  forall m, exists l,
    trace (snd (snd (c m))) = (trace (snd m) ++ l)%list /\ forallb P l = true.

(** The exits the supervisor arms: code 0 or 1 after two seconds, code 1
    after one second; it never exits on the spot. *)
Definition disciplined (e : io_event) : bool :=
  match e with
  | Ev_setTimeout _ delay code =>
      ((delay =? 2000)%Z && ((code =? 0)%Z || (code =? 1)%Z))
      || ((delay =? 1000)%Z && (code =? 1)%Z)
  | Ev_exit _ => false
  | _ => true
  end.

(** The exits of a clean restart and of a shutdown: after two seconds. *)
Definition two_second_exit (e : io_event) : bool :=
  match e with
  | Ev_setTimeout _ delay code =>
      (delay =? 2000)%Z && ((code =? 0)%Z || (code =? 1)%Z)
  | Ev_exit _ => false
  | _ => true
  end.

(** The calls that do not end in [forceRestart]. *)
Definition unforced (c : call) : bool :=
  match c with
  | Call_forceRestart _ => false
  | Call_handleCriticalError _ error => has_includes (errorMessage_of error)
  | _ => true
  end.

(** The world after [forceRestart]. *)
Definition forced (reason : string) (a : AutoRestarter) (w : World) : World :=
  let w1 := saved a (logged "force_restart" (VStr reason) a w) in
  emit (Ev_setTimeout (clock w1) 1000 1) w1.

(** The report of the fallback of [handleCriticalError] on a message
    without [includes]. *)
Definition fallback_report : io_event :=
  Ev_console "error"
    "❌ Erro ao processar erro crítico: errorMessage.includes is not a function".

(** The payload of the [high_memory] line. *)
Definition high_memory_data (w : World) : value :=
  VObj [("heapUsed", VNum (round_MB (heapUsed (memoryUsage w))));
        ("heapTotal", VNum (round_MB (heapTotal (memoryUsage w))));
        ("rss", VNum (round_MB (rss (memoryUsage w))));
        ("external", VNum (round_MB (external (memoryUsage w))))].

Definition memory_reason (w : World) : string :=
  "Uso crítico de memória: "
  ++ string_of_Z (round_MB (heapUsed (memoryUsage w))) ++ "MB".

(** The state file is the one of [s0], or a document written since, or
    what a write that failed has left. *)
Definition keeps_documents (s0 : option text) (m : machine) : Prop :=
  state_file (files (snd m)) = s0 \/
  (exists d, state_file (files (snd m)) = Some (JSON_stringify d)) \/
  (exists raw, state_file (files (snd m)) = Some (NotJSON raw)).

(** The files only grow. *)
Definition disk_grows (base : list log_entry) (s0 : option text) (m : machine)
  : Prop :=
  extends_log base m /\ keeps_documents s0 m.

(** The machine after [start]. *)
Definition started (toDateString : Z -> string) (a : AutoRestarter) (w : World)
  : machine :=
  let a1 := fst (loaded toDateString a w) in
  let w1 := snd (loaded toDateString a w) in
  let w2 :=
    logged "auto_restart_started"
      (VObj [("restartCount", VNum (restartCount a1));
             ("maxRestarts", VNum (maxRestarts a1));
             ("pid", VNum (pid w1))]) a1 w1 in
  (a1,
   if strict_eq_string (env_NAZUNA_RESTARTED w1) "true" then
     logged "restart_success"
       (VObj [("previousRestartCount",
               js_or (env_NAZUNA_RESTART_COUNT w1) (VStr "unknown"))]) a1 w2
   else w2).

(** The machine once a new process has been constructed and started over
    the disk that [m] left. *)
Definition next_process (toDateString : Z -> string) (e : environment)
  (new_pid : Z) (restarted count : value) (m : machine) : machine :=
  snd (start toDateString
         (snd (constructor (fst m, relaunch e new_pid restarted count (snd m))))).

(** What [sanitizeFileName] makes of one unit. *)
Definition sanitize_unit (c : N) : N :=
  if is_lower_unit c || is_digit_unit c then c
  else if is_upper_unit c then (c + 32)%N
  else 95%N.

(** The messages the downloaders reject with. *)
Definition mp4_failure : string :=
  "❌ Falha ao baixar o vídeo. O arquivo pode ser muito grande ou o link está protegido.".

Definition m4a_failure : string :=
  "❌ Falha ao baixar a música no modo rápido. Tente novamente mais tarde.".

Definition metadata_failure : string :=
  "❌ Falha ao buscar informações da música. Verifique se o link é válido.".

(** ** Further sample data *)

(** A rejection with the plain object [{ message: 404 }]. *)
Definition numeric_rejection : js_error :=
  mk_error (VNum 404) (VStr "[object Object]") VUndefined VUndefined VUndefined.

(** A rejection with the plain object [{ message: ['ENOSPC'] }]. *)
Definition listed_rejection : js_error :=
  mk_error (VArr [VStr "ENOSPC"]) (VStr "[object Object]") VUndefined VUndefined
           VUndefined.

(** Half a second after a new instance initiated its first restart. *)
Definition restart_pending : World :=
  observe (calm_env 1700000000500)
          (snd (snd (initiateRestart "ENOSPC" (fresh, first_world an_instant)))).

(** A new instance whose heap holds [used] bytes. *)
Definition with_heap (used : Z) : World :=
  mk_world (mk_disk false None None None) [] an_instant [] 1 0
           (mk_mem 0 0 used 0 0) false false VUndefined VUndefined [].

(** A disk on which the log can be written and the state file cannot be
    opened for writing; and one that is full after the log has been
    written, so that the state write leaves its file empty. *)
Definition state_write_fails : World :=
  mk_world (mk_disk true None (Some (JSON_stringify second_state)) None)
           [] an_instant [false; false; true] 2 0 no_memory false false
           VUndefined VUndefined [].

Definition state_write_torn : World :=
  mk_world (mk_disk true None (Some (JSON_stringify second_state)) None)
           [] an_instant [false; false; true] 2 0 no_memory false false
           VUndefined VUndefined [Torn EmptyString].

(** An instance that has restarted twice today, the last time well before
    [an_instant], and is not shutting down. *)
Definition third_restart_open : AutoRestarter :=
  mk_restarter 2 5 30000 1699990000000 (criticalErrors fresh)
               (logFile fresh) (pidFile fresh) false None.

(** A shell in which every command succeeds and leaves its file, one in
    which every command fails, and one in which commands succeed without
    leaving a file. *)
Definition shell_ok (command : string) : exec_result :=
  mk_exec None EmptyString EmptyString (fun _ => true).

Definition shell_down (command : string) : exec_result :=
  mk_exec (Some "Command failed: python3 -m yt_dlp") EmptyString
          "ERROR: Sign in to confirm your age" (fun _ => false).

Definition shell_empty (command : string) : exec_result :=
  mk_exec None EmptyString EmptyString (fun _ => false).

(** The units of the title [My Song!]. *)
Definition a_title : list N := [77; 121; 32; 83; 111; 110; 103; 33]%N.

(** A video nobody has watched yet, and a shell and a parser that find it. *)
Definition unwatched : video_document :=
  mk_document (VStr "Demo") (VStr "Nazuna") (Some 0%Z) (VStr "3:21")
              (VStr "https://youtu.be/one") VUndefined (VNum 201) (VStr "one").

(** The same video after 1500 views. *)
Definition watched : video_document :=
  mk_document (VStr "Demo") (VStr "Nazuna") (Some 1500%Z) (VStr "3:21")
              (VStr "https://youtu.be/one") VUndefined (VNum 201) (VStr "one").

Definition shell_found (command : string) : exec_result :=
  mk_exec None "{...}" EmptyString (fun _ => false).

Definition parse_unwatched (stdout : string) : string + parsed_document :=
  inr (DObject unwatched).

Definition parse_number (stdout : string) : string + parsed_document :=
  inr DScalar.

(** * Properties *)

(** ** Running the monad *)

Lemma bind_return {A B} (c : M A) (k : A -> M B) (m m' : machine) (a : A) :
  c m = (Return a, m') -> bind c k m = k a m'.
Proof. intros H. unfold bind. rewrite H. reflexivity. Qed.

Lemma bind_throw {A B} (c : M A) (k : A -> M B) (m m' : machine) (e : exn) :
  c m = (Throw e, m') -> bind c k m = (Throw e, m').
Proof. intros H. unfold bind. rewrite H. reflexivity. Qed.

Lemma try_return {A} (c : M A) (h : exn -> M A) (m m' : machine) (a : A) :
  c m = (Return a, m') -> try_catch c h m = (Return a, m').
Proof. intros H. unfold try_catch. rewrite H. reflexivity. Qed.

Lemma try_throw {A} (c : M A) (h : exn -> M A) (m m' : machine) (e : exn) :
  c m = (Throw e, m') -> try_catch c h m = h e m'.
Proof. intros H. unfold try_catch. rewrite H. reflexivity. Qed.

(** ** Worlds that differ by quiet events only *)

Lemma continues_refl (w : World) : continues w w.
Proof.
  constructor; try reflexivity.
  exists []. rewrite app_nil_r. split; reflexivity.
Qed.

Lemma continues_trans (w1 w2 w3 : World) :
  continues w1 w2 -> continues w2 w3 -> continues w1 w3.
Proof.
  intros [c1 p1 u1 m1 g1 k1 r1 n1 [l1 [t1 q1]]] [c2 p2 u2 m2 g2 k2 r2 n2 [l2 [t2 q2]]].
  constructor; try congruence.
  exists (l1 ++ l2)%list. split.
  - rewrite t2, t1, app_assoc. reflexivity.
  - rewrite forallb_app, q1, q2. reflexivity.
Qed.

Lemma continues_emit (e : io_event) (w : World) :
  quiet e = true -> continues w (emit e w).
Proof.
  intros Hq. constructor; try reflexivity.
  exists [e]. split; [reflexivity | simpl; rewrite Hq; reflexivity].
Qed.

Lemma continues_set_files (d : disk) (w : World) : continues w (set_files d w).
Proof.
  constructor; try reflexivity.
  exists []. simpl. rewrite app_nil_r. split; reflexivity.
Qed.

Lemma continues_set_faults (l : list bool) (w : World) : continues w (set_faults l w).
Proof.
  constructor; try reflexivity.
  exists []. simpl. rewrite app_nil_r. split; reflexivity.
Qed.

Lemma continues_set_damages (l : list damage) (w : World) :
  continues w (set_damages l w).
Proof.
  constructor; try reflexivity.
  exists []. simpl. rewrite app_nil_r. split; reflexivity.
Qed.

Lemma calm_tame {A} (c : M A) : calm c -> tame c.
Proof.
  intros H a w. destruct (H a w) as [x [w' [E C]]].
  exists w'. split; [exact C | left; now exists x].
Qed.

Lemma calm_ret {A} (x : A) : calm (ret x).
Proof. intros a w. exists x, w. split; [reflexivity | apply continues_refl]. Qed.

Lemma calm_bind {A B} (c : M A) (k : A -> M B) :
  calm c -> (forall x, calm (k x)) -> calm (bind c k).
Proof.
  intros H1 H2 a w.
  destruct (H1 a w) as [x [w1 [E1 C1]]].
  destruct (H2 x a w1) as [y [w2 [E2 C2]]].
  exists y, w2. split.
  - rewrite (bind_return _ _ _ _ _ E1). exact E2.
  - eapply continues_trans; eassumption.
Qed.

Lemma tame_bind {A B} (c : M A) (k : A -> M B) :
  tame c -> (forall x, tame (k x)) -> tame (bind c k).
Proof.
  intros H1 H2 a w.
  destruct (H1 a w) as [w1 [C1 [[x E1] | [e E1]]]].
  - destruct (H2 x a w1) as [w2 [C2 R]].
    exists w2. split; [eapply continues_trans; eassumption |].
    rewrite (bind_return _ _ _ _ _ E1). exact R.
  - exists w1. split; [exact C1 | right; exists e].
    now apply bind_throw.
Qed.

Lemma tame_throw {A} (e : exn) : tame (@throw A e).
Proof.
  intros a w. exists w. split; [apply continues_refl | right; now exists e].
Qed.

Lemma calm_try {A} (c : M A) (h : exn -> M A) :
  tame c -> (forall e, calm (h e)) -> calm (try_catch c h).
Proof.
  intros H1 H2 a w.
  destruct (H1 a w) as [w1 [C1 [[x E1] | [e E1]]]].
  - exists x, w1. split; [now apply try_return | exact C1].
  - destruct (H2 e a w1) as [y [w2 [E2 C2]]].
    exists y, w2. split.
    + rewrite (try_throw _ _ _ _ _ E1). exact E2.
    + eapply continues_trans; eassumption.
Qed.

Lemma calm_get_this : calm get_this.
Proof. intros a w. exists a, w. split; [reflexivity | apply continues_refl]. Qed.

Lemma calm_get_world : calm get_world.
Proof. intros a w. exists w, w. split; [reflexivity | apply continues_refl]. Qed.

Lemma calm_io (e : io_event) : quiet e = true -> calm (io e).
Proof.
  intros Hq a w. exists tt, (emit e w).
  split; [reflexivity | now apply continues_emit].
Qed.

Lemma calm_update_disk (f : disk -> disk) : calm (update_disk f).
Proof.
  intros a w. exists tt, (set_files (f (files w)) w).
  split; [reflexivity | apply continues_set_files].
Qed.

Lemma calm_next_fault : calm next_fault.
Proof.
  intros a w. exists (hd false (faults w)), (set_faults (tl (faults w)) w).
  split; [reflexivity | apply continues_set_faults].
Qed.

Lemma calm_next_damage : calm next_damage.
Proof.
  intros a w. eexists _, _. split; [reflexivity | apply continues_set_damages].
Qed.

Lemma calm_if {A} (b : bool) (c1 c2 : M A) :
  calm c1 -> calm c2 -> calm (if b then c1 else c2).
Proof. destruct b; auto. Qed.

Lemma tame_if {A} (b : bool) (c1 c2 : M A) :
  tame c1 -> tame c2 -> tame (if b then c1 else c2).
Proof. destruct b; auto. Qed.

Create HintDb calm.
#[local] Hint Resolve calm_ret calm_get_this calm_get_world calm_update_disk
  calm_next_fault calm_next_damage calm_try tame_throw : calm.
#[local] Hint Extern 2 (calm (bind _ _)) => apply calm_bind; [| intros ?] : calm.
#[local] Hint Extern 2 (tame (bind _ _)) => apply tame_bind; [| intros ?] : calm.
#[local] Hint Extern 2 (calm (if _ then _ else _)) => apply calm_if : calm.
#[local] Hint Extern 2 (tame (if _ then _ else _)) => apply tame_if : calm.
#[local] Hint Extern 3 (calm (io _)) => apply calm_io; reflexivity : calm.
#[local] Hint Extern 5 (tame _) => apply calm_tame : calm.

(** *** The file operations *)

Lemma tame_fs_mkdir (dir : string) : tame (fs_mkdir dir).
Proof. unfold fs_mkdir. auto 10 with calm. Qed.

Lemma tame_fs_appendFile (path : string) (line : log_entry) :
  tame (fs_appendFile path line).
Proof. unfold fs_appendFile. auto 12 with calm. Qed.

Lemma tame_fs_writeFile_state (path : string) (t : text) :
  tame (fs_writeFile_state path t).
Proof.
  unfold fs_writeFile_state.
  apply tame_bind; [auto with calm | intros failed].
  destruct failed; [| auto 10 with calm].
  apply tame_bind; [auto with calm | intros _].
  apply tame_bind; [auto with calm | intros left_behind].
  destruct left_behind; auto 10 with calm.
Qed.

Lemma tame_fs_writeFile_pid (path : string) (t : string) :
  tame (fs_writeFile_pid path t).
Proof.
  unfold fs_writeFile_pid.
  apply tame_bind; [auto with calm | intros failed].
  destruct failed; [| auto 10 with calm].
  apply tame_bind; [auto with calm | intros _].
  apply tame_bind; [auto with calm | intros left_behind].
  destruct left_behind; auto 10 with calm.
Qed.

Lemma tame_fs_readFile_state (path : string) : tame (fs_readFile_state path).
Proof.
  unfold fs_readFile_state.
  apply tame_bind; [auto with calm | intros failed].
  apply tame_bind; [auto with calm | intros w].
  destruct failed; [auto 10 with calm |].
  destruct (state_file (files w)); auto 10 with calm.
Qed.

Lemma tame_fs_unlink_pid (path : string) : tame (fs_unlink_pid path).
Proof.
  unfold fs_unlink_pid.
  apply tame_bind; [auto with calm | intros failed].
  apply tame_bind; [auto with calm | intros w].
  destruct failed; [auto 10 with calm |].
  destruct (pid_file (files w)); auto 10 with calm.
Qed.

#[local] Hint Resolve tame_fs_mkdir tame_fs_appendFile tame_fs_writeFile_state
  tame_fs_writeFile_pid tame_fs_readFile_state tame_fs_unlink_pid : calm.

(** *** The methods that never fail *)

Lemma calm_console_error (msg : string) : calm (console_error msg).
Proof. unfold console_error. auto with calm. Qed.

Lemma calm_console_warn (msg : string) : calm (console_warn msg).
Proof. unfold console_warn. auto with calm. Qed.

Lemma calm_console_log (msg : string) : calm (console_log msg).
Proof. unfold console_log. auto with calm. Qed.

Lemma calm_console_error_with (msg : string) (v : value) :
  calm (console_error_with msg v).
Proof.
  destruct v; cbn [console_error_with];
    first [apply calm_console_error | apply calm_io; reflexivity].
Qed.

#[local] Hint Resolve calm_console_error calm_console_warn calm_console_log
  calm_console_error_with : calm.

Lemma calm_logEvent (type : string) (data : value) : calm (logEvent type data).
Proof. unfold logEvent. auto 10 with calm. Qed.

#[local] Hint Resolve calm_logEvent : calm.

Lemma calm_saveRestartState : calm saveRestartState.
Proof. unfold saveRestartState. auto 10 with calm. Qed.

Lemma calm_for_of {A} (l : list A) (body : A -> M unit) :
  (forall x, calm (body x)) -> calm (for_of l body).
Proof.
  intros H. induction l as [|x r IH]; simpl; auto with calm.
Qed.

Lemma calm_performEmergencyCleanup : calm performEmergencyCleanup.
Proof.
  unfold performEmergencyCleanup.
  apply calm_try; [| auto with calm].
  apply calm_tame.
  apply calm_bind; [auto with calm | intros w].
  apply calm_bind; [auto with calm | intros _].
  apply calm_bind; [auto with calm | intros _].
  apply calm_for_of. intros x. auto 10 with calm.
Qed.

#[local] Hint Resolve calm_saveRestartState calm_performEmergencyCleanup : calm.

(** ** Invariants of the machine *)

#[local] Arguments emit : simpl never.
#[local] Arguments set_files : simpl never.
#[local] Arguments set_faults : simpl never.
#[local] Arguments set_damages : simpl never.

Create HintDb keeps.

Section Keeps.

Variable I : machine -> Prop.
Variable allowed : string -> bool.

Lemma keeps_ret {A} (x : A) : keeps I (ret x).
Proof. intros m H. exact H. Qed.

Lemma keeps_throw {A} (e : exn) : keeps I (@throw A e).
Proof. intros m H. exact H. Qed.

Lemma keeps_bind {A B} (c : M A) (k : A -> M B) :
  keeps I c -> (forall x, keeps I (k x)) -> keeps I (bind c k).
Proof.
  intros Hc Hk m Hm. specialize (Hc m Hm). unfold bind.
  destruct (c m) as [[x|e|n] m']; simpl in *; auto.
  apply Hk. exact Hc.
Qed.

Lemma keeps_try {A} (c : M A) (h : exn -> M A) :
  keeps I c -> (forall e, keeps I (h e)) -> keeps I (try_catch c h).
Proof.
  intros Hc Hh m Hm. specialize (Hc m Hm). unfold try_catch.
  destruct (c m) as [[x|e|n] m']; simpl in *; auto.
  apply Hh. exact Hc.
Qed.

Lemma keeps_if {A} (b : bool) (c1 c2 : M A) :
  keeps I c1 -> keeps I c2 -> keeps I (if b then c1 else c2).
Proof. destruct b; auto. Qed.

Lemma keeps_get_this : keeps I get_this.
Proof. intros m H. exact H. Qed.

Lemma keeps_get_world : keeps I get_world.
Proof. intros m H. exact H. Qed.

Lemma keeps_for_of {A} (l : list A) (body : A -> M unit) :
  (forall x, keeps I (body x)) -> keeps I (for_of l body).
Proof.
  intros H. induction l as [|x r IH]; simpl.
  - apply keeps_ret.
  - apply keeps_bind; auto.
Qed.

Lemma keeps_some {A} (l : list A) (f : A -> M bool) :
  (forall x, keeps I (f x)) -> keeps I (some l f).
Proof.
  intros H. induction l as [|x r IH]; simpl.
  - apply keeps_ret.
  - apply keeps_bind; auto. intros b. apply keeps_if; auto. apply keeps_ret.
Qed.

Lemma keeps_js_includes (v : value) (p : string) : keeps I (js_includes v p).
Proof. destruct v; simpl; first [apply keeps_ret | apply keeps_throw]. Qed.

(** What the invariant has to respect. *)
Hypothesis respected : runtime_invariant I allowed.

Local Abbreviation I_emit := (ri_emit I allowed respected).
Local Abbreviation I_faults := (ri_faults I allowed respected).
Local Abbreviation I_files := (ri_files I allowed respected).
Local Abbreviation I_append := (ri_append I allowed respected).
Local Abbreviation I_save := (ri_save I allowed respected).
Local Abbreviation I_latch := (ri_latch I allowed respected).
Local Abbreviation I_damages := (ri_damages I allowed respected).
Local Abbreviation I_tear := (ri_tear I allowed respected).

Lemma keeps_next_fault : keeps I next_fault.
Proof. intros [a w] H. simpl. now apply I_faults. Qed.

Lemma keeps_next_damage : keeps I next_damage.
Proof. intros [a w] H. simpl. now apply I_damages. Qed.

Lemma keeps_io (e : io_event) : keeps I (io e).
Proof. intros [a w] H. simpl. now apply I_emit. Qed.

Lemma keeps_process_exit {A} (code : Z) : keeps I (@process_exit A code).
Proof. intros [a w] H. simpl. now apply I_emit. Qed.

Hint Resolve keeps_ret keeps_throw keeps_get_this keeps_get_world
  keeps_next_fault keeps_next_damage keeps_io keeps_js_includes : keeps.
Hint Extern 2 (keeps I (bind _ _)) => apply keeps_bind; [| intros ?] : keeps.
Hint Extern 2 (keeps I (try_catch _ _)) => apply keeps_try; [| intros ?] : keeps.
Hint Extern 2 (keeps I (if _ then _ else _)) => apply keeps_if : keeps.
Hint Extern 2 (keeps I (process_exit _)) => apply keeps_process_exit : keeps.

Lemma keeps_fs_mkdir (dir : string) : keeps I (fs_mkdir dir).
Proof.
  unfold fs_mkdir. apply keeps_bind; [auto with keeps | intros failed].
  destruct failed; [auto with keeps |].
  apply keeps_bind; [auto with keeps | intros _].
  intros [a w] H. simpl. apply I_files; auto.
Qed.

Lemma keeps_fs_appendFile (path : string) (line : log_entry) :
  allowed (le_type line) = true -> keeps I (fs_appendFile path line).
Proof.
  intros Hok. unfold fs_appendFile.
  apply keeps_bind; [auto with keeps | intros failed].
  apply keeps_bind; [auto with keeps | intros w0].
  destruct failed; [auto with keeps |].
  destruct (negb (logs_dir (files w0))); [auto with keeps |].
  apply keeps_bind; [auto with keeps | intros _].
  intros [a w] H. simpl. apply I_append; auto.
Qed.

(** A failed write, whatever it leaves of a file other than the log. *)
Lemma keeps_tear (f : string -> disk -> disk) (path : string) :
  (forall raw d, log_file (f raw d) = log_file d) ->
  (forall raw d, state_file (f raw d) = state_file d \/
                 f raw d = mk_disk (logs_dir d) (log_file d) (Some (NotJSON raw))
                                   (pid_file d)) ->
  keeps I (io (Ev_writeFile path false) ;;
           left_behind <- next_damage ;;
           match left_behind with
           | Untouched => throw (A:=unit) (fs_error "EACCES")
           | Torn raw => update_disk (f raw) ;; throw (fs_error "ENOSPC")
           end).
Proof.
  intros Hl Hs.
  apply keeps_bind; [auto with keeps | intros _].
  apply keeps_bind; [auto with keeps | intros left_behind].
  destruct left_behind as [| raw]; [auto with keeps |].
  apply keeps_bind; [| auto with keeps].
  intros [a w] H. simpl. destruct (Hs raw (files w)) as [E | E].
  - apply I_files; auto.
  - rewrite E. now apply I_tear.
Qed.

Lemma keeps_fs_writeFile_pid (path t : string) : keeps I (fs_writeFile_pid path t).
Proof.
  unfold fs_writeFile_pid. apply keeps_bind; [auto with keeps | intros failed].
  destruct failed.
  { apply (keeps_tear (fun raw d => mk_disk (logs_dir d) (log_file d)
                                            (state_file d) (Some raw)));
      intros; [reflexivity | now left]. }
  apply keeps_bind; [auto with keeps | intros _].
  intros [a w] H. simpl. apply I_files; auto.
Qed.

Lemma keeps_fs_unlink_pid (path : string) : keeps I (fs_unlink_pid path).
Proof.
  unfold fs_unlink_pid. apply keeps_bind; [auto with keeps | intros failed].
  apply keeps_bind; [auto with keeps | intros w0].
  destruct failed; [auto with keeps |].
  destruct (pid_file (files w0)); [| auto with keeps].
  apply keeps_bind; [auto with keeps | intros _].
  intros [a w] H. simpl. apply I_files; auto.
Qed.

Lemma keeps_fs_readFile_state (path : string) : keeps I (fs_readFile_state path).
Proof.
  unfold fs_readFile_state. apply keeps_bind; [auto with keeps | intros failed].
  apply keeps_bind; [auto with keeps | intros w0].
  destruct failed; [auto with keeps |].
  destruct (state_file (files w0)); auto with keeps.
Qed.

Lemma keeps_console_error (msg : string) : keeps I (console_error msg).
Proof. apply keeps_io. Qed.

Lemma keeps_console_warn (msg : string) : keeps I (console_warn msg).
Proof. apply keeps_io. Qed.

Lemma keeps_console_log (msg : string) : keeps I (console_log msg).
Proof. apply keeps_io. Qed.

Lemma keeps_console_error_with (msg : string) (v : value) :
  keeps I (console_error_with msg v).
Proof. destruct v; cbn [console_error_with]; apply keeps_io. Qed.

Lemma keeps_setTimeout_exit (code delay : Z) : keeps I (setTimeout_exit code delay).
Proof. unfold setTimeout_exit. auto with keeps. Qed.

Hint Resolve keeps_fs_mkdir keeps_fs_writeFile_pid keeps_fs_unlink_pid
  keeps_fs_readFile_state keeps_console_error keeps_console_warn
  keeps_console_log keeps_console_error_with keeps_setTimeout_exit : keeps.

Lemma keeps_logEvent (type : string) (data : value) :
  allowed type = true -> keeps I (logEvent type data).
Proof.
  intros Hok. unfold logEvent.
  apply keeps_try; [| auto with keeps].
  apply keeps_bind; [auto with keeps | intros this].
  apply keeps_bind; [auto with keeps | intros _].
  apply keeps_bind; [auto with keeps | intros w0].
  apply keeps_fs_appendFile. exact Hok.
Qed.

(** Saving writes the counters of the object as it is at that moment. *)
Lemma keeps_saveRestartState : keeps I saveRestartState.
Proof.
  unfold saveRestartState. apply keeps_try; [| auto with keeps].
  intros [a w] H. unfold bind at 1. unfold get_this at 1. simpl fst. cbv beta iota.
  unfold bind at 1. unfold get_world at 1. simpl snd. cbv beta iota.
  unfold fs_writeFile_state.
  unfold bind at 1. unfold bind at 1. unfold next_fault at 1. simpl fst. simpl snd.
  cbv beta iota.
  destruct (hd false (faults w)).
  - match goal with
    | |- I (snd (let (o, m') := ?c ?m in _)) =>
        assert (K : I (snd (c m)));
        [| destruct (c m) as [[x | e | n] m']; cbn [snd] in *;
           first [exact K | now apply keeps_fs_writeFile_pid] ]
    end.
    apply (keeps_tear (fun raw d => mk_disk (logs_dir d) (log_file d)
                                            (Some (NotJSON raw)) (pid_file d)));
      [intros; reflexivity | intros; now right |].
    apply I_faults. exact H.
  - simpl. apply keeps_fs_writeFile_pid. simpl.
    match goal with |- I (_, set_files _ ?w') => apply (I_save _ w') end.
    apply I_emit. apply I_faults. exact H.
Qed.

Hint Resolve keeps_saveRestartState : keeps.

Lemma keeps_forceRestart (reason : string) :
  allowed "force_restart" = true -> keeps I (forceRestart reason).
Proof.
  intros Hok. unfold forceRestart.
  apply keeps_bind; [| intros _; auto with keeps].
  apply keeps_try; [| auto with keeps].
  apply keeps_bind; [now apply keeps_logEvent | intros _; auto with keeps].
Qed.

Lemma keeps_performEmergencyCleanup : keeps I performEmergencyCleanup.
Proof.
  unfold performEmergencyCleanup. apply keeps_try; [| auto with keeps].
  apply keeps_bind; [auto with keeps | intros w0].
  apply keeps_bind; [auto with keeps | intros _].
  apply keeps_bind; [auto with keeps | intros _].
  apply keeps_for_of. intros x. auto with keeps.
Qed.

Lemma keeps_restartProcess :
  allowed "restart_initiated_render" = true -> keeps I restartProcess.
Proof.
  intros Hok. unfold restartProcess.
  apply keeps_try; [| intros e; auto with keeps].
  apply keeps_bind; [auto with keeps | intros _].
  apply keeps_bind; [now apply keeps_logEvent | intros _; auto with keeps].
Qed.

Lemma keeps_stop : allowed "auto_restart_stopped" = true -> keeps I stop.
Proof.
  intros Hok. unfold stop.
  apply keeps_bind; [| intros _; now apply keeps_logEvent].
  intros [a w] H. simpl. now apply I_latch.
Qed.

Lemma keeps_getStats : keeps I (discard getStats).
Proof. unfold discard, getStats. auto 10 with keeps. Qed.

Lemma keeps_on_warning (name message : string) :
  allowed "warning" = true -> keeps I (on_warning name message).
Proof.
  intros Hok. unfold on_warning.
  apply keeps_if; [now apply keeps_logEvent | auto with keeps].
Qed.

Variable toDateString : Z -> string.
Variable toISOString : Z -> string.

(** An invariant that does not look at the counters is kept by the three
    methods that set them, as long as their log types are allowed. *)
Section Free.

Hypothesis I_count : forall n a w, I (a, w) -> I (set_restartCount n a, w).
Hypothesis I_last : forall t a w, I (a, w) -> I (set_lastRestart t a, w).

Lemma keeps_modify_count (f : AutoRestarter -> Z) :
  keeps I (modify_this (fun a => set_restartCount (f a) a)).
Proof. intros [a w] H. simpl. now apply I_count. Qed.

Lemma keeps_modify_last (t : Z) : keeps I (modify_this (set_lastRestart t)).
Proof. intros [a w] H. simpl. now apply I_last. Qed.

Lemma keeps_modify_latch : keeps I (modify_this (set_isShuttingDown true)).
Proof. intros [a w] H. simpl. now apply I_latch. Qed.

Lemma free_loadRestartState :
  allowed "state_loaded" = true -> keeps I (loadRestartState toDateString).
Proof.
  intros Hok. unfold loadRestartState.
  assert (Hzero : keeps I (modify_this (set_restartCount 0) ;;
                         modify_this (set_lastRestart 0))).
  { apply keeps_bind; [apply (keeps_modify_count (fun _ => 0%Z)) | intros _].
    apply keeps_modify_last. }
  apply keeps_try; [| intros _; exact Hzero].
  apply keeps_bind; [auto with keeps | intros stateData].
  apply keeps_bind; [destruct stateData; simpl; auto with keeps | intros p].
  apply keeps_bind; [destruct p; simpl; auto with keeps | intros state].
  apply keeps_bind; [auto with keeps | intros w0].
  apply keeps_if; [| exact Hzero].
  apply keeps_bind;
    [apply (keeps_modify_count (fun _ => or_zero (st_restartCount state))) | intros _].
  apply keeps_bind; [apply keeps_modify_last | intros _].
  apply keeps_bind; [auto with keeps | intros this].
  now apply keeps_logEvent.
Qed.

Lemma free_gracefulShutdown (signal : string) :
  allowed "graceful_shutdown" = true -> keeps I (gracefulShutdown signal).
Proof.
  intros Hok. unfold gracefulShutdown.
  apply keeps_bind; [auto with keeps | intros this].
  apply keeps_if; [auto with keeps |].
  apply keeps_bind; [apply keeps_modify_latch | intros _].
  apply keeps_try; [| intros e; auto with keeps].
  apply keeps_bind; [now apply keeps_logEvent | intros _].
  apply keeps_bind; [auto with keeps | intros this'].
  apply keeps_bind; [auto with keeps | intros _].
  apply keeps_bind; [destruct (childProcess this') as [[|]|]; auto with keeps | intros _].
  auto 10 with keeps.
Qed.

Lemma free_initiateRestart (reason : string) :
  forallb allowed
    ["restart_blocked"; "restart_limit"; "restart_initiated";
     "restart_initiated_render"; "force_restart"; "graceful_shutdown"] = true ->
  keeps I (initiateRestart reason).
Proof.
  intros Hok. simpl in Hok.
  repeat (apply andb_prop in Hok; destruct Hok as [? Hok]).
  unfold initiateRestart.
  apply keeps_bind; [auto with keeps | intros this].
  apply keeps_if; [auto with keeps |].
  apply keeps_bind; [auto with keeps | intros w0].
  apply keeps_if; [now apply keeps_logEvent |].
  apply keeps_if.
  - apply keeps_bind; [now apply keeps_logEvent | intros _].
    now apply free_gracefulShutdown.
  - apply keeps_bind;
      [apply (keeps_modify_count (fun a => (restartCount a + 1)%Z)) | intros _].
    apply keeps_bind; [apply keeps_modify_last | intros _].
    apply keeps_bind; [apply keeps_modify_latch | intros _].
    apply keeps_bind; [auto with keeps | intros this'].
    apply keeps_bind; [now apply keeps_logEvent | intros _].
    apply keeps_try.
    + apply keeps_bind; [apply keeps_performEmergencyCleanup | intros _].
      apply keeps_bind; [auto with keeps | intros _].
      now apply keeps_restartProcess.
    + intros e. apply keeps_bind; [auto with keeps | intros _].
      now apply keeps_forceRestart.
Qed.

End Free.

(** The methods built on the three that read or set the counters and the
    latch keep the invariant as soon as those three do. *)

Hypothesis keeps_initiateRestart : forall reason, keeps I (initiateRestart reason).
Hypothesis keeps_gracefulShutdown : forall signal, keeps I (gracefulShutdown signal).
Hypothesis keeps_loadRestartState : keeps I (loadRestartState toDateString).

Hypothesis allowed_helpers : forallb allowed helper_types = true.

Ltac helper_allowed :=
  let H := fresh in
  pose proof allowed_helpers as H; unfold helper_types in H; simpl in H;
  repeat (apply andb_prop in H; destruct H as [? H]); assumption.

Lemma keeps_handleCriticalError (type : string) (error : js_error) :
  keeps I (handleCriticalError toISOString type error).
Proof.
  unfold handleCriticalError. apply keeps_try.
  - unfold handleCriticalError_try.
    apply keeps_bind; [auto with keeps | intros this].
    apply keeps_bind; [auto with keeps | intros w0].
    apply keeps_bind; [apply keeps_logEvent; helper_allowed | intros _].
    apply keeps_bind; [auto with keeps | intros this'].
    apply keeps_bind.
    + apply keeps_some. intros p. auto with keeps.
    + intros b. apply keeps_if; [apply keeps_initiateRestart | auto with keeps].
  - intros e. apply keeps_bind; [auto with keeps | intros _].
    apply keeps_forceRestart. helper_allowed.
Qed.

Lemma keeps_checkMemoryUsage : keeps I checkMemoryUsage.
Proof.
  unfold checkMemoryUsage. apply keeps_try; [| auto with keeps].
  apply keeps_bind; [auto with keeps | intros w0].
  apply keeps_bind.
  - apply keeps_if; [apply keeps_logEvent; helper_allowed | auto with keeps].
  - intros _. apply keeps_if; [apply keeps_initiateRestart | auto with keeps].
Qed.

Lemma keeps_start : keeps I (start toDateString).
Proof.
  unfold start. apply keeps_try; [| auto with keeps].
  apply keeps_bind; [apply keeps_loadRestartState | intros _].
  apply keeps_bind; [auto with keeps | intros this].
  apply keeps_bind; [auto with keeps | intros w0].
  apply keeps_bind; [apply keeps_logEvent; helper_allowed | intros _].
  apply keeps_if; [apply keeps_logEvent; helper_allowed | auto with keeps].
Qed.

Lemma keeps_manualRestart (reason : string) : keeps I (manualRestart reason).
Proof.
  unfold manualRestart.
  apply keeps_bind; [apply keeps_logEvent; helper_allowed | intros _].
  apply keeps_initiateRestart.
Qed.

Lemma keeps_run (c : call) :
  respects allowed c = true -> keeps I (run toDateString toISOString c).
Proof.
  intros Hc. destruct c; simpl.
  - apply keeps_start.
  - apply keeps_stop. helper_allowed.
  - apply keeps_getStats.
  - apply keeps_manualRestart.
  - apply keeps_handleCriticalError.
  - apply keeps_checkMemoryUsage.
  - apply keeps_initiateRestart.
  - apply keeps_forceRestart. helper_allowed.
  - apply keeps_performEmergencyCleanup.
  - apply keeps_saveRestartState.
  - apply keeps_loadRestartState.
  - apply keeps_restartProcess. helper_allowed.
  - apply keeps_gracefulShutdown.
  - apply keeps_logEvent. exact Hc.
  - apply keeps_on_warning. helper_allowed.
Qed.

End Keeps.

(** ** Methods that always return *)

Lemma returns_stays {A} (c : M A) : returns c -> stays c.
Proof. intros H m. left. apply H. Qed.

Lemma calm_returns {A} (c : M A) : calm c -> returns c.
Proof.
  intros H [a w]. destruct (H a w) as [x [w' [E _]]]. now exists x, (a, w').
Qed.

Lemma tame_stays {A} (c : M A) : tame c -> stays c.
Proof.
  intros H [a w]. destruct (H a w) as [w' [_ [[x E] | [e E]]]].
  - left. now exists x, (a, w').
  - right. now exists e, (a, w').
Qed.

Lemma returns_bind {A B} (c : M A) (k : A -> M B) :
  returns c -> (forall x, returns (k x)) -> returns (bind c k).
Proof.
  intros Hc Hk m. destruct (Hc m) as [x [m1 E1]].
  destruct (Hk x m1) as [y [m2 E2]]. exists y, m2.
  rewrite (bind_return _ _ _ _ _ E1). exact E2.
Qed.

Lemma stays_bind {A B} (c : M A) (k : A -> M B) :
  stays c -> (forall x, stays (k x)) -> stays (bind c k).
Proof.
  intros Hc Hk m. destruct (Hc m) as [[x [m1 E1]] | [e [m1 E1]]].
  - rewrite (bind_return _ _ _ _ _ E1). apply Hk.
  - right. exists e, m1. now apply bind_throw.
Qed.

Lemma returns_try {A} (c : M A) (h : exn -> M A) :
  stays c -> (forall e, returns (h e)) -> returns (try_catch c h).
Proof.
  intros Hc Hh m. destruct (Hc m) as [[x [m1 E1]] | [e [m1 E1]]].
  - exists x, m1. now apply try_return.
  - rewrite (try_throw _ _ _ _ _ E1). apply Hh.
Qed.

Lemma returns_if {A} (b : bool) (c1 c2 : M A) :
  returns c1 -> returns c2 -> returns (if b then c1 else c2).
Proof. destruct b; auto. Qed.

Lemma returns_modify_this (f : AutoRestarter -> AutoRestarter) :
  returns (modify_this f).
Proof. intros m. now exists tt, (f (fst m), snd m). Qed.

Lemma returns_setTimeout_exit (code delay : Z) : returns (setTimeout_exit code delay).
Proof.
  intros [a w]. now exists tt, (a, emit (Ev_setTimeout (clock w) delay code) w).
Qed.

(** A guarded block that returns is the block itself. *)
Lemma try_of_returns {A} (c : M A) (h : exn -> M A) (m : machine) :
  returns c -> try_catch c h m = c m.
Proof.
  intros H. destruct (H m) as [x [m' E]]. rewrite E. now apply try_return.
Qed.

Create HintDb returns.
#[local] Hint Resolve returns_modify_this returns_setTimeout_exit : returns.
#[local] Hint Extern 2 (returns (bind _ _)) => apply returns_bind; [| intros ?] : returns.
#[local] Hint Extern 2 (stays (bind _ _)) => apply stays_bind; [| intros ?] : returns.
#[local] Hint Extern 2 (returns (if _ then _ else _)) => apply returns_if : returns.
#[local] Hint Extern 2 (returns (try_catch _ _)) => apply returns_try; [| intros ?] : returns.
#[local] Hint Extern 4 (returns _) => apply calm_returns; auto 10 with calm : returns.
#[local] Hint Extern 6 (stays _) => apply returns_stays : returns.

Lemma returns_block {A} (c : M A) (h : exn -> M A) :
  returns c -> returns (try_catch c h).
Proof.
  intros H m. destruct (H m) as [x [m' E]]. exists x, m'. now apply try_return.
Qed.

Lemma returns_forceRestart (reason : string) : returns (forceRestart reason).
Proof. unfold forceRestart. auto 10 with returns. Qed.

(** The handlers of [restartProcess] and [gracefulShutdown] call
    [process.exit(1)]; they are never entered, since nothing in the blocks
    they guard throws. *)
Lemma returns_restartProcess : returns restartProcess.
Proof. unfold restartProcess. apply returns_block. auto 10 with returns. Qed.

Lemma returns_gracefulShutdown (signal : string) : returns (gracefulShutdown signal).
Proof.
  unfold gracefulShutdown.
  apply returns_bind; [auto with returns | intros this].
  apply returns_if; [auto with returns |].
  apply returns_bind; [auto with returns | intros _].
  apply returns_block.
  apply returns_bind; [auto with returns | intros _].
  apply returns_bind; [auto with returns | intros this'].
  apply returns_bind; [auto 10 with returns calm | intros _].
  apply returns_bind;
    [destruct (childProcess this') as [[|]|]; auto with returns | intros _].
  auto 10 with returns.
Qed.

Lemma returns_initiateRestart (reason : string) : returns (initiateRestart reason).
Proof.
  pose proof returns_gracefulShutdown. pose proof returns_restartProcess.
  pose proof returns_forceRestart.
  unfold initiateRestart. auto 20 with returns.
Qed.

#[local] Hint Resolve returns_forceRestart returns_restartProcess
  returns_gracefulShutdown returns_initiateRestart : returns.

(** ** Substrings *)

Lemma prefix_iff (p s : string) :
  prefix p s = true <-> exists after, s = p ++ after.
Proof.
  revert s. induction p as [|c p IH]; intros s.
  - split; [intros _; now exists s | now destruct s].
  - destruct s as [|d s]; simpl.
    + split; [discriminate | intros [x Hx]; discriminate].
    + destruct (ascii_dec c d) as [-> | Hne].
      * rewrite IH. split; intros [x Hx]; exists x.
        -- now rewrite Hx.
        -- now inversion Hx.
      * split; [discriminate | intros [x Hx]; inversion Hx; subst; now elim Hne].
Qed.

Lemma includes_iff (s p : string) : includes s p = true <-> occurs_in p s.
Proof.
  induction s as [|c s IH]; cbn [includes].
  - rewrite orb_false_r, prefix_iff. split.
    + intros [x Hx]. now exists EmptyString, x.
    + intros [[|b before] [after H]]; [now exists after |].
      simpl in H. discriminate.
  - rewrite orb_true_iff, prefix_iff, IH. split.
    + intros [[x Hx] | [before [after H]]].
      * now exists EmptyString, x.
      * exists (String c before), after. simpl. now rewrite H.
    + intros [[|b before] [after H]].
      * left. now exists after.
      * right. simpl in H. inversion H. now exists before, after.
Qed.

Lemma append_append (a b c : string) : ((a ++ b) ++ c = a ++ (b ++ c))%string.
Proof. induction a as [|x a IH]; simpl; [reflexivity | now rewrite IH]. Qed.

(** The two arguments of [console.error], printed with a space between. *)
Lemma report_with_space (a t m : string) :
  ((a ++ t ++ "):") ++ " " ++ m = a ++ t ++ "): " ++ m)%string.
Proof. now rewrite !append_append. Qed.

(** ** The classification of an observed error *)

Lemma strict_eq_string_iff (v : value) (p : string) :
  strict_eq_string v p = true <-> v = VStr p.
Proof.
  destruct v; simpl; try (split; [discriminate | intros H; discriminate]).
  rewrite String.eqb_eq. split; [now intros -> | now intros [= ->]].
Qed.

Lemma needsRestart_iff (patterns : list string) (msg : string) (code : value) :
  needsRestart patterns msg code = true <->
  exists p, In p patterns /\ (occurs_in p msg \/ code = VStr p).
Proof.
  unfold needsRestart. rewrite existsb_exists.
  split; intros [p [Hin H]]; exists p; split; auto.
  - apply orb_true_iff in H. destruct H as [H | H].
    + left. now apply includes_iff.
    + right. now apply strict_eq_string_iff.
  - apply orb_true_iff. destruct H as [H | H].
    + left. now apply includes_iff.
    + right. now apply strict_eq_string_iff.
Qed.

(** Classifying changes nothing. *)
Lemma some_classifies (patterns : list string) (msg : string) (code : value)
  (m : machine) :
  some patterns (fun criticalError =>
                   b <- js_includes (VStr msg) criticalError ;;
                   ret (b || strict_eq_string code criticalError)) m
  = (Return (needsRestart patterns msg code), m).
Proof.
  induction patterns as [|p r IH]; simpl; [reflexivity |].
  unfold bind at 1. unfold bind at 1. simpl. unfold ret at 1.
  destruct (includes msg p || strict_eq_string code p); simpl; [reflexivity | exact IH].
Qed.

(** An array is searched for an element equal to the pattern. *)
Lemma some_lists (patterns : list string) (items : list value) (code : value)
  (m : machine) :
  some patterns (fun criticalError =>
                   b <- js_includes (VArr items) criticalError ;;
                   ret (b || strict_eq_string code criticalError)) m
  = (Return (listed patterns items code), m).
Proof.
  induction patterns as [|p r IH]; simpl; [reflexivity |].
  unfold bind at 1. unfold bind at 1. simpl. unfold ret at 1.
  destruct (existsb (fun x => strict_eq_string x p) items || strict_eq_string code p);
    simpl; [reflexivity | exact IH].
Qed.

(** A message that is neither a string nor an array has no [includes]
    method. *)
Lemma some_throws (patterns : list string) (v code : value) (m : machine) :
  (forall s, v <> VStr s) -> (forall items, v <> VArr items) -> patterns <> [] ->
  exists e,
    some patterns (fun criticalError =>
                     b <- js_includes v criticalError ;;
                     ret (b || strict_eq_string code criticalError)) m
    = (Throw e, m).
Proof.
  intros Hv Ha Hp. destruct patterns as [|p r]; [contradiction |].
  simpl. unfold bind at 1. unfold bind at 1.
  destruct v; simpl; try (eexists; reflexivity).
  - exfalso. now apply (Hv s).
  - exfalso. now apply (Ha items).
Qed.

(** ** Exit codes of traces *)

Lemma exited_app (t l : list io_event) :
  exited (t ++ l) = match exited t with Some c => Some c | None => exited l end.
Proof.
  induction t as [|e t IH]; simpl; [now destruct (exited l) |].
  destruct e; auto.
Qed.

Lemma exit_timers_app (t l : list io_event) :
  exit_timers (t ++ l) = (exit_timers t ++ exit_timers l)%list.
Proof.
  induction t as [|e t IH]; simpl; [reflexivity |].
  destruct e; simpl; auto. now rewrite IH.
Qed.

Lemma quiet_exited (l : list io_event) : forallb quiet l = true -> exited l = None.
Proof.
  induction l as [|e l IH]; simpl; [reflexivity |].
  intros H. apply andb_prop in H. destruct H as [He Hl].
  destruct e; simpl in *; auto; discriminate.
Qed.

Lemma quiet_exit_timers (l : list io_event) :
  forallb quiet l = true -> exit_timers l = [].
Proof.
  induction l as [|e l IH]; simpl; [reflexivity |].
  intros H. apply andb_prop in H. destruct H as [He Hl].
  destruct e; simpl in *; auto; discriminate.
Qed.

Lemma first_due_none (l : list (Z * Z)) : first_due l = None -> l = [].
Proof.
  destruct l as [|[d c] r]; simpl; [reflexivity |].
  destruct (first_due r) as [[d' c']|]; [destruct (d' <? d)%Z |]; discriminate.
Qed.

(** In a process with no exit pending, quiet events followed by one exit
    timer end the process with the code of that timer. *)
Lemma exit_code_single (t l : list io_event) (at_ms delay code : Z) :
  exit_code t = None ->
  forallb quiet l = true ->
  exit_code (t ++ l ++ [Ev_setTimeout at_ms delay code]) = Some code.
Proof.
  unfold exit_code. intros Ht Hl.
  destruct (exited t) eqn:Et; [discriminate |].
  destruct (first_due (exit_timers t)) as [[d c]|] eqn:Ed; [discriminate |].
  apply first_due_none in Ed.
  rewrite !exited_app, Et, (quiet_exited l Hl). simpl.
  rewrite !exit_timers_app, Ed, (quiet_exit_timers l Hl). reflexivity.
Qed.

(** Quiet events do not change how the process ends. *)
Lemma exit_code_quiet (t l : list io_event) :
  forallb quiet l = true -> exit_code (t ++ l) = exit_code t.
Proof.
  intros Hl. unfold exit_code.
  rewrite exited_app, (quiet_exited l Hl), exit_timers_app,
    (quiet_exit_timers l Hl), app_nil_r.
  now destruct (exited t).
Qed.

(** ** What the methods do, step by step *)

Lemma run_get_this {B} (k : AutoRestarter -> M B) (a : AutoRestarter) (w : World) :
  bind get_this k (a, w) = k a (a, w).
Proof. reflexivity. Qed.

Lemma run_get_world {B} (k : World -> M B) (a : AutoRestarter) (w : World) :
  bind get_world k (a, w) = k w (a, w).
Proof. reflexivity. Qed.

Lemma run_modify_this {B} (f : AutoRestarter -> AutoRestarter) (k : unit -> M B)
  (a : AutoRestarter) (w : World) :
  bind (modify_this f) k (a, w) = k tt (f a, w).
Proof. reflexivity. Qed.

Lemma run_ret {A B} (x : A) (k : A -> M B) (m : machine) :
  bind (ret x) k m = k x m.
Proof. reflexivity. Qed.

Lemma run_io {B} (e : io_event) (k : unit -> M B) (a : AutoRestarter) (w : World) :
  bind (io e) k (a, w) = k tt (a, emit e w).
Proof. reflexivity. Qed.

Lemma logEvent_logged (type : string) (data : value) (a : AutoRestarter) (w : World) :
  logEvent type data (a, w) = (Return tt, (a, logged type data a w)).
Proof.
  destruct w as [d t c f p u mu g mc e1 e2 dm].
  destruct f as [|[|] [|[|] f]]; reflexivity.
Qed.

Lemma run_logEvent {B} (type : string) (data : value) (k : unit -> M B)
  (a : AutoRestarter) (w : World) :
  bind (logEvent type data) k (a, w) = k tt (a, logged type data a w).
Proof. apply bind_return, logEvent_logged. Qed.

Lemma logged_continues (type : string) (data : value) (a : AutoRestarter) (w : World) :
  continues w (logged type data a w).
Proof.
  destruct (calm_logEvent type data a w) as [x [w' [E C]]].
  rewrite logEvent_logged in E.
  assert (Hw : w' = logged type data a w) by congruence.
  rewrite <- Hw. exact C.
Qed.

Lemma logged_state_file (type : string) (data : value) (a : AutoRestarter) (w : World) :
  state_file (files (logged type data a w)) = state_file (files w).
Proof.
  unfold logged. destruct (hd false (faults w)); [reflexivity |].
  destruct (hd false (tl (faults w))); reflexivity.
Qed.

Lemma logged_lines (type : string) (data : value) (a : AutoRestarter) (w : World) :
  lines (logged type data a w) =
  if hd false (faults w) || hd false (tl (faults w)) then lines w
  else (lines w ++ [log_line type data w])%list.
Proof.
  unfold logged. destruct (hd false (faults w)); [reflexivity |].
  destruct (hd false (tl (faults w))); reflexivity.
Qed.

Lemma logged_faults (type : string) (data : value) (a : AutoRestarter) (w : World) :
  faults w = [] -> faults (logged type data a w) = [].
Proof. intros H. unfold logged. rewrite H. reflexivity. Qed.

(** ** Three invariants *)

(** *** The policy parameters *)

Lemma has_config_respected (c0 : Z * Z * list string) :
  runtime_invariant (has_config c0) (fun _ => true).
Proof. constructor; intros; assumption. Qed.

Lemma config_kept (toDateString toISOString : Z -> string) (c : call) (m : machine) :
  config (fst (snd (run toDateString toISOString c m))) = config (fst m).
Proof.
  pose proof (has_config_respected (config (fst m))) as R.
  assert (Hc : forall n a w, has_config (config (fst m)) (a, w) ->
                             has_config (config (fst m)) (set_restartCount n a, w))
    by (intros; assumption).
  assert (Hl : forall t a w, has_config (config (fst m)) (a, w) ->
                             has_config (config (fst m)) (set_lastRestart t a, w))
    by (intros; assumption).
  apply (keeps_run _ _ R toDateString toISOString).
  - intros reason. now apply (free_initiateRestart _ _ R Hc Hl).
  - intros signal. now apply (free_gracefulShutdown _ _ R).
  - now apply (free_loadRestartState _ _ R toDateString Hc Hl).
  - reflexivity.
  - now destruct c.
  - reflexivity.
Qed.

(** *** The latch *)

Lemma latched_respected (base : list log_entry) :
  runtime_invariant (latched_since base) ordinary.
Proof.
  constructor.
  - intros e a w H. exact H.
  - intros l a w H. exact H.
  - intros d a w [H1 [l [H2 H3]]] Hs Hl. split; [exact H1 |].
    exists l. split; [| exact H3].
    cbn [snd] in *. unfold lines, set_files in *. cbn [files]. rewrite Hl. exact H2.
  - intros line a w Hok [H1 [l [H2 H3]]]. split; [exact H1 |].
    exists (l ++ [line])%list. split.
    + cbn [snd] in *. unfold lines at 1. unfold set_files. cbn [files log_file].
      rewrite H2. now rewrite app_assoc.
    + rewrite forallb_app, H3. simpl. now rewrite Hok.
  - intros a w ts p mem up H. exact H.
  - intros a w [H1 H2]. split; [reflexivity | exact H2].
  - intros l a w H. exact H.
  - intros raw a w H. exact H.
Qed.

(** Behind the latch, a restart request does nothing. *)
Lemma initiateRestart_latched (reason : string) (a : AutoRestarter) (w : World) :
  isShuttingDown a = true -> initiateRestart reason (a, w) = (Return tt, (a, w)).
Proof.
  intros H. unfold initiateRestart. rewrite run_get_this, H. reflexivity.
Qed.

(** Behind the latch, a shutdown request does nothing. *)
Lemma gracefulShutdown_latched (signal : string) (a : AutoRestarter) (w : World) :
  isShuttingDown a = true -> gracefulShutdown signal (a, w) = (Return tt, (a, w)).
Proof.
  intros H. unfold gracefulShutdown. rewrite run_get_this, H. reflexivity.
Qed.

Lemma latched_kept (toDateString toISOString : Z -> string)
  (base : list log_entry) (c : call) :
  respects ordinary c = true ->
  keeps (latched_since base) (run toDateString toISOString c).
Proof.
  intros Hc. pose proof (latched_respected base) as R.
  apply (keeps_run _ _ R toDateString toISOString).
  - intros reason [a w] H. destruct H as [H1 H2].
    rewrite initiateRestart_latched by exact H1. now split.
  - intros signal [a w] H. destruct H as [H1 H2].
    rewrite gracefulShutdown_latched by exact H1. now split.
  - apply (free_loadRestartState _ _ R toDateString).
    + intros n a w H. exact H.
    + intros t a w H. exact H.
    + reflexivity.
  - reflexivity.
  - exact Hc.
Qed.

Lemma latched_run_all (toDateString toISOString : Z -> string)
  (base : list log_entry) (calls : list (environment * call)) (m : machine) :
  forallb (fun ec => respects ordinary (snd ec)) calls = true ->
  latched_since base m ->
  latched_since base (run_all toDateString toISOString calls m).
Proof.
  revert m. induction calls as [|[e c] r IH]; intros m Hall Hm; simpl.
  - exact Hm.
  - simpl in Hall. apply andb_prop in Hall. destruct Hall as [Hc Hr].
    apply IH; [exact Hr |].
    apply (latched_kept toDateString toISOString base c Hc).
    destruct m as [a w]. exact Hm.
Qed.

(** *** Loading and saving, exactly *)

Section Loading.

Variable toDateString : Z -> string.

Lemma fs_readFile_state_exact (path : string) (a : AutoRestarter) (w : World) :
  fs_readFile_state path (a, w) =
  let w' :=
    emit (Ev_readFile path
            (negb (hd false (faults w))
             && match state_file (files w) with Some _ => true | None => false end))
         (set_faults (tl (faults w)) w) in
  if hd false (faults w) then (Throw (fs_error "EACCES"), (a, w'))
  else
    match state_file (files w) with
    | None => (Throw (fs_error "ENOENT"), (a, w'))
    | Some t => (Return t, (a, w'))
    end.
Proof.
  destruct w as [[ld lf sf pf] t c f p u mu g mc e1 e2 dm].
  destruct f as [|[|] f]; destruct sf; reflexivity.
Qed.

Lemma loadRestartState_loaded (a : AutoRestarter) (w : World) :
  loadRestartState toDateString (a, w) = (Return tt, loaded toDateString a w).
Proof.
  unfold loaded, accepted, loadRestartState, try_catch.
  pose proof (fs_readFile_state_exact stateFile a w) as E.
  fold (read_attempt w) in E. cbv zeta in E.
  destruct (hd false (faults w)).
  { rewrite (bind_throw _ _ _ _ _ E). reflexivity. }
  destruct (state_file (files w)) as [[raw | [ | | d]] |].
  - rewrite (bind_return _ _ _ _ _ E). reflexivity.
  - rewrite (bind_return _ _ _ _ _ E). reflexivity.
  - rewrite (bind_return _ _ _ _ _ E). reflexivity.
  - rewrite (bind_return _ _ _ _ _ E).
    cbn [JSON_parse]. rewrite run_ret. cbn [properties]. rewrite run_ret.
    rewrite run_get_world.
    replace (clock (read_attempt w)) with (clock w) by reflexivity.
    destruct (same_day toDateString (st_timestamp d) (clock w)); [| reflexivity].
    rewrite !run_modify_this, run_get_this, logEvent_logged. reflexivity.
  - rewrite (bind_throw _ _ _ _ _ E). reflexivity.
Qed.

End Loading.

Lemma saveRestartState_saved (a : AutoRestarter) (w : World) :
  saveRestartState (a, w) = (Return tt, (a, saved a w)).
Proof.
  destruct w as [d t c f p u mu g mc e1 e2 dm].
  destruct f as [|[|] [|[|] f]]; destruct dm as [|[|raw] dm]; reflexivity.
Qed.

(** The state file after [saveRestartState]: the new document; or, when the
    write failed, the file as it was or what the write left of it. *)
Lemma saved_state_file (a : AutoRestarter) (w : World) :
  state_file (files (saved a w))
  = if hd false (faults w) then
      match hd Untouched (damages w) with
      | Untouched => state_file (files w)
      | Torn raw => Some (NotJSON raw)
      end
    else Some (JSON_stringify (saved_state a w)).
Proof.
  unfold saved, write_failed. destruct (hd false (faults w)).
  - change (damages (set_faults (tl (faults w)) w)) with (damages w).
    now destruct (hd Untouched (damages w)).
  - destruct (hd false (tl (faults w))); [| reflexivity].
    match goal with
    | |- context [hd Untouched ?l] => now destruct (hd Untouched l)
    end.
Qed.

(** *** The restart count *)

Lemma or_zero_some (n : Z) : or_zero (Some n) = n.
Proof. simpl. destruct (Z.eqb_spec n 0); congruence. Qed.

Lemma within_limit_respected : runtime_invariant within_limit (fun _ => true).
Proof.
  constructor.
  - intros e a w H. exact H.
  - intros l a w H. exact H.
  - intros d a w [H1 [H2 H3]] Hs Hl. repeat split; auto.
    intros doc Hd. apply H3. cbn [snd]. rewrite <- Hs. exact Hd.
  - intros line a w _ [H1 [H2 H3]]. repeat split; auto.
  - intros a w ts p mem up [H1 [H2 H3]]. repeat split; auto.
    intros doc Hd. cbn [snd fst] in *. unfold set_files in Hd. cbn in Hd.
    injection Hd as <-. cbn [st_restartCount]. rewrite or_zero_some. lia.
  - intros a w H. exact H.
  - intros l a w H. exact H.
  - intros raw a w [H1 [H2 H3]]. repeat split; auto.
    intros doc Hd. cbn [snd] in Hd. unfold set_files in Hd. cbn in Hd.
    discriminate Hd.
Qed.

Lemma within_limit_loadRestartState (toDateString : Z -> string) :
  keeps within_limit (loadRestartState toDateString).
Proof.
  intros [a w] [H1 [H2 H3]]. cbn [fst snd] in *.
  rewrite loadRestartState_loaded. cbn [snd]. unfold loaded, accepted.
  destruct (hd false (faults w)).
  { repeat split; cbn; auto; lia. }
  destruct (state_file (files w)) as [[raw | [ | | d]] |] eqn:Es;
    try (repeat split; cbn; auto; lia).
  destruct (same_day toDateString (st_timestamp d) (clock w));
    [| repeat split; cbn; auto; lia].
  repeat split; cbn [fst snd].
  - cbn. rewrite H2. now apply H3.
  - exact H2.
  - intros doc Hd. rewrite logged_state_file in Hd. now apply H3.
Qed.

Lemma within_limit_initiateRestart (reason : string) :
  keeps within_limit (initiateRestart reason).
Proof.
  pose proof within_limit_respected as R.
  intros [a w] H. pose proof H as [H1 [H2 H3]]. cbn [fst snd] in *.
  unfold initiateRestart. rewrite run_get_this.
  destruct (isShuttingDown a); [exact H |].
  rewrite run_get_world. cbv zeta.
  destruct (clock w - lastRestart a <? restartCooldown a)%Z.
  { now apply (keeps_logEvent _ _ R). }
  destruct (Z.geb_spec (restartCount a) (maxRestarts a)) as [Hge | Hlt].
  { apply (keeps_bind within_limit); [| intros _ | exact H].
    - now apply (keeps_logEvent _ _ R).
    - now apply (free_gracefulShutdown _ _ R). }
  rewrite !run_modify_this.
  apply (keeps_bind within_limit); [apply keeps_get_this | intros this |].
  - apply keeps_bind; [now apply (keeps_logEvent _ _ R) | intros _].
    apply keeps_try.
    + apply keeps_bind; [apply (keeps_performEmergencyCleanup _ _ R) | intros _].
      apply keeps_bind; [apply (keeps_saveRestartState _ _ R) | intros _].
      now apply (keeps_restartProcess _ _ R).
    + intros e. apply keeps_bind; [apply (keeps_console_error _ _ R) | intros _].
      now apply (keeps_forceRestart _ _ R).
  - repeat split; cbn; auto. lia.
Qed.

Lemma within_limit_run (toDateString toISOString : Z -> string) (c : call) :
  keeps within_limit (run toDateString toISOString c).
Proof.
  pose proof within_limit_respected as R.
  apply (keeps_run _ _ R toDateString toISOString).
  - apply within_limit_initiateRestart.
  - intros signal. now apply (free_gracefulShutdown _ _ R).
  - apply within_limit_loadRestartState.
  - reflexivity.
  - now destruct c.
Qed.

(** Construction gives the fields their initial values and installs the
    handlers. *)
Lemma constructor_exact (a0 : AutoRestarter) (w0 : World) :
  constructor (a0, w0) =
  (Return tt,
   (fresh,
    emit (Ev_on "SIGUSR2")
      (emit (Ev_on "SIGINT")
         (emit (Ev_on "SIGTERM")
            (emit (Ev_setInterval 60000)
               (emit (Ev_on "warning")
                  (emit (Ev_on "unhandledRejection")
                     (emit (Ev_on "uncaughtException") w0)))))))).
Proof. reflexivity. Qed.

Lemma within_limit_reachable (toDateString toISOString : Z -> string) (m : machine) :
  reachable toDateString toISOString m -> within_limit m.
Proof.
  induction 1 as [a0 w0 Ht | a w e c Hr IH | a w e p v1 v2 Hr IH].
  - rewrite constructor_exact. cbn [snd]. repeat split; cbn; auto. lia.
  - apply within_limit_run. destruct IH as [H1 [H2 H3]]. repeat split; auto.
  - rewrite constructor_exact. cbn [snd]. destruct IH as [H1 [H2 H3]].
    repeat split; cbn; auto. lia.
Qed.

(** *** Cleaning up, shutting down and restarting, exactly *)

Lemma performEmergencyCleanup_cleaned (a : AutoRestarter) (w : World) :
  performEmergencyCleanup (a, w) = (Return tt, (a, cleaned w)).
Proof.
  destruct w as [d t c f p u mu g mc e1 e2 dm].
  destruct g, mc; reflexivity.
Qed.

Lemma unlink_unlinked (a : AutoRestarter) (w : World) :
  try_catch (fs_unlink_pid (pidFile a)) (fun _ => ret tt) (a, w)
  = (Return tt, (a, unlinked a w)).
Proof.
  destruct w as [[ld lf sf pf] t c f p u mu g mc e1 e2 dm].
  destruct f as [|[|] f]; destruct pf; reflexivity.
Qed.

Lemma gracefulShutdown_shut_down (signal : string) (a : AutoRestarter) (w : World) :
  isShuttingDown a = false ->
  gracefulShutdown signal (a, w)
  = (Return tt, (set_isShuttingDown true a, shut_down signal a w)).
Proof.
  intros H. unfold gracefulShutdown. rewrite run_get_this, H, run_modify_this.
  unfold try_catch at 1. rewrite run_logEvent, run_get_this.
  rewrite (bind_return _ _ _ _ _ (unlink_unlinked _ _)).
  unfold shut_down. cbn [pidFile logFile childProcess set_isShuttingDown].
  change (logged "graceful_shutdown" (VStr signal) (set_isShuttingDown true a) w)
    with (logged "graceful_shutdown" (VStr signal) a w).
  change (unlinked (set_isShuttingDown true a)) with (unlinked a).
  set (w2 := unlinked a (logged "graceful_shutdown" (VStr signal) a w)).
  unfold setTimeout_exit.
  destruct (childProcess a) as [[|]|];
    rewrite ?run_io, ?run_ret, run_get_world;
    match goal with |- context [global_gc ?x] => destruct (global_gc x) end;
    rewrite ?run_io, ?run_ret, run_get_world; reflexivity.
Qed.

Lemma restartProcess_requested (a : AutoRestarter) (w : World) :
  restartProcess (a, w) = (Return tt, (a, restart_requested a w)).
Proof.
  unfold restartProcess, try_catch, console_log.
  rewrite run_io, run_logEvent. reflexivity.
Qed.

Lemma initiateRestart_restarted (reason : string) (a : AutoRestarter) (w : World) :
  isShuttingDown a = false ->
  (clock w - lastRestart a <? restartCooldown a)%Z = false ->
  (restartCount a >=? maxRestarts a)%Z = false ->
  initiateRestart reason (a, w)
  = (Return tt, (restarting (clock w) a, restarted reason a w)).
Proof.
  intros H1 H2 H3. unfold initiateRestart.
  rewrite run_get_this, H1, run_get_world. cbv zeta. rewrite H2, H3.
  rewrite !run_modify_this, run_get_this, run_logEvent.
  unfold try_catch.
  rewrite (bind_return _ _ _ _ _ (performEmergencyCleanup_cleaned _ _)).
  rewrite (bind_return _ _ _ _ _ (saveRestartState_saved _ _)).
  rewrite restartProcess_requested. reflexivity.
Qed.

(** A request inside the cooldown window is logged and dropped. *)
Lemma initiateRestart_blocked (reason : string) (a : AutoRestarter) (w : World) :
  isShuttingDown a = false ->
  (clock w - lastRestart a <? restartCooldown a)%Z = true ->
  initiateRestart reason (a, w)
  = logEvent "restart_blocked"
      (VStr ("Restart bloqueado por cooldown. Razão: " ++ reason)) (a, w).
Proof.
  intros H1 H2. unfold initiateRestart.
  rewrite run_get_this, H1, run_get_world. cbv zeta. now rewrite H2.
Qed.

(** A request at the limit is logged and turned into a shutdown. *)
Lemma initiateRestart_limited (reason : string) (a : AutoRestarter) (w : World) :
  isShuttingDown a = false ->
  (clock w - lastRestart a <? restartCooldown a)%Z = false ->
  (restartCount a >=? maxRestarts a)%Z = true ->
  initiateRestart reason (a, w)
  = (logEvent "restart_limit"
       (VStr ("Limite de " ++ string_of_Z (maxRestarts a)
              ++ " reinicializações atingido. Sistema será finalizado.")) ;;
     gracefulShutdown "MAX_RESTARTS_REACHED") (a, w).
Proof.
  intros H1 H2 H3. unfold initiateRestart.
  rewrite run_get_this, H1, run_get_world. cbv zeta. now rewrite H2, H3.
Qed.

(** *** How these worlds relate to the one before *)

Lemma calm_world (c : M unit) (a : AutoRestarter) (w w' : World) :
  calm c -> c (a, w) = (Return tt, (a, w')) -> continues w w'.
Proof.
  intros Hc E. destruct (Hc a w) as [x [w1 [E1 C1]]].
  assert (Hw : w1 = w') by congruence. now rewrite <- Hw.
Qed.

Lemma cleaned_continues (w : World) : continues w (cleaned w).
Proof.
  apply (calm_world performEmergencyCleanup fresh);
    [apply calm_performEmergencyCleanup | apply performEmergencyCleanup_cleaned].
Qed.

Lemma saved_continues (a : AutoRestarter) (w : World) : continues w (saved a w).
Proof.
  apply (calm_world saveRestartState a);
    [apply calm_saveRestartState | apply saveRestartState_saved].
Qed.

Lemma unlinked_continues (a : AutoRestarter) (w : World) : continues w (unlinked a w).
Proof.
  apply (calm_world (try_catch (fs_unlink_pid (pidFile a)) (fun _ => ret tt)) a);
    [auto with calm | apply unlink_unlinked].
Qed.

(** A continuation followed by one exit timer. *)
Lemma continues_then_timer (w w' : World) (delay code : Z) :
  continues w w' ->
  exists l,
    trace (emit (Ev_setTimeout (clock w') delay code) w')
    = (trace w ++ l ++ [Ev_setTimeout (clock w) delay code])%list
    /\ forallb quiet l = true.
Proof.
  intros [Hc _ _ _ _ _ _ _ [l [Ht Hq]]]. exists l. split; [| exact Hq].
  unfold emit. cbn [trace]. now rewrite Ht, Hc, app_assoc.
Qed.

Lemma shut_down_trace (signal : string) (a : AutoRestarter) (w : World) :
  exists l,
    trace (shut_down signal a w)
    = (trace w ++ l
       ++ [Ev_setTimeout (clock w) 2000
             (if (signal =? "MAX_RESTARTS_REACHED")%string then 1 else 0)])%list
    /\ forallb quiet l = true.
Proof.
  unfold shut_down. apply continues_then_timer.
  eapply continues_trans; [apply logged_continues |].
  eapply continues_trans; [apply unlinked_continues |].
  set (w2 := unlinked a _).
  assert (C3 : continues w2 (match childProcess a with
                             | Some false => emit (Ev_kill "SIGTERM") w2
                             | _ => w2
                             end)).
  { destruct (childProcess a) as [[|]|];
      first [apply continues_refl | now apply continues_emit]. }
  eapply continues_trans; [exact C3 |].
  match goal with |- context [global_gc ?x] => destruct (global_gc x) end;
    first [apply continues_refl | now apply continues_emit].
Qed.

Lemma restart_requested_trace (a : AutoRestarter) (w0 w : World) :
  continues w0 w ->
  exists l,
    trace (restart_requested a w)
    = (trace w0 ++ l ++ [Ev_setTimeout (clock w0) 2000 0])%list
    /\ forallb quiet l = true.
Proof.
  intros C. unfold restart_requested. apply continues_then_timer.
  eapply continues_trans; [exact C |].
  eapply continues_trans; [| apply logged_continues].
  now apply continues_emit.
Qed.

Lemma restarted_trace (reason : string) (a : AutoRestarter) (w : World) :
  exists l,
    trace (restarted reason a w)
    = (trace w ++ l ++ [Ev_setTimeout (clock w) 2000 0])%list
    /\ forallb quiet l = true.
Proof.
  unfold restarted. apply restart_requested_trace.
  eapply continues_trans; [apply logged_continues |].
  eapply continues_trans; [apply cleaned_continues | apply saved_continues].
Qed.

(** Without faults, the lines of a shutdown and of a restart. *)
Lemma set_faults_nil (w : World) : faults w = [] -> set_faults [] w = w.
Proof. destruct w. cbn. now intros ->. Qed.

Lemma logged_ok (type : string) (data : value) (a : AutoRestarter) (w : World) :
  faults w = [] ->
  logged type data a w =
  set_files (mk_disk true (Some (lines w ++ [log_line type data w])%list)
                     (state_file (files w)) (pid_file (files w)))
    (emit (Ev_appendFile (logFile a) (log_line type data w) true)
       (emit (Ev_mkdir (path_dirname (logFile a)) true) w)).
Proof.
  intros H. unfold logged. rewrite H. cbn [hd tl].
  destruct w as [d t c f p u mu g mc e1 e2 dm]. cbn in H. subst f. reflexivity.
Qed.

Lemma saved_ok (a : AutoRestarter) (w : World) :
  faults w = [] ->
  saved a w =
  set_files (mk_disk (logs_dir (files w)) (log_file (files w))
                     (Some (JSON_stringify (saved_state a w)))
                     (Some (string_of_Z (pid w))))
    (emit (Ev_writeFile (pidFile a) true)
       (emit (Ev_writeFile stateFile true) w)).
Proof.
  intros H. unfold saved. rewrite H. cbn [hd tl].
  destruct w as [d t c f p u mu g mc e1 e2 dm]. cbn in H. subst f. reflexivity.
Qed.

Lemma log_line_continues (type : string) (data : value) (w w' : World) :
  continues w w' -> log_line type data w' = log_line type data w.
Proof.
  intros [Hc Hp Hu Hm _ _ _ _ _]. unfold log_line. now rewrite Hc, Hp, Hu, Hm.
Qed.

Lemma shut_down_lines (signal : string) (a : AutoRestarter) (w : World) :
  faults w = [] ->
  lines (shut_down signal a w)
  = (lines w ++ [log_line "graceful_shutdown" (VStr signal) w])%list.
Proof.
  intros H. unfold shut_down. rewrite (logged_ok _ _ _ _ H).
  destruct w as [[ld lf sf pf] t c f p u mu g mc e1 e2 dm]. cbn in H. subst f.
  destruct pf, (childProcess a) as [[|]|], g; reflexivity.
Qed.

(** Reading a world that was written to. *)
Lemma trace_emit (e : io_event) (w : World) : trace (emit e w) = (trace w ++ [e])%list.
Proof. reflexivity. Qed.

Lemma trace_set_files (d : disk) (w : World) : trace (set_files d w) = trace w.
Proof. reflexivity. Qed.

Lemma trace_set_faults (l : list bool) (w : World) : trace (set_faults l w) = trace w.
Proof. reflexivity. Qed.

Lemma trace_set_damages (l : list damage) (w : World) :
  trace (set_damages l w) = trace w.
Proof. reflexivity. Qed.

Lemma write_failed_trace (path : string) (tear : string -> disk -> disk)
  (w : World) :
  exists msg,
    trace (write_failed path tear w)
    = (trace w ++ [Ev_writeFile path false; Ev_console "warn" msg])%list.
Proof.
  unfold write_failed. destruct (hd Untouched (damages w)); eexists;
    rewrite trace_emit, ?trace_set_files, trace_set_damages, trace_emit;
    now rewrite <- app_assoc.
Qed.

Lemma files_emit (e : io_event) (w : World) : files (emit e w) = files w.
Proof. reflexivity. Qed.

Lemma files_set_files (d : disk) (w : World) : files (set_files d w) = d.
Proof. reflexivity. Qed.

Lemma faults_emit (e : io_event) (w : World) : faults (emit e w) = faults w.
Proof. reflexivity. Qed.

Lemma faults_set_files (d : disk) (w : World) : faults (set_files d w) = faults w.
Proof. reflexivity. Qed.

Lemma lines_emit (e : io_event) (w : World) : lines (emit e w) = lines w.
Proof. reflexivity. Qed.

Lemma lines_set_files (d : disk) (w : World) :
  lines (set_files d w) = match log_file d with Some l => l | None => [] end.
Proof. reflexivity. Qed.

Lemma log_line_emit (type : string) (data : value) (e : io_event) (w : World) :
  log_line type data (emit e w) = log_line type data w.
Proof. reflexivity. Qed.

Lemma log_line_set_files (type : string) (data : value) (d : disk) (w : World) :
  log_line type data (set_files d w) = log_line type data w.
Proof. reflexivity. Qed.

Lemma saved_state_emit (a : AutoRestarter) (e : io_event) (w : World) :
  saved_state a (emit e w) = saved_state a w.
Proof. reflexivity. Qed.

Lemma saved_state_set_files (a : AutoRestarter) (d : disk) (w : World) :
  saved_state a (set_files d w) = saved_state a w.
Proof. reflexivity. Qed.

Lemma clock_emit (e : io_event) (w : World) : clock (emit e w) = clock w.
Proof. reflexivity. Qed.

Lemma clock_set_files (d : disk) (w : World) : clock (set_files d w) = clock w.
Proof. reflexivity. Qed.

Lemma pid_emit (e : io_event) (w : World) : pid (emit e w) = pid w.
Proof. reflexivity. Qed.

Lemma pid_set_files (d : disk) (w : World) : pid (set_files d w) = pid w.
Proof. reflexivity. Qed.

Create Rewrite HintDb world.
#[local] Hint Rewrite trace_emit trace_set_files files_emit files_set_files
  faults_emit faults_set_files lines_emit lines_set_files log_line_emit
  log_line_set_files saved_state_emit saved_state_set_files clock_emit
  clock_set_files pid_emit pid_set_files : world.

Lemma cleaned_trace (w : World) :
  trace (cleaned w)
  = (trace w
     ++ (if global_gc w then [Ev_gc] else [])
     ++ (if global_messagesCache w then [Ev_cache_clear] else [])
     ++ [Ev_exec "rm -rf /tmp/nazuna-*"; Ev_exec "rm -rf ./temp/*"])%list.
Proof.
  unfold cleaned. destruct (global_gc w), (global_messagesCache w);
    autorewrite with world; rewrite <- ?app_assoc; reflexivity.
Qed.

Lemma cleaned_files (w : World) : files (cleaned w) = files w.
Proof. unfold cleaned. now destruct (global_gc w), (global_messagesCache w). Qed.

Lemma cleaned_faults (w : World) : faults (cleaned w) = faults w.
Proof. unfold cleaned. now destruct (global_gc w), (global_messagesCache w). Qed.

Lemma cleaned_saved_state (a : AutoRestarter) (w : World) :
  saved_state a (cleaned w) = saved_state a w.
Proof. unfold cleaned. now destruct (global_gc w), (global_messagesCache w). Qed.

Lemma cleaned_log_line (type : string) (data : value) (w : World) :
  log_line type data (cleaned w) = log_line type data w.
Proof. unfold cleaned. now destruct (global_gc w), (global_messagesCache w). Qed.

Lemma cleaned_clock (w : World) : clock (cleaned w) = clock w.
Proof. unfold cleaned. now destruct (global_gc w), (global_messagesCache w). Qed.

Lemma cleaned_pid (w : World) : pid (cleaned w) = pid w.
Proof. unfold cleaned. now destruct (global_gc w), (global_messagesCache w). Qed.

Lemma cleaned_lines (w : World) : lines (cleaned w) = lines w.
Proof. unfold lines. now rewrite cleaned_files. Qed.

#[local] Hint Rewrite cleaned_trace cleaned_files cleaned_faults
  cleaned_saved_state cleaned_log_line cleaned_clock cleaned_pid cleaned_lines : world.

Lemma restarted_ok (reason : string) (a : AutoRestarter) (w : World) :
  faults w = [] ->
  let a1 := restarting (clock w) a in
  let line1 :=
    log_line "restart_initiated"
      (VObj [("reason", VStr reason);
             ("count", VNum (restartCount a + 1));
             ("maxRestarts", VNum (maxRestarts a))]) w in
  let line2 :=
    log_line "restart_initiated_render"
      (VStr "O Render detectará o desligamento e reiniciará o container automaticamente.")
      w in
  lines (restarted reason a w) = (lines w ++ [line1; line2])%list /\
  state_file (files (restarted reason a w))
  = Some (JSON_stringify (saved_state a1 w)) /\
  pid_file (files (restarted reason a w)) = Some (string_of_Z (pid w)) /\
  trace (restarted reason a w)
  = (trace w
     ++ [Ev_mkdir (path_dirname (logFile a)) true;
         Ev_appendFile (logFile a) line1 true]
     ++ (if global_gc w then [Ev_gc] else [])
     ++ (if global_messagesCache w then [Ev_cache_clear] else [])
     ++ [Ev_exec "rm -rf /tmp/nazuna-*";
         Ev_exec "rm -rf ./temp/*";
         Ev_writeFile stateFile true;
         Ev_writeFile (pidFile a) true;
         Ev_console "log"
           "🔄 [RENDER RESTART] Solicitando reinício limpo via process.exit(0)...";
         Ev_mkdir (path_dirname (logFile a)) true;
         Ev_appendFile (logFile a) line2 true;
         Ev_setTimeout (clock w) 2000 0])%list.
Proof.
  intros Hf a1 line1 line2.
  unfold restarted, restart_requested. fold a1.
  set (data1 := VObj [("reason", VStr reason);
                      ("count", VNum (restartCount a + 1));
                      ("maxRestarts", VNum (maxRestarts a))]).
  set (w1 := logged "restart_initiated" data1 a1 w).
  assert (E1 : w1 = _) by (apply (logged_ok _ _ _ _ Hf)).
  assert (F1 : faults w1 = []) by (now apply logged_faults).
  assert (F2 : faults (cleaned w1) = []) by (now rewrite cleaned_faults).
  rewrite (saved_ok a1 (cleaned w1) F2).
  set (w3 := set_files _ _).
  assert (F3 : faults (emit (Ev_console "log"
      "🔄 [RENDER RESTART] Solicitando reinício limpo via process.exit(0)...") w3) = []).
  { unfold w3. autorewrite with world. exact F1. }
  rewrite (logged_ok _ _ _ _ F3).
  assert (G : global_gc w1 = global_gc w /\
              global_messagesCache w1 = global_messagesCache w).
  { destruct (logged_continues "restart_initiated" data1 a1 w)
      as [_ _ _ _ G1 G2 _ _ _]. now split. }
  destruct G as [G1 G2].
  unfold w3. autorewrite with world. cbn [log_file state_file pid_file].
  rewrite G1, G2, E1. autorewrite with world. cbn [log_file state_file pid_file].
  change (logFile a1) with (logFile a). change (pidFile a1) with (pidFile a).
  fold line1. fold line2.
  repeat split.
  - now rewrite <- app_assoc.
  - now rewrite <- !app_assoc.
Qed.

(** * The claims *)

Section Claims.

Variable toDateString : Z -> string.
Variable toISOString : Z -> string.

(** C1 (amended).  In every state reachable from a deployment whose state
    file is the supervisor's own, [restartCount] never exceeds
    [maxRestarts].  A restart request arriving when
    [restartCount >= maxRestarts] never changes the counters.  When it
    arrives while not shutting down and outside the cooldown window, it logs
    [restart_limit] and calls [gracefulShutdown("MAX_RESTARTS_REACHED")],
    which sets the latch and arms [process.exit(1)] two seconds later, so
    that a process with no other exit pending ends with code 1. *)
Theorem restart_limit_enforced :
  (forall m, reachable toDateString toISOString m ->
             (restartCount (fst m) <= maxRestarts (fst m))%Z) /\
  (forall reason a w,
      (maxRestarts a <= restartCount a)%Z ->
      restartCount (fst (snd (initiateRestart reason (a, w)))) = restartCount a /\
      lastRestart (fst (snd (initiateRestart reason (a, w)))) = lastRestart a) /\
  (forall reason a w,
      (maxRestarts a <= restartCount a)%Z ->
      isShuttingDown a = false ->
      (restartCooldown a <= clock w - lastRestart a)%Z ->
      initiateRestart reason (a, w)
      = (logEvent "restart_limit" (limit_message a) ;;
         gracefulShutdown "MAX_RESTARTS_REACHED") (a, w) /\
      exists w',
        initiateRestart reason (a, w)
        = (Return tt, (set_isShuttingDown true a, w')) /\
        (exists l, trace w' = (trace w ++ l ++ [Ev_setTimeout (clock w) 2000 1])%list
                   /\ forallb quiet l = true) /\
        (exit_code (trace w) = None -> exit_code (trace w') = Some 1%Z) /\
        (faults w = [] ->
         lines w' = (lines w
                     ++ [log_line "restart_limit" (limit_message a) w;
                         log_line "graceful_shutdown"
                           (VStr "MAX_RESTARTS_REACHED") w])%list)).
Proof.
  split; [| split].
  - intros m Hm. apply (within_limit_reachable _ _ _ Hm).
  - intros reason a w Hge.
    destruct (isShuttingDown a) eqn:El.
    { rewrite initiateRestart_latched by exact El. now split. }
    destruct (clock w - lastRestart a <? restartCooldown a)%Z eqn:Ec.
    { rewrite (initiateRestart_blocked _ _ _ El Ec), logEvent_logged. now split. }
    assert (Eg : (restartCount a >=? maxRestarts a)%Z = true)
      by (apply Z.geb_le; lia).
    rewrite (initiateRestart_limited _ _ _ El Ec Eg), run_logEvent.
    rewrite (gracefulShutdown_shut_down _ _ _ El). now split.
  - intros reason a w Hge El Hc.
    assert (Ec : (clock w - lastRestart a <? restartCooldown a)%Z = false)
      by (apply Z.ltb_ge; lia).
    assert (Eg : (restartCount a >=? maxRestarts a)%Z = true)
      by (apply Z.geb_le; lia).
    pose proof (initiateRestart_limited reason _ _ El Ec Eg) as E.
    fold (limit_message a) in E. split; [exact E |].
    rewrite E, run_logEvent, (gracefulShutdown_shut_down _ _ _ El).
    set (w1 := logged "restart_limit" (limit_message a) a w).
    exists (shut_down "MAX_RESTARTS_REACHED" a w1).
    assert (Ht : exists l,
               trace (shut_down "MAX_RESTARTS_REACHED" a w1)
               = (trace w ++ l ++ [Ev_setTimeout (clock w) 2000 1])%list
               /\ forallb quiet l = true).
    { destruct (shut_down_trace "MAX_RESTARTS_REACHED" a w1) as [l2 [T2 Q2]].
      destruct (logged_continues "restart_limit" (limit_message a) a w)
        as [C1 _ _ _ _ _ _ _ [l1 [T1 Q1]]].
      fold w1 in C1, T1. exists (l1 ++ l2)%list. split.
      - rewrite T2, T1, C1. cbn [String.eqb]. now rewrite <- !app_assoc.
      - now rewrite forallb_app, Q1, Q2. }
    split; [reflexivity |]. split; [exact Ht |]. split.
    + intros Hn. destruct Ht as [l [T Q]]. rewrite T. now apply exit_code_single.
    + intros Hf.
      rewrite shut_down_lines by (now apply logged_faults).
      rewrite (log_line_continues _ _ w w1) by apply logged_continues.
      unfold w1. rewrite logged_lines, Hf. cbn [hd tl orb].
      rewrite <- app_assoc. reflexivity.
Qed.


(** C3.  Once [isShuttingDown] is true, a call of [initiateRestart] or of
    [gracefulShutdown] returns at once and changes neither the object nor
    the world; and whatever is called afterwards, in whatever environment,
    the latch stays set and no line of type [restart_initiated] or
    [graceful_shutdown] is appended to the log (the calls being the
    supervisor's own: none hands such a type to [logEvent] directly). *)
Theorem latch_makes_requests_noops :
  (forall reason a w,
      isShuttingDown a = true ->
      initiateRestart reason (a, w) = (Return tt, (a, w))) /\
  (forall signal a w,
      isShuttingDown a = true ->
      gracefulShutdown signal (a, w) = (Return tt, (a, w))) /\
  (forall calls a w,
      isShuttingDown a = true ->
      forallb (fun ec => respects ordinary (snd ec)) calls = true ->
      let m' := run_all toDateString toISOString calls (a, w) in
      isShuttingDown (fst m') = true /\
      exists l,
        lines (snd m') = (lines w ++ l)%list /\
        forall e, In e l ->
                  le_type e <> "restart_initiated" /\
                  le_type e <> "graceful_shutdown").
Proof.
  split; [| split].
  - apply initiateRestart_latched.
  - apply gracefulShutdown_latched.
  - intros calls a w Hl Hc m'.
    assert (H0 : latched_since (lines w) (a, w)).
    { split; [exact Hl |]. exists []. now rewrite app_nil_r. }
    pose proof (latched_run_all toDateString toISOString _ calls _ Hc H0)
      as [H1 [l [H2 H3]]].
    split; [exact H1 |]. exists l. split; [exact H2 |].
    intros e He. rewrite forallb_forall in H3. specialize (H3 e He).
    unfold ordinary in H3. apply andb_prop in H3. destruct H3 as [Ha Hb].
    apply negb_true_iff in Ha, Hb. apply String.eqb_neq in Ha, Hb. now split.
Qed.

(** On a message that is a string, the handler logs the error, classifies
    it, and either requests a restart or reports it; its fallback is not
    entered. *)
Lemma handleCriticalError_string (type : string) (error : js_error)
  (a : AutoRestarter) (w : World) (msg : string) :
  errorMessage_of error = VStr msg ->
  handleCriticalError toISOString type error (a, w)
  = (if needsRestart (criticalErrors a) msg (errorCode_of error)
     then initiateRestart (critical_reason error)
     else console_error (non_critical_report type error))
      (a, logged "critical_error" (critical_error_data toISOString type error a w) a w)
  /\ handleCriticalError_try toISOString type error (a, w)
     = handleCriticalError toISOString type error (a, w)
  /\ exists m', handleCriticalError toISOString type error (a, w) = (Return tt, m').
Proof.
  intros Hm.
  assert (E : handleCriticalError_try toISOString type error (a, w)
              = (if needsRestart (criticalErrors a) msg (errorCode_of error)
                 then initiateRestart (critical_reason error)
                 else console_error (non_critical_report type error))
                  (a, logged "critical_error" (critical_error_data toISOString type error a w) a w)).
  { unfold handleCriticalError_try, critical_reason, non_critical_report,
      critical_error_data. cbv zeta.
    rewrite run_get_this, run_get_world, run_logEvent, run_get_this, Hm.
    rewrite (bind_return _ _ _ _ _ (some_classifies _ _ _ _)).
    cbn [console_error_with display]. now rewrite report_with_space. }
  assert (R : exists m', handleCriticalError_try toISOString type error (a, w)
                         = (Return tt, m')).
  { rewrite E. destruct (needsRestart _ _ _).
    - destruct (returns_initiateRestart (critical_reason error)
                  (a, logged "critical_error" (critical_error_data toISOString type error a w) a w))
        as [[] [m' Em]].
      now exists m'.
    - eexists. reflexivity. }
  destruct R as [m' R].
  assert (T : handleCriticalError toISOString type error (a, w)
              = handleCriticalError_try toISOString type error (a, w)).
  { unfold handleCriticalError. rewrite R. now apply try_return. }
  split; [now rewrite T | split; [now rewrite T | exists m'; now rewrite T]].
Qed.

(** On a message that is an array, the handler does the same with the
    elements of the array in place of the substrings of the message. *)
Lemma handleCriticalError_array (type : string) (error : js_error)
  (a : AutoRestarter) (w : World) (items : list value) :
  errorMessage_of error = VArr items ->
  handleCriticalError toISOString type error (a, w)
  = (if listed (criticalErrors a) items (errorCode_of error)
     then initiateRestart (critical_reason error)
     else io (non_critical_event type error))
      (a, logged "critical_error" (critical_error_data toISOString type error a w) a w)
  /\ handleCriticalError_try toISOString type error (a, w)
     = handleCriticalError toISOString type error (a, w)
  /\ exists m', handleCriticalError toISOString type error (a, w) = (Return tt, m').
Proof.
  intros Hm.
  assert (E : handleCriticalError_try toISOString type error (a, w)
              = (if listed (criticalErrors a) items (errorCode_of error)
                 then initiateRestart (critical_reason error)
                 else io (non_critical_event type error))
                  (a, logged "critical_error" (critical_error_data toISOString type error a w) a w)).
  { unfold handleCriticalError_try, critical_reason, non_critical_event,
      critical_error_data. cbv zeta.
    rewrite run_get_this, run_get_world, run_logEvent, run_get_this, Hm.
    now rewrite (bind_return _ _ _ _ _ (some_lists _ _ _ _)). }
  assert (R : exists m', handleCriticalError_try toISOString type error (a, w)
                         = (Return tt, m')).
  { rewrite E. destruct (listed _ _ _).
    - destruct (returns_initiateRestart (critical_reason error)
                  (a, logged "critical_error" (critical_error_data toISOString type error a w) a w))
        as [[] [m' Em]].
      now exists m'.
    - eexists. reflexivity. }
  destruct R as [m' R].
  assert (T : handleCriticalError toISOString type error (a, w)
              = handleCriticalError_try toISOString type error (a, w)).
  { unfold handleCriticalError. rewrite R. now apply try_return. }
  split; [now rewrite T | split; [now rewrite T | exists m'; now rewrite T]].
Qed.

(** C4.  A restart request made while not shutting down, outside the
    cooldown window and below the limit returns normally with
    [restartCount] one higher, [lastRestart] set to the time of the request
    and the latch set; whatever file operations fail, the events it causes
    arm no exit but the last one, which arms [process.exit(0)] two seconds
    after the request, so that a process with no other exit pending ends
    with code 0.  When no file operation fails the events are, in this
    order: the [restart_initiated] line with reason, count and limit
    appended to the log, the emergency cleanup, the state and the pid
    written, the announcement logged, the exit armed.  In particular one
    error of code [ENOSPC] on a new instance, cooldown elapsed, takes
    [restartCount] from 0 to 1 and ends the process with code 0. *)
Theorem restart_sequence :
  (forall reason a w,
      isShuttingDown a = false ->
      (restartCooldown a <= clock w - lastRestart a)%Z ->
      (restartCount a < maxRestarts a)%Z ->
      let a' := fst (snd (initiateRestart reason (a, w))) in
      let w' := snd (snd (initiateRestart reason (a, w))) in
      fst (initiateRestart reason (a, w)) = Return tt /\
      restartCount a' = (restartCount a + 1)%Z /\
      lastRestart a' = clock w /\
      isShuttingDown a' = true /\
      config a' = config a /\
      (exists l, trace w' = (trace w ++ l ++ [Ev_setTimeout (clock w) 2000 0])%list
                 /\ forallb quiet l = true) /\
      (exit_code (trace w) = None -> exit_code (trace w') = Some 0%Z) /\
      (faults w = [] ->
       let line1 :=
         log_line "restart_initiated"
           (VObj [("reason", VStr reason);
                  ("count", VNum (restartCount a + 1));
                  ("maxRestarts", VNum (maxRestarts a))]) w in
       let line2 :=
         log_line "restart_initiated_render"
           (VStr "O Render detectará o desligamento e reiniciará o container automaticamente.")
           w in
       lines w' = (lines w ++ [line1; line2])%list /\
       state_file (files w') = Some (JSON_stringify (saved_state a' w)) /\
       trace w'
       = (trace w
          ++ [Ev_mkdir (path_dirname (logFile a)) true;
              Ev_appendFile (logFile a) line1 true]
          ++ (if global_gc w then [Ev_gc] else [])
          ++ (if global_messagesCache w then [Ev_cache_clear] else [])
          ++ [Ev_exec "rm -rf /tmp/nazuna-*";
              Ev_exec "rm -rf ./temp/*";
              Ev_writeFile stateFile true;
              Ev_writeFile (pidFile a) true;
              Ev_console "log"
                "🔄 [RENDER RESTART] Solicitando reinício limpo via process.exit(0)...";
              Ev_mkdir (path_dirname (logFile a)) true;
              Ev_appendFile (logFile a) line2 true;
              Ev_setTimeout (clock w) 2000 0])%list)) /\
  (forall type error msg w,
      errorMessage_of error = VStr msg ->
      err_code error = VStr "ENOSPC" ->
      (30000 <= clock w)%Z ->
      let m' := snd (handleCriticalError toISOString type error (fresh, w)) in
      maxRestarts fresh = 5%Z /\
      restartCount fresh = 0%Z /\
      restartCount (fst m') = 1%Z /\
      (exit_code (trace w) = None -> exit_code (trace (snd m')) = Some 0%Z)).
Proof.
  split.
  - intros reason a w El Hc Hlt.
    assert (Ec : (clock w - lastRestart a <? restartCooldown a)%Z = false)
      by (apply Z.ltb_ge; lia).
    assert (Eg : (restartCount a >=? maxRestarts a)%Z = false)
      by (rewrite Z.geb_leb; apply Z.leb_gt; lia).
    rewrite (initiateRestart_restarted _ _ _ El Ec Eg). cbn [fst snd].
    pose proof (restarted_trace reason a w) as Ht.
    repeat (split; [reflexivity |]).
    split; [exact Ht |]. split.
    + intros Hn. destruct Ht as [l [T Q]]. rewrite T. now apply exit_code_single.
    + intros Hf. destruct (restarted_ok reason a w Hf) as [L [S [_ T]]].
      cbv zeta. split; [exact L |]. split; [exact S | exact T].
  - intros type error msg w Hm Hcode Hclock m'.
    split; [reflexivity |]. split; [reflexivity |].
    destruct (handleCriticalError_string type error fresh w msg Hm) as [E _].
    assert (Hc : errorCode_of error = VStr "ENOSPC").
    { unfold errorCode_of. now rewrite Hcode. }
    assert (Hn : needsRestart (criticalErrors fresh) msg (errorCode_of error) = true).
    { rewrite Hc. cbn. now rewrite orb_true_r. }
    rewrite Hn in E.
    set (w1 := logged "critical_error" (critical_error_data toISOString type error fresh w) fresh w)
      in E.
    destruct (logged_continues "critical_error"
                (critical_error_data toISOString type error fresh w) fresh w)
      as [C1 _ _ _ _ _ _ _ [l1 [T1 Q1]]].
    fold w1 in C1, T1.
    assert (Ec : (clock w1 - lastRestart fresh <? restartCooldown fresh)%Z = false).
    { apply Z.ltb_ge. rewrite C1. cbn. lia. }
    rewrite (initiateRestart_restarted _ fresh w1 eq_refl Ec eq_refl) in E.
    unfold m'. rewrite E. cbn [fst snd]. split; [reflexivity |].
    intros Hx. destruct (restarted_trace (critical_reason error) fresh w1)
      as [l2 [T2 Q2]].
    rewrite T2, T1, <- app_assoc, (app_assoc l1).
    apply exit_code_single; [exact Hx |]. now rewrite forallb_app, Q1, Q2.
Qed.

(** C5.  The decision on an observed error whose message is a string is
    critical exactly when the message contains one of the configured
    patterns as a substring, or the code is equal to one of them; the
    comparison is by characters, so letter case matters.  Classifying
    leaves the machine as it is; the handler logs the error, then requests a
    restart when the decision is critical and only reports the error when it
    is not, in which case the object is unchanged and no exit is armed. *)
Theorem classification_by_pattern :
  (forall patterns msg code,
      needsRestart patterns msg code = true <->
      exists p, In p patterns /\ (occurs_in p msg \/ code = VStr p)) /\
  (forall patterns msg code m,
      some patterns (fun criticalError =>
                       b <- js_includes (VStr msg) criticalError ;;
                       ret (b || strict_eq_string code criticalError)) m
      = (Return (needsRestart patterns msg code), m)) /\
  (forall type error a w msg,
      errorMessage_of error = VStr msg ->
      handleCriticalError toISOString type error (a, w)
      = (if needsRestart (criticalErrors a) msg (errorCode_of error)
         then initiateRestart (critical_reason error)
         else console_error (non_critical_report type error))
          (a, logged "critical_error" (critical_error_data toISOString type error a w) a w)) /\
  (forall type error a w msg,
      errorMessage_of error = VStr msg ->
      needsRestart (criticalErrors a) msg (errorCode_of error) = false ->
      let m' := snd (handleCriticalError toISOString type error (a, w)) in
      fst m' = a /\ exit_code (trace (snd m')) = exit_code (trace w)) /\
  needsRestart (criticalErrors fresh) "ENOSPC: no space left on device" VUndefined
  = true /\
  needsRestart (criticalErrors fresh) "enospc: no space left on device"
               (VStr "enospc") = false.
Proof.
  split; [apply needsRestart_iff |].
  split; [apply some_classifies |].
  split; [intros; now apply handleCriticalError_string |].
  split; [| split; reflexivity].
  intros type error a w msg Hm Hn m'.
  destruct (handleCriticalError_string type error a w msg Hm) as [E _].
  rewrite Hn in E. unfold m'. rewrite E. cbn [fst snd console_error io modify_world].
  split; [reflexivity |].
  destruct (logged_continues "critical_error"
              (critical_error_data toISOString type error a w) a w)
    as [_ _ _ _ _ _ _ _ [l [T Q]]].
  unfold emit. cbn [trace]. rewrite T, <- app_assoc.
  apply exit_code_quiet. rewrite forallb_app, Q. reflexivity.
Qed.

(** C6.  A state that was written on one day and is read back unchanged
    on the same day gives the object the [restartCount] and the
    [lastRestart] that were saved; read back on any other day, and so on any
    later one, it gives both as 0. *)
Theorem state_round_trip :
  forall a w a2 w2,
    hd false (faults w) = false ->           (* the state is written *)
    state_file (files w2)
    = state_file (files (snd (snd (saveRestartState (a, w))))) ->
    hd false (faults w2) = false ->          (* and can be read *)
    let a' := fst (snd (loadRestartState toDateString (a2, w2))) in
    (toDateString (clock w2) = toDateString (clock w) ->
     restartCount a' = restartCount a /\ lastRestart a' = lastRestart a) /\
    (toDateString (clock w2) <> toDateString (clock w) ->
     restartCount a' = 0%Z /\ lastRestart a' = 0%Z).
Proof.
  intros a w a2 w2 Hw Hfile Hr a'.
  rewrite saveRestartState_saved in Hfile. cbn [snd] in Hfile.
  assert (Hs : state_file (files w2) = Some (JSON_stringify (saved_state a w))).
  { now rewrite Hfile, saved_state_file, Hw. }
  unfold a'. rewrite loadRestartState_loaded. unfold loaded, accepted.
  rewrite Hr, Hs. unfold JSON_stringify. cbn [saved_state st_timestamp same_day].
  split.
  - intros Hd. rewrite Hd, String.eqb_refl. cbn [fst snd].
    unfold restored, saved_state. cbn [st_restartCount st_lastRestart].
    rewrite !or_zero_some. now split.
  - intros Hd. apply String.eqb_neq in Hd. rewrite String.eqb_sym in Hd.
    rewrite Hd. now split.
Qed.

(** C7 (amended).  [saveRestartState] never fails and leaves the object
    alone; its first file operation is one [fs.writeFile] on the fixed state
    path itself, and nothing but a second one on the pid file and a warning
    on the console can follow: no temporary path is written and nothing is
    renamed.  A state write that succeeds leaves the new document.  The
    write is not atomic: one that fails before the file is open leaves the
    document that was there, one that fails after it leaves an empty or
    partial text, which is neither the old document nor the new one.  Such
    a file is read as absent: the next load starts from zero. *)
Theorem save_writes_in_place :
  forall a w,
    saveRestartState (a, w) = (Return tt, (a, saved a w)) /\
    (exists l,
        trace (saved a w)
        = (trace w ++ Ev_writeFile stateFile (negb (hd false (faults w))) :: l)%list /\
        forall e, In e l ->
                  (exists ok, e = Ev_writeFile (pidFile a) ok) \/
                  (exists msg, e = Ev_console "warn" msg)) /\
    state_file (files (saved a w))
    = (if hd false (faults w) then
         match hd Untouched (damages w) with
         | Untouched => state_file (files w)
         | Torn raw => Some (NotJSON raw)
         end
       else Some (JSON_stringify (saved_state a w))) /\
    (forall a2 w2 raw,
        state_file (files w2) = Some (NotJSON raw) ->
        loadRestartState toDateString (a2, w2)
        = (Return tt, (zeroed a2, read_attempt w2))) /\
    (forall a2 w2 raw,
        hd false (faults w) = true ->
        hd Untouched (damages w) = Torn raw ->
        state_file (files w2) = state_file (files (saved a w)) ->
        (forall d, state_file (files w2) <> Some (JSON_stringify d)) /\
        restartCount (fst (snd (loadRestartState toDateString (a2, w2)))) = 0%Z /\
        lastRestart (fst (snd (loadRestartState toDateString (a2, w2)))) = 0%Z).
Proof.
  intros a w.
  assert (L : forall a2 w2 raw,
             state_file (files w2) = Some (NotJSON raw) ->
             loadRestartState toDateString (a2, w2)
             = (Return tt, (zeroed a2, read_attempt w2))).
  { intros a2 w2 raw Hs. rewrite loadRestartState_loaded.
    unfold loaded, accepted. rewrite Hs. now destruct (hd false (faults w2)). }
  split; [apply saveRestartState_saved |]. split; [| split; [| split]].
  - unfold saved. destruct (hd false (faults w)).
    + match goal with
      | |- context [write_failed ?p ?f ?w0] =>
          destruct (write_failed_trace p f w0) as [msg T]
      end.
      exists [Ev_console "warn" msg]. split.
      * rewrite T, trace_set_faults. reflexivity.
      * intros e [<- | []]. right. now exists msg.
    + destruct (hd false (tl (faults w))).
      * match goal with
        | |- context [write_failed ?p ?f ?w0] =>
            destruct (write_failed_trace p f w0) as [msg T]
        end.
        exists [Ev_writeFile (pidFile a) false; Ev_console "warn" msg]. split.
        -- rewrite T, trace_set_faults, trace_set_files, trace_emit,
             trace_set_faults. now rewrite <- app_assoc.
        -- intros e [<- | [<- | []]]; [left | right]; now eexists.
      * exists [Ev_writeFile (pidFile a) true]. split.
        -- rewrite trace_set_files, trace_emit, trace_set_faults, trace_set_files,
             trace_emit, trace_set_faults. now rewrite <- app_assoc.
        -- intros e [<- | []]. left. now eexists.
  - apply saved_state_file.
  - exact L.
  - intros a2 w2 raw Hf Hd Hs. rewrite saved_state_file, Hf, Hd in Hs.
    split; [intros d E; rewrite Hs in E; discriminate E |].
    rewrite (L a2 w2 raw Hs). now split.
Qed.

(** C8.  [loadRestartState] returns normally whatever is on disk; when the
    state file is missing, cannot be read, or does not parse to an object,
    it leaves [restartCount] and [lastRestart] at 0. *)
Theorem load_never_fails :
  (forall a w, exists m', loadRestartState toDateString (a, w) = (Return tt, m')) /\
  (forall a w,
      hd false (faults w) = true \/                      (* unreadable *)
      state_file (files w) = None \/                     (* missing *)
      (exists raw, state_file (files w) = Some (NotJSON raw)) \/  (* malformed *)
      state_file (files w) = Some (JSONOf PNull) \/
      state_file (files w) = Some (JSONOf PScalar) ->
      loadRestartState toDateString (a, w)
      = (Return tt, (zeroed a, read_attempt w)) /\
      restartCount (zeroed a) = 0%Z /\ lastRestart (zeroed a) = 0%Z).
Proof.
  split.
  - intros a w. exists (loaded toDateString a w). apply loadRestartState_loaded.
  - intros a w H. split; [| now split].
    rewrite loadRestartState_loaded. unfold loaded, accepted.
    destruct (hd false (faults w)); [reflexivity |].
    destruct H as [H | [H | [[raw H] | [H | H]]]];
      first [discriminate | now rewrite H].
Qed.

(** C9.  [logEvent] returns normally for every type and payload, whatever
    file operation fails: a failure to make the directory or to append the
    line is caught inside, reported on the console, and leaves the log as it
    was.  The fallback of [handleCriticalError] is therefore not entered
    because of a log write: the guarded block throws exactly when the
    message of the error has no [includes] method, being neither a string
    nor an array (and there is a pattern to look for), whatever the
    faults. *)
Theorem logEvent_never_raises :
  (forall type data a w,
      logEvent type data (a, w) = (Return tt, (a, logged type data a w))) /\
  (forall type data a w,
      hd false (faults w) || hd false (tl (faults w)) = true ->
      lines (logged type data a w) = lines w /\
      exists msg, In (Ev_console "error" msg) (trace (logged type data a w))) /\
  (forall type error a w,
      (exists e m',
          handleCriticalError_try toISOString type error (a, w) = (Throw e, m'))
      <-> (forall s, errorMessage_of error <> VStr s) /\
          (forall items, errorMessage_of error <> VArr items) /\
          criticalErrors a <> []).
Proof.
  split; [apply logEvent_logged |]. split.
  - intros type data a w H. split; [now rewrite logged_lines, H |].
    unfold logged. destruct (hd false (faults w)).
    + eexists. unfold emit at 1. cbn [trace]. apply in_or_app. right. now left.
    + cbn [orb] in H. rewrite H.
      eexists. unfold emit at 1. cbn [trace]. apply in_or_app. right. now left.
  - intros type error a w. split.
    + intros [e [m' E]]. split; [| split].
      * intros s Hs.
        destruct (handleCriticalError_string type error a w s Hs)
          as [_ [T [m1 R]]].
        rewrite T, R in E. discriminate.
      * intros items Hs.
        destruct (handleCriticalError_array type error a w items Hs)
          as [_ [T [m1 R]]].
        rewrite T, R in E. discriminate.
      * intros Hp. unfold handleCriticalError_try in E. cbv zeta in E.
        rewrite run_get_this, run_get_world, run_logEvent, run_get_this, Hp in E.
        cbn [some] in E. rewrite run_ret in E.
        match type of E with
        | console_error_with ?p ?v (?a0, ?w0) = _ =>
            destruct (calm_console_error_with p v a0 w0) as [x [w' [Ec _]]]
        end.
        rewrite Ec in E. discriminate.
    + intros [Hs [Ha Hp]]. unfold handleCriticalError_try. cbv zeta.
      rewrite run_get_this, run_get_world, run_logEvent, run_get_this.
      destruct (some_throws (criticalErrors a) (errorMessage_of error)
                  (errorCode_of error)
                  (a, logged "critical_error"
                        (critical_error_data toISOString type error a w) a w)
                  Hs Ha Hp)
        as [e E].
      exists e. eexists. apply bind_throw. exact E.
Qed.

(** C10.  The constructor gives every instance [maxRestarts] 5, a cooldown
    of 30000 ms and the same six patterns, and arms the memory check every
    60000 ms; no method changes these fields, so they have these values in
    every reachable state.  The memory thresholds are the constants 512 and
    1024 (in MB of used heap): the check logs [high_memory] above the first
    and moreover requests a restart above the second. *)
Theorem policy_parameters_fixed :
  (forall a0 w0,
      let m := snd (constructor (a0, w0)) in
      maxRestarts (fst m) = 5%Z /\
      restartCooldown (fst m) = 30000%Z /\
      criticalErrors (fst m)
      = ["ENOSPC"; "ENOMEM"; "EMFILE"; "ECONNRESET"; "ERR_UNHANDLED_ERROR";
         "UnhandledPromiseRejectionWarning"] /\
      length (criticalErrors (fst m)) = 6%nat /\
      In (Ev_setInterval 60000) (trace (snd m))) /\
  (forall c m,
      config (fst (snd (run toDateString toISOString c m))) = config (fst m)) /\
  (forall m,
      reachable toDateString toISOString m -> config (fst m) = config fresh) /\
  (forall a w,
      let memUsedMB := round_MB (heapUsed (memoryUsage w)) in
      let report :=
        logEvent "high_memory"
          (VObj [("heapUsed", VNum memUsedMB);
                 ("heapTotal", VNum (round_MB (heapTotal (memoryUsage w))));
                 ("rss", VNum (round_MB (rss (memoryUsage w))));
                 ("external", VNum (round_MB (external (memoryUsage w))))]) in
      checkMemoryUsage (a, w)
      = if (memUsedMB >? 1024)%Z then
          (report ;;
           initiateRestart ("Uso crítico de memória: " ++ string_of_Z memUsedMB ++ "MB"))
            (a, w)
        else if (memUsedMB >? 512)%Z then report (a, w)
        else (Return tt, (a, w))).
Proof.
  split; [| split; [| split]].
  - intros a0 w0 m. unfold m. rewrite constructor_exact. cbn [fst snd].
    repeat (split; [reflexivity |]).
    repeat (rewrite trace_emit; apply in_or_app;
            first [right; left; reflexivity | left]).
  - apply config_kept.
  - induction 1 as [a0 w0 Ht | a w e c Hr IH | a w e p v1 v2 Hr IH].
    + now rewrite constructor_exact.
    + rewrite config_kept. exact IH.
    + now rewrite constructor_exact.
  - intros a w memUsedMB report.
    assert (R : returns
                  (w0 <- get_world ;;
                   let memUsage := memoryUsage w0 in
                   let memUsedMB := round_MB (heapUsed memUsage) in
                   let memTotalMB := round_MB (heapTotal memUsage) in
                   (if (memUsedMB >? 512)%Z then
                      logEvent "high_memory"
                        (VObj [("heapUsed", VNum memUsedMB);
                               ("heapTotal", VNum memTotalMB);
                               ("rss", VNum (round_MB (rss memUsage)));
                               ("external", VNum (round_MB (external memUsage)))])
                    else ret tt) ;;
                   (if (memUsedMB >? 1024)%Z then
                      initiateRestart
                        ("Uso crítico de memória: " ++ string_of_Z memUsedMB ++ "MB")
                    else ret tt))).
    { apply returns_bind; [apply calm_returns, calm_get_world | intros w0].
      cbv zeta. apply returns_bind; [| intros _].
      - apply returns_if; apply calm_returns; auto with calm.
      - apply returns_if; [apply returns_initiateRestart |].
        apply calm_returns; auto with calm. }
    unfold checkMemoryUsage. rewrite (try_of_returns _ _ _ R).
    rewrite run_get_world. cbv zeta. fold memUsedMB. fold report.
    destruct (Z.gtb_spec memUsedMB 512) as [H1 | H1];
      destruct (Z.gtb_spec memUsedMB 1024) as [H2 | H2]; try lia.
    + reflexivity.
    + unfold report. now rewrite run_logEvent, logEvent_logged.
    + reflexivity.
Qed.

End Claims.

(** ** The claims at work *)

(** C1, as stated, fails: in a reachable state with
    [restartCount >= maxRestarts] and the latch open, a restart request
    made ten seconds after the last restart is held back by the cooldown; it
    logs [restart_blocked], not [restart_limit], does not shut down, and
    arms no exit. *)
Lemma limit_request_inside_cooldown :
  reachable utc_day utc_stamp relaunched /\
  (maxRestarts (fst relaunched) <= restartCount (fst relaunched))%Z /\
  isShuttingDown (fst relaunched) = false /\
  let m' := snd (initiateRestart "ENOSPC" relaunched) in
  map le_type (lines (snd m'))
  = ["state_loaded"; "auto_restart_started"; "restart_blocked"] /\
  isShuttingDown (fst m') = false /\
  exit_code (trace (snd m')) = None.
Proof.
  split.
  - unfold relaunched.
    apply (reach_call utc_day utc_stamp _ _ (calm_env ten_seconds_later) Call_start).
    assert (E : snd (constructor (fresh, exhausted_world))
                = (fst (snd (constructor (fresh, exhausted_world))),
                   snd (snd (constructor (fresh, exhausted_world)))))
      by reflexivity.
    rewrite <- E. apply reach_boot.
    intros doc H. injection H as <-. vm_compute. discriminate.
  - vm_compute. repeat split; discriminate.
Qed.

(** C7, as stated, fails: the state is written in place, so a save that is
    cut short leaves at the state path neither the old document nor the new
    one; the next process, on the same day, reads a count of 0 where both
    documents hold a positive one.  The same happens without the process
    being killed, when the write fails on a full disk. *)
Lemma interrupted_save_leaves_neither :
  let old := state_file (files second_world) in
  let new := Some (JSON_stringify (saved_state third_restart second_world)) in
  let cut := snd (snd (saveRestartState_killed (third_restart, second_world))) in
  let full := snd (snd (saveRestartState (third_restart, disk_full))) in
  In (Ev_writeFile stateFile true)
     (trace (snd (snd (saveRestartState (third_restart, second_world))))) /\
  state_file (files (snd (snd (saveRestartState (third_restart, second_world)))))
  = new /\
  state_file (files cut) <> old /\
  state_file (files cut) <> new /\
  restartCount
    (fst (snd (loadRestartState utc_day
                 (fresh, observe (calm_env ten_seconds_later) cut)))) = 0%Z /\
  restartCount
    (fst (snd (loadRestartState utc_day
                 (fresh, observe (calm_env ten_seconds_later) second_world)))) = 2%Z /\
  fst (saveRestartState (third_restart, disk_full)) = Return tt /\
  state_file (files disk_full) = old /\
  state_file (files full) <> old /\
  state_file (files full) <> new /\
  restartCount
    (fst (snd (loadRestartState utc_day
                 (fresh, observe (calm_env ten_seconds_later) full)))) = 0%Z.
Proof.
  vm_compute. repeat split; try discriminate. now left.
Qed.

(** *** Each theorem at a concrete input *)

(** A new instance on an empty disk is a reachable state. *)
Lemma booted_reachable : reachable utc_day utc_stamp booted.
Proof. apply reach_boot. intros doc H. discriminate H. Qed.

(** The limit on a new instance, and on one that has used up its restarts
    and is asked again a minute after the last one. *)
Lemma restart_limit_enforced_witness :
  (restartCount (fst booted) <= maxRestarts (fst booted))%Z /\
  restartCount
    (fst (snd (initiateRestart "ENOSPC" (exhausted, first_world a_minute_later))))
  = 5%Z /\
  exit_code
    (trace (snd (snd (initiateRestart "ENOSPC"
                        (exhausted, first_world a_minute_later)))))
  = Some 1%Z.
Proof.
  destruct (restart_limit_enforced utc_day utc_stamp) as [H1 [H2 H3]].
  split; [apply H1, booted_reachable |]. split.
  - apply (H2 "ENOSPC" exhausted (first_world a_minute_later)). simpl. lia.
  - destruct (H3 "ENOSPC" exhausted (first_world a_minute_later))
      as [_ [w' [E [_ [Hx _]]]]].
    + simpl. lia.
    + reflexivity.
    + vm_compute. discriminate.
    + rewrite E. apply Hx. reflexivity.
Defined.


(** Three calls behind the latch. *)
Lemma latch_makes_requests_noops_witness :
  isShuttingDown
    (fst (run_all utc_day utc_stamp
            [(calm_env ten_seconds_later, Call_manualRestart "again");
             (calm_env a_minute_later,
              Call_handleCriticalError "uncaughtException" no_space);
             (calm_env a_minute_later, Call_gracefulShutdown "SIGTERM")]
            (third_restart, first_world an_instant))) = true.
Proof.
  destruct (latch_makes_requests_noops utc_day utc_stamp) as [_ [_ H]].
  apply (H [(calm_env ten_seconds_later, Call_manualRestart "again");
            (calm_env a_minute_later,
             Call_handleCriticalError "uncaughtException" no_space);
            (calm_env a_minute_later, Call_gracefulShutdown "SIGTERM")]
           third_restart (first_world an_instant)); reflexivity.
Defined.

(** The first restart of a new instance, requested directly and through an
    error of code [ENOSPC]. *)
Lemma restart_sequence_witness :
  restartCount (fst (snd (initiateRestart "ENOSPC" (fresh, first_world an_instant))))
  = 1%Z /\
  exit_code (trace (snd (snd (initiateRestart "ENOSPC"
                                (fresh, first_world an_instant)))))
  = Some 0%Z /\
  restartCount
    (fst (snd (handleCriticalError utc_stamp "uncaughtException" no_space
                 (fresh, first_world an_instant)))) = 1%Z.
Proof.
  destruct (restart_sequence utc_stamp) as [H1 H2].
  destruct (H1 "ENOSPC" fresh (first_world an_instant))
    as [_ [Hc [_ [_ [_ [_ [Hx _]]]]]]].
  - reflexivity.
  - vm_compute. discriminate.
  - simpl. lia.
  - split; [exact Hc |]. split; [apply Hx; reflexivity |].
    destruct (H2 "uncaughtException" no_space
                "ENOSPC: no space left on device, write"
                (first_world an_instant)) as [_ [_ [H _]]].
    + reflexivity.
    + reflexivity.
    + vm_compute. discriminate.
    + exact H.
Defined.

(** An error that matches no pattern is reported and nothing else. *)
Lemma classification_by_pattern_witness :
  fst (snd (handleCriticalError utc_stamp "unhandledRejection" harmless
              (fresh, first_world an_instant))) = fresh /\
  exit_code (trace (snd (snd (handleCriticalError utc_stamp "unhandledRejection"
                                harmless (fresh, first_world an_instant)))))
  = None.
Proof.
  destruct (classification_by_pattern utc_stamp) as [_ [_ [_ [H _]]]].
  apply (H "unhandledRejection" harmless fresh (first_world an_instant)
           "Cannot read properties of undefined"); reflexivity.
Defined.

(** The state of a third restart, read back ten seconds and one day later. *)
Lemma state_round_trip_witness :
  let disk_after := snd (snd (saveRestartState (third_restart, first_world an_instant))) in
  restartCount
    (fst (snd (loadRestartState utc_day
                 (fresh, observe (calm_env ten_seconds_later) disk_after)))) = 3%Z /\
  restartCount
    (fst (snd (loadRestartState utc_day
                 (fresh, observe (calm_env (an_instant + 86400000)) disk_after))))
  = 0%Z.
Proof.
  intros disk_after.
  destruct (state_round_trip utc_day third_restart (first_world an_instant)
              fresh (observe (calm_env ten_seconds_later) disk_after))
    as [[H _] _]; [reflexivity | reflexivity | reflexivity | reflexivity |].
  destruct (state_round_trip utc_day third_restart (first_world an_instant)
              fresh (observe (calm_env (an_instant + 86400000)) disk_after))
    as [_ H2]; [reflexivity | reflexivity | reflexivity |].
  destruct H2 as [H2 _]; [vm_compute; discriminate |].
  split; [exact H | exact H2].
Defined.

(** A state file cut short is read as absent, and a state write that fails
    on a full disk leaves such a file. *)
Lemma save_writes_in_place_witness :
  loadRestartState utc_day (exhausted, cut_short)
  = (Return tt, (zeroed exhausted, read_attempt cut_short)) /\
  restartCount
    (fst (snd (loadRestartState utc_day
                 (fresh,
                  observe (calm_env ten_seconds_later)
                          (saved third_restart disk_full))))) = 0%Z.
Proof.
  destruct (save_writes_in_place utc_day third_restart disk_full)
    as [_ [_ [_ [H1 H2]]]].
  split.
  - apply (H1 exhausted cut_short "{ restartCou"). reflexivity.
  - destruct (H2 fresh (observe (calm_env ten_seconds_later)
                                (saved third_restart disk_full)) EmptyString)
      as [_ [H _]]; [reflexivity | reflexivity | reflexivity | exact H].
Defined.

(** Loading without a state file. *)
Lemma load_never_fails_witness :
  loadRestartState utc_day (exhausted, first_world an_instant)
  = (Return tt, (zeroed exhausted, read_attempt (first_world an_instant))).
Proof.
  destruct (load_never_fails utc_day) as [_ H].
  apply (H exhausted (first_world an_instant)). right. left. reflexivity.
Defined.

(** A log write that fails leaves the log as it was. *)
Lemma logEvent_never_raises_witness :
  lines (logged "critical_error" (VStr "disk full") fresh failing_world)
  = lines failing_world.
Proof.
  destruct (logEvent_never_raises utc_stamp) as [_ [H _]].
  apply (H "critical_error" (VStr "disk full") fresh failing_world). reflexivity.
Defined.

(** The parameters of a new instance. *)
Lemma policy_parameters_fixed_witness : config (fst booted) = config fresh.
Proof.
  destruct (policy_parameters_fixed utc_day utc_stamp) as [_ [_ [H _]]].
  apply H. apply booted_reachable.
Defined.

(** * Further properties *)

(** ** Every method returns *)

Lemma stays_some {A} (l : list A) (f : A -> M bool) :
  (forall x, stays (f x)) -> stays (some l f).
Proof.
  intros H. induction l as [|x r IH]; simpl.
  - apply returns_stays, calm_returns, calm_ret.
  - apply stays_bind; [apply H | intros b].
    destruct b; [apply returns_stays, calm_returns, calm_ret | exact IH].
Qed.

Lemma stays_js_includes (v : value) (p : string) : stays (js_includes v p).
Proof.
  destruct v; simpl;
    first [apply returns_stays, calm_returns, calm_ret
          | apply tame_stays, tame_throw].
Qed.

Lemma returns_handleCriticalError (toISOString : Z -> string) (type : string)
  (error : js_error) :
  returns (handleCriticalError toISOString type error).
Proof.
  unfold handleCriticalError. apply returns_try.
  - unfold handleCriticalError_try. cbv zeta.
    apply stays_bind; [auto with returns | intros this].
    apply stays_bind; [auto with returns | intros w0].
    apply stays_bind; [auto with returns | intros _].
    apply stays_bind; [auto with returns | intros this'].
    apply stays_bind.
    + apply stays_some. intros p.
      apply stays_bind; [apply stays_js_includes | intros b].
      apply returns_stays, calm_returns, calm_ret.
    + intros b. apply returns_stays. destruct b; auto with returns.
  - intros e. apply returns_bind; [auto with returns | intros _].
    apply returns_forceRestart.
Qed.

Lemma returns_checkMemoryUsage : returns checkMemoryUsage.
Proof.
  unfold checkMemoryUsage. apply returns_block.
  apply returns_bind; [apply calm_returns, calm_get_world | intros w0].
  cbv zeta. apply returns_bind; [| intros _].
  - apply returns_if; apply calm_returns; auto with calm.
  - apply returns_if; [apply returns_initiateRestart |].
    apply calm_returns; auto with calm.
Qed.

Lemma returns_loadRestartState (toDateString : Z -> string) :
  returns (loadRestartState toDateString).
Proof.
  intros [a w]. exists tt, (loaded toDateString a w).
  apply loadRestartState_loaded.
Qed.

Lemma returns_start (toDateString : Z -> string) : returns (start toDateString).
Proof.
  unfold start. apply returns_block.
  apply returns_bind; [apply returns_loadRestartState | intros _].
  apply returns_bind; [auto with returns | intros this].
  apply returns_bind; [auto with returns | intros w0].
  apply returns_bind; [auto with returns | intros _].
  apply returns_if; apply calm_returns; auto with calm.
Qed.

Lemma returns_run (toDateString toISOString : Z -> string) (c : call) :
  returns (run toDateString toISOString c).
Proof.
  destruct c; simpl.
  - apply returns_start.
  - unfold stop. auto with returns.
  - unfold discard, getStats. apply calm_returns. auto 10 with calm.
  - unfold manualRestart. auto with returns.
  - apply returns_handleCriticalError.
  - apply returns_checkMemoryUsage.
  - apply returns_initiateRestart.
  - apply returns_forceRestart.
  - apply calm_returns, calm_performEmergencyCleanup.
  - apply calm_returns, calm_saveRestartState.
  - apply returns_loadRestartState.
  - apply returns_restartProcess.
  - apply returns_gracefulShutdown.
  - apply calm_returns, calm_logEvent.
  - unfold on_warning. apply returns_if; apply calm_returns; auto with calm.
Qed.

(** X1.  Every method of the supervisor returns normally, whatever the
    state of the object, the disk, the error it is given and the file
    operations that fail: no exception reaches the caller, so that none of
    the handlers installed on the process ever rejects, and [process.exit]
    is never reached inside a method. *)
Theorem every_method_returns :
  forall (toDateString toISOString : Z -> string) (c : call) (m : machine),
    exists m', run toDateString toISOString c m = (Return tt, m').
Proof.
  intros toDateString toISOString c m.
  destruct (returns_run toDateString toISOString c m) as [[] [m' E]].
  now exists m'.
Qed.

(** ** The files only grow *)

Lemma disk_grows_respected (base : list log_entry) (s0 : option text) :
  runtime_invariant (disk_grows base s0) (fun _ => true).
Proof.
  constructor.
  - intros e a w H. exact H.
  - intros l a w H. exact H.
  - intros d a w [[l Hl] Hs] Es El. split.
    + exists l. cbn [snd] in *. rewrite lines_set_files, El. exact Hl.
    + unfold keeps_documents in *. cbn [snd] in *. rewrite files_set_files, Es.
      exact Hs.
  - intros line a w _ [[l Hl] Hs]. split.
    + exists (l ++ [line])%list. cbn [snd] in *.
      rewrite lines_set_files. cbn [log_file]. rewrite Hl. now rewrite app_assoc.
    + unfold keeps_documents in *. cbn [snd] in *. now rewrite files_set_files.
  - intros a w ts p mem up [[l Hl] Hs]. split.
    + exists l. cbn [snd] in *. rewrite lines_set_files. exact Hl.
    + right. left. cbn [snd]. rewrite files_set_files. cbn [state_file]. eauto.
  - intros a w H. exact H.
  - intros l a w H. exact H.
  - intros raw a w [[l Hl] Hs]. split.
    + exists l. cbn [snd] in *. rewrite lines_set_files. exact Hl.
    + right. right. cbn [snd]. rewrite files_set_files. cbn [state_file]. eauto.
Qed.

Lemma disk_grows_run (toDateString toISOString : Z -> string)
  (base : list log_entry) (s0 : option text) (c : call) :
  keeps (disk_grows base s0) (run toDateString toISOString c).
Proof.
  pose proof (disk_grows_respected base s0) as R.
  assert (Hc : forall n a w, disk_grows base s0 (a, w) ->
                             disk_grows base s0 (set_restartCount n a, w))
    by (intros; assumption).
  assert (Hl : forall t a w, disk_grows base s0 (a, w) ->
                             disk_grows base s0 (set_lastRestart t a, w))
    by (intros; assumption).
  apply (keeps_run _ _ R toDateString toISOString).
  - intros reason. now apply (free_initiateRestart _ _ R Hc Hl).
  - intros signal. now apply (free_gracefulShutdown _ _ R).
  - now apply (free_loadRestartState _ _ R toDateString Hc Hl).
  - reflexivity.
  - now destruct c.
Qed.

(** X2.  Through any sequence of calls, in any environment and with any
    file operation failing, the log file only grows at its end (no line is
    removed or rewritten), and the state file is the one the sequence
    started with, or a complete state document, or the empty or partial
    text that a failed write has left, which no load accepts: the
    supervisor never deletes the file, and a state file that was there at
    the start is there at the end. *)
Theorem files_only_grow :
  forall (toDateString toISOString : Z -> string)
         (calls : list (environment * call)) (m : machine),
    let m' := run_all toDateString toISOString calls m in
    (exists l, lines (snd m') = (lines (snd m) ++ l)%list) /\
    (state_file (files (snd m')) = state_file (files (snd m)) \/
     (exists d, state_file (files (snd m')) = Some (JSON_stringify d)) \/
     (exists raw, state_file (files (snd m')) = Some (NotJSON raw))) /\
    (state_file (files (snd m)) <> None -> state_file (files (snd m')) <> None).
Proof.
  intros toDateString toISOString calls m.
  assert (H : forall base s0 m0,
             disk_grows base s0 m0 ->
             disk_grows base s0 (run_all toDateString toISOString calls m0)).
  { intros base s0. induction calls as [|[e c] r IH]; intros m0 Hm; simpl.
    - exact Hm.
    - apply IH. apply disk_grows_run. destruct m0 as [a w]. exact Hm. }
  assert (G : disk_grows (lines (snd m)) (state_file (files (snd m)))
                         (run_all toDateString toISOString calls m)).
  { apply H. split.
    - exists []. now rewrite app_nil_r.
    - now left. }
  destruct G as [G1 G2]. split; [exact G1 |]. split; [exact G2 |].
  intros Hn E. destruct G2 as [G2 | [[d G2] | [raw G2]]];
    rewrite E in G2; [now symmetry in G2 | discriminate G2 | discriminate G2].
Qed.

(** A save and a signal over a disk that holds a state. *)
Lemma files_only_grow_witness :
  state_file
    (files (snd (run_all utc_day utc_stamp
                   [(calm_env an_instant, Call_saveRestartState);
                    (calm_env a_minute_later, Call_gracefulShutdown "SIGTERM")]
                   (third_restart_open, disk_full)))) <> None.
Proof.
  destruct (files_only_grow utc_day utc_stamp
              [(calm_env an_instant, Call_saveRestartState);
               (calm_env a_minute_later, Call_gracefulShutdown "SIGTERM")]
              (third_restart_open, disk_full)) as [_ [_ H]].
  apply H. discriminate.
Defined.

(** ** One counted restart for each process *)

Lemma once_respected (count last : Z) :
  runtime_invariant (restarted_at_most_once count last) (fun _ => true).
Proof.
  constructor; try (intros; assumption).
  intros a w [[H1 H2] | [H1 H2]]; [left | right]; now split.
Qed.

Lemma once_initiateRestart (count last : Z) (reason : string) :
  keeps (restarted_at_most_once count last) (initiateRestart reason).
Proof.
  pose proof (once_respected count last) as R.
  intros [a w] H. unfold initiateRestart. rewrite run_get_this.
  destruct (isShuttingDown a) eqn:El; [exact H |].
  rewrite run_get_world. cbv zeta.
  destruct (clock w - lastRestart a <? restartCooldown a)%Z.
  { now apply (keeps_logEvent _ _ R). }
  destruct (restartCount a >=? maxRestarts a)%Z.
  { apply (keeps_bind (restarted_at_most_once count last)); [| intros _ | exact H].
    - now apply (keeps_logEvent _ _ R).
    - now apply (free_gracefulShutdown _ _ R). }
  rewrite !run_modify_this.
  apply (keeps_bind (restarted_at_most_once count last));
    [apply keeps_get_this | intros this |].
  - apply keeps_bind; [now apply (keeps_logEvent _ _ R) | intros _].
    apply keeps_try.
    + apply keeps_bind; [apply (keeps_performEmergencyCleanup _ _ R) | intros _].
      apply keeps_bind; [apply (keeps_saveRestartState _ _ R) | intros _].
      now apply (keeps_restartProcess _ _ R).
    + intros e. apply keeps_bind; [apply (keeps_console_error _ _ R) | intros _].
      now apply (keeps_forceRestart _ _ R).
  - destruct H as [[H1 H2] | [H1 H2]]; cbn [fst] in *.
    + right. split; [reflexivity |]. cbn. now rewrite H1.
    + congruence.
Qed.

Lemma once_run (toDateString toISOString : Z -> string) (count last : Z) (c : call) :
  keeps_counters c = true ->
  keeps (restarted_at_most_once count last) (run toDateString toISOString c).
Proof.
  pose proof (once_respected count last) as R.
  pose proof (once_initiateRestart count last) as Hi.
  intros Hc. destruct c; try discriminate Hc; simpl.
  - now apply (keeps_stop _ _ R).
  - apply keeps_getStats.
  - now apply (keeps_manualRestart _ _ R).
  - now apply (keeps_handleCriticalError _ _ R).
  - now apply (keeps_checkMemoryUsage _ _ R).
  - apply Hi.
  - now apply (keeps_forceRestart _ _ R).
  - apply (keeps_performEmergencyCleanup _ _ R).
  - apply (keeps_saveRestartState _ _ R).
  - now apply (keeps_restartProcess _ _ R).
  - now apply (free_gracefulShutdown _ _ R).
  - now apply (keeps_logEvent _ _ R).
  - now apply (keeps_on_warning _ _ R).
Qed.

(** X3.  A process counts at most one restart.  Through any sequence of
    calls that does not reload the state file ([start] and
    [loadRestartState] overwrite the counters from the disk), either
    [restartCount] and [lastRestart] are what they were, or the latch is set
    and [restartCount] is exactly one higher: the request that counts sets
    the latch, every later request stops at it, and nothing in the class
    clears it. *)
Theorem one_counted_restart_per_process :
  forall (toDateString toISOString : Z -> string)
         (calls : list (environment * call)) (a : AutoRestarter) (w : World),
    forallb (fun ec => keeps_counters (snd ec)) calls = true ->
    let a' := fst (run_all toDateString toISOString calls (a, w)) in
    (restartCount a' = restartCount a /\ lastRestart a' = lastRestart a) \/
    (isShuttingDown a' = true /\ restartCount a' = (restartCount a + 1)%Z).
Proof.
  intros toDateString toISOString calls a w Hall.
  assert (H : forall m0,
             restarted_at_most_once (restartCount a) (lastRestart a) m0 ->
             restarted_at_most_once (restartCount a) (lastRestart a)
               (run_all toDateString toISOString calls m0)).
  { induction calls as [|[e c] r IH]; intros m0 Hm; simpl.
    - exact Hm.
    - simpl in Hall. apply andb_prop in Hall. destruct Hall as [Hc Hr].
      apply (IH Hr). apply (once_run _ _ _ _ c Hc). destruct m0 as [a0 w0]. exact Hm. }
  apply (H (a, w)). left. now split.
Qed.

Lemma one_counted_restart_per_process_witness :
  let a' :=
    fst (run_all utc_day utc_stamp
           [(calm_env an_instant, Call_manualRestart "deploy");
            (calm_env a_minute_later,
             Call_handleCriticalError "uncaughtException" no_space);
            (calm_env a_minute_later, Call_forceRestart "again")]
           (fresh, first_world an_instant)) in
  (restartCount a' = restartCount fresh /\ lastRestart a' = lastRestart fresh) \/
  (isShuttingDown a' = true /\ restartCount a' = (restartCount fresh + 1)%Z).
Proof.
  apply (one_counted_restart_per_process utc_day utc_stamp
           [(calm_env an_instant, Call_manualRestart "deploy");
            (calm_env a_minute_later,
             Call_handleCriticalError "uncaughtException" no_space);
            (calm_env a_minute_later, Call_forceRestart "again")]
           fresh (first_world an_instant)).
  reflexivity.
Defined.

(** ** Forced restarts *)

Lemma saved_state_continues (a : AutoRestarter) (w w' : World) :
  continues w w' -> saved_state a w' = saved_state a w.
Proof.
  intros [Hc Hp Hu Hm _ _ _ _ _]. unfold saved_state. now rewrite Hc, Hp, Hu, Hm.
Qed.

Lemma forceRestart_forced (reason : string) (a : AutoRestarter) (w : World) :
  forceRestart reason (a, w) = (Return tt, (a, forced reason a w)).
Proof.
  unfold forceRestart.
  assert (E : try_catch (logEvent "force_restart" (VStr reason) ;; saveRestartState)
                        (fun _ => ret tt) (a, w)
              = (Return tt,
                 (a, saved a (logged "force_restart" (VStr reason) a w)))).
  { unfold try_catch. now rewrite run_logEvent, saveRestartState_saved. }
  rewrite (bind_return _ _ _ _ _ E). unfold setTimeout_exit.
  rewrite run_get_world. reflexivity.
Qed.

Lemma forced_continues (reason : string) (a : AutoRestarter) (w : World) :
  continues w (saved a (logged "force_restart" (VStr reason) a w)).
Proof.
  eapply continues_trans; [apply logged_continues | apply saved_continues].
Qed.

Lemma forced_trace (reason : string) (a : AutoRestarter) (w : World) :
  exists l,
    trace (forced reason a w)
    = (trace w ++ l ++ [Ev_setTimeout (clock w) 1000 1])%list
    /\ forallb quiet l = true.
Proof. apply continues_then_timer, forced_continues. Qed.

Lemma exited_then_timer (t l : list io_event) (at_ms delay code : Z) :
  forallb quiet l = true ->
  exited (t ++ l ++ [Ev_setTimeout at_ms delay code]) = exited t.
Proof.
  intros Hl. rewrite !exited_app, (quiet_exited l Hl). simpl.
  now destruct (exited t).
Qed.

Lemma exit_timers_then_timer (t l : list io_event) (at_ms delay code : Z) :
  forallb quiet l = true ->
  exit_timers (t ++ l ++ [Ev_setTimeout at_ms delay code])
  = (exit_timers t ++ [(at_ms + delay, code)])%list.
Proof.
  intros Hl. now rewrite !exit_timers_app, (quiet_exit_timers l Hl).
Qed.

(** X4.  [forceRestart] has no guard: whatever the latch, the cooldown and
    the count, it returns with the object unchanged (the restart is not
    counted) and arms [process.exit(1)] one second later, after trying to
    log [force_restart] and to save the state.  With no exit pending the
    process ends with code 1; when the two-second timer of a clean restart
    is pending, the forced exit decides the code if it is due earlier, and
    the clean one if that is due earlier. *)
Theorem force_restart_has_no_guard :
  forall reason a w,
    forceRestart reason (a, w) = (Return tt, (a, forced reason a w)) /\
    (exists l,
        trace (forced reason a w)
        = (trace w ++ l ++ [Ev_setTimeout (clock w) 1000 1])%list /\
        forallb quiet l = true) /\
    exit_timers (trace (forced reason a w))
    = (exit_timers (trace w) ++ [(clock w + 1000, 1)])%list /\
    (exit_code (trace w) = None ->
     exit_code (trace (forced reason a w)) = Some 1%Z) /\
    (forall due,
        exited (trace w) = None ->
        exit_timers (trace w) = [(due, 0%Z)] ->
        ((clock w + 1000 < due)%Z ->
         exit_code (trace (forced reason a w)) = Some 1%Z) /\
        ((due < clock w + 1000)%Z ->
         exit_code (trace (forced reason a w)) = Some 0%Z)) /\
    (faults w = [] ->
     lines (forced reason a w)
     = (lines w ++ [log_line "force_restart" (VStr reason) w])%list /\
     state_file (files (forced reason a w))
     = Some (JSON_stringify (saved_state a w))).
Proof.
  intros reason a w.
  destruct (forced_trace reason a w) as [l [T Q]].
  split; [apply forceRestart_forced |].
  split; [now exists l |].
  split; [rewrite T; now apply exit_timers_then_timer |].
  split; [intros Hn; rewrite T; now apply exit_code_single |].
  split.
  - intros due Hx Hd. unfold exit_code.
    rewrite T, (exited_then_timer _ _ _ _ _ Q), Hx.
    rewrite (exit_timers_then_timer _ _ _ _ _ Q), Hd. simpl.
    destruct (Z.ltb_spec (clock w + 1000) due); split; intros; (reflexivity || lia).
  - intros Hf. unfold forced.
    set (w1 := logged "force_restart" (VStr reason) a w).
    assert (Hf1 : faults w1 = []) by now apply logged_faults.
    rewrite lines_emit, files_emit, (saved_ok a w1 Hf1).
    rewrite lines_set_files, files_set_files. cbn [log_file state_file].
    rewrite (saved_state_continues a w w1) by apply logged_continues.
    split; [| reflexivity].
    fold (lines w1). unfold w1. rewrite logged_lines, Hf. reflexivity.
Qed.

(** A forced restart half a second after a clean one was initiated. *)
Lemma force_restart_has_no_guard_witness :
  exit_code (trace (forced "Falha no sistema de logs" third_restart
                           (first_world an_instant))) = Some 1%Z /\
  exit_code (trace restart_pending) = Some 0%Z /\
  exit_code (trace (forced "Falha no sistema de logs" third_restart restart_pending))
  = Some 1%Z /\
  lines (forced "Falha no sistema de logs" third_restart (first_world an_instant))
  = [log_line "force_restart" (VStr "Falha no sistema de logs")
       (first_world an_instant)].
Proof.
  destruct (force_restart_has_no_guard "Falha no sistema de logs" third_restart
              (first_world an_instant)) as [_ [_ [_ [H1 [_ H2]]]]].
  destruct (force_restart_has_no_guard "Falha no sistema de logs" third_restart
              restart_pending) as [_ [_ [_ [_ [H3 _]]]]].
  split; [apply H1; reflexivity |].
  split; [vm_compute; reflexivity |].
  split.
  - destruct (H3 1700000002000%Z) as [H _];
      [reflexivity | vm_compute; reflexivity |].
    apply H. vm_compute. reflexivity.
  - destruct H2 as [H2 _]; [reflexivity | exact H2].
Defined.

(** ** Errors whose message is not a string *)

Lemma listed_iff (patterns : list string) (items : list value) (code : value) :
  listed patterns items code = true <->
  exists p, In p patterns /\ (In (VStr p) items \/ code = VStr p).
Proof.
  unfold listed. rewrite existsb_exists.
  assert (H : forall p, existsb (fun x => strict_eq_string x p) items = true
                        <-> In (VStr p) items).
  { intros p. rewrite existsb_exists. split.
    - intros [x [Hx E]]. apply strict_eq_string_iff in E. now subst x.
    - intros Hx. exists (VStr p). split; [exact Hx | now apply strict_eq_string_iff]. }
  split; intros [p [Hin Hp]]; exists p; split; auto.
  - apply orb_true_iff in Hp. destruct Hp as [Hp | Hp].
    + left. now apply H.
    + right. now apply strict_eq_string_iff.
  - apply orb_true_iff. destruct Hp as [Hp | Hp].
    + left. now apply H.
    + right. now apply strict_eq_string_iff.
Qed.

Lemma some_throws_exact (patterns : list string) (v code : value) (m : machine) :
  has_includes v = false -> patterns <> [] ->
  some patterns (fun criticalError =>
                   b <- js_includes v criticalError ;;
                   ret (b || strict_eq_string code criticalError)) m
  = (Throw (mk_exn "TypeError" "errorMessage.includes is not a function"), m).
Proof.
  intros Hv Hp. destruct patterns as [|p r]; [congruence |].
  destruct v; try reflexivity; discriminate Hv.
Qed.

Lemma handleCriticalError_fallback (toISOString : Z -> string) (type : string)
  (error : js_error) (a : AutoRestarter) (w : World) :
  has_includes (errorMessage_of error) = false ->
  criticalErrors a <> [] ->
  handleCriticalError toISOString type error (a, w)
  = (Return tt,
     (a, forced "Falha no sistema de logs" a
           (emit fallback_report
              (logged "critical_error"
                 (critical_error_data toISOString type error a w) a w)))).
Proof.
  intros Hv Hp. unfold handleCriticalError, try_catch, handleCriticalError_try.
  cbv zeta. rewrite run_get_this, run_get_world, run_logEvent, run_get_this.
  fold (critical_error_data toISOString type error a w).
  rewrite (bind_throw _ _ _ _ _ (some_throws_exact _ _ _ _ Hv Hp)).
  unfold console_error. cbn [exn_message]. rewrite run_io.
  apply forceRestart_forced.
Qed.

(** X5.  The message of an error need not be a string.  When it is an
    array, [includes] is the method of arrays: the error is critical when a
    pattern is equal to an element of the array (or to the code), and then
    goes through the ordinary guards, counting a restart that ends the
    process with code 0.  When it is neither a string nor an array (a
    rejection with [{ message: 404 }], say), it cannot be classified: the
    test of the first pattern throws, and the fallback of
    [handleCriticalError] forces a restart.  This restart goes through none
    of the guards: whatever the latch, the cooldown and the count, the
    object is left as it was (the restart is not counted), the failure is
    reported on the console, and [process.exit(1)] is armed one second
    later. *)
Theorem unclassifiable_error_forces_restart :
  forall (toISOString : Z -> string) type error a w,
    let w0 :=
      logged "critical_error"
        (critical_error_data toISOString type error a w) a w in
    (has_includes (errorMessage_of error) = false ->
     criticalErrors a <> [] ->
     let w' := forced "Falha no sistema de logs" a (emit fallback_report w0) in
     handleCriticalError toISOString type error (a, w) = (Return tt, (a, w')) /\
     (exists l,
         trace w' = (trace w ++ l ++ [Ev_setTimeout (clock w) 1000 1])%list /\
         forallb quiet l = true /\ In fallback_report l) /\
     (exit_code (trace w) = None -> exit_code (trace w') = Some 1%Z)) /\
    (forall items,
        errorMessage_of error = VArr items ->
        handleCriticalError toISOString type error (a, w)
        = (if listed (criticalErrors a) items (errorCode_of error)
           then initiateRestart (critical_reason error)
           else io (non_critical_event type error)) (a, w0) /\
        (listed (criticalErrors a) items (errorCode_of error) = true <->
         exists p, In p (criticalErrors a) /\
                   (In (VStr p) items \/ errorCode_of error = VStr p)) /\
        (listed (criticalErrors a) items (errorCode_of error) = true ->
         isShuttingDown a = false ->
         (restartCooldown a <= clock w - lastRestart a)%Z ->
         (restartCount a < maxRestarts a)%Z ->
         let m' := snd (handleCriticalError toISOString type error (a, w)) in
         restartCount (fst m') = (restartCount a + 1)%Z /\
         (exit_code (trace w) = None ->
          exit_code (trace (snd m')) = Some 0%Z))).
Proof.
  intros toISOString type error a w w0.
  assert (C0 : continues w w0) by apply logged_continues.
  split.
  - intros Hv Hp w'.
    split; [now apply handleCriticalError_fallback |].
    assert (Ht : exists l,
               trace w' = (trace w ++ l ++ [Ev_setTimeout (clock w) 1000 1])%list /\
               forallb quiet l = true /\ In fallback_report l).
    { destruct (forced_trace "Falha no sistema de logs" a
                  (emit fallback_report w0)) as [l2 [T2 Q2]].
      destruct C0 as [C1 _ _ _ _ _ _ _ [l1 [T1 Q1]]].
      exists (l1 ++ [fallback_report] ++ l2)%list. split; [| split].
      - unfold w'. rewrite T2. rewrite trace_emit, clock_emit, T1, C1.
        now rewrite <- !app_assoc.
      - now rewrite !forallb_app, Q1, Q2.
      - apply in_or_app. right. now left. }
    split; [exact Ht |].
    intros Hn. destruct Ht as [l [T [Q _]]]. rewrite T. now apply exit_code_single.
  - intros items Em.
    destruct (handleCriticalError_array toISOString type error a w items Em)
      as [E _].
    fold w0 in E. split; [exact E |]. split; [apply listed_iff |].
    intros Hl El Hc Hlt m'. unfold m'. rewrite E, Hl.
    assert (Ec : (clock w0 - lastRestart a <? restartCooldown a)%Z = false)
      by (rewrite (cont_clock _ _ C0); apply Z.ltb_ge; lia).
    assert (Eg : (restartCount a >=? maxRestarts a)%Z = false)
      by (rewrite Z.geb_leb; apply Z.leb_gt; lia).
    rewrite (initiateRestart_restarted _ _ _ El Ec Eg). cbn [fst snd].
    split; [reflexivity |].
    intros Hn. destruct (restarted_trace (critical_reason error) a w0) as [l2 [T2 Q2]].
    destruct C0 as [Hclock _ _ _ _ _ _ _ [l1 [T1 Q1]]].
    rewrite T2, T1, <- app_assoc, (app_assoc l1).
    apply exit_code_single; [exact Hn |]. now rewrite forallb_app, Q1, Q2.
Qed.

(** The rejection [{ message: 404 }] on an instance that is already shutting
    down, and the rejection [{ message: ['ENOSPC'] }] on a new one. *)
Lemma unclassifiable_error_forces_restart_witness :
  fst (snd (handleCriticalError utc_stamp "unhandledRejection" numeric_rejection
              (third_restart, first_world ten_seconds_later))) = third_restart /\
  exit_code
    (trace (snd (snd (handleCriticalError utc_stamp "unhandledRejection"
                        numeric_rejection
                        (third_restart, first_world ten_seconds_later)))))
  = Some 1%Z /\
  restartCount
    (fst (snd (handleCriticalError utc_stamp "unhandledRejection" listed_rejection
                 (fresh, first_world an_instant)))) = 1%Z /\
  exit_code
    (trace (snd (snd (handleCriticalError utc_stamp "unhandledRejection"
                        listed_rejection (fresh, first_world an_instant)))))
  = Some 0%Z.
Proof.
  destruct (unclassifiable_error_forces_restart utc_stamp "unhandledRejection"
              numeric_rejection third_restart (first_world ten_seconds_later))
    as [H1 _].
  destruct (unclassifiable_error_forces_restart utc_stamp "unhandledRejection"
              listed_rejection fresh (first_world an_instant))
    as [_ H2].
  destruct H1 as [E [_ Hx]]; [reflexivity | discriminate |].
  destruct (H2 [VStr "ENOSPC"] eq_refl) as [_ [_ H3]].
  destruct H3 as [Hc Hy];
    [reflexivity | reflexivity | vm_compute; discriminate | simpl; lia |].
  rewrite E. split; [reflexivity |]. split; [apply Hx; reflexivity |].
  split; [exact Hc | apply Hy; reflexivity].
Defined.

(** ** Shutting down on a signal *)

Lemma unlinked_state_file (a : AutoRestarter) (w : World) :
  state_file (files (unlinked a w)) = state_file (files w).
Proof.
  unfold unlinked. destruct (hd false (faults w)); [reflexivity |].
  destruct (pid_file (files w)); reflexivity.
Qed.

Lemma shut_down_state_file (signal : string) (a : AutoRestarter) (w : World) :
  state_file (files (shut_down signal a w)) = state_file (files w).
Proof.
  unfold shut_down. cbv zeta. rewrite files_emit.
  match goal with
  | |- context [if ?b then _ else _] => destruct b
  end;
    destruct (childProcess a) as [[|]|];
    rewrite ?files_emit, unlinked_state_file, logged_state_file; reflexivity.
Qed.

Lemma shut_down_pid_file (signal : string) (a : AutoRestarter) (w : World) :
  faults w = [] -> pid_file (files (shut_down signal a w)) = None.
Proof.
  intros H. unfold shut_down. rewrite (logged_ok _ _ _ _ H).
  destruct w as [[ld lf sf pf] t c f p u mu g mc e1 e2 dm]. cbn in H. subst f.
  destruct pf, (childProcess a) as [[|]|], g; reflexivity.
Qed.

Lemma child_kept (toDateString toISOString : Z -> string) (c : call) (m : machine) :
  childProcess (fst (snd (run toDateString toISOString c m))) = childProcess (fst m).
Proof.
  set (I := fun m' : machine => childProcess (fst m') = childProcess (fst m)).
  assert (R : runtime_invariant I (fun _ => true))
    by (constructor; intros; assumption).
  assert (Hc : forall n a w, I (a, w) -> I (set_restartCount n a, w))
    by (intros; assumption).
  assert (Hl : forall t a w, I (a, w) -> I (set_lastRestart t a, w))
    by (intros; assumption).
  apply (keeps_run _ _ R toDateString toISOString).
  - intros reason. now apply (free_initiateRestart _ _ R Hc Hl).
  - intros signal. now apply (free_gracefulShutdown _ _ R).
  - now apply (free_loadRestartState _ _ R toDateString Hc Hl).
  - reflexivity.
  - now destruct c.
  - reflexivity.
Qed.

(** X6.  A shutdown that is not behind the latch sets the latch and arms
    the exit two seconds later, whatever fails on the way (a pid file that
    cannot be removed is ignored); it leaves the counters and the state
    file as they were, so that the next process finds the state of the last
    restart.  Without faults it appends one [graceful_shutdown] line and
    leaves no pid file.  Each of the three signals the constructor listens
    to ends the process with code 0.  No child process is ever tracked, so
    that in a reachable state the shutdown has no child to kill. *)
Theorem signal_shutdown :
  forall (toDateString toISOString : Z -> string),
    (forall signal a w,
        isShuttingDown a = false ->
        gracefulShutdown signal (a, w)
        = (Return tt, (set_isShuttingDown true a, shut_down signal a w)) /\
        state_file (files (shut_down signal a w)) = state_file (files w) /\
        (exists l,
            trace (shut_down signal a w)
            = (trace w ++ l
               ++ [Ev_setTimeout (clock w) 2000
                     (if (signal =? "MAX_RESTARTS_REACHED")%string then 1 else 0)])%list
            /\ forallb quiet l = true) /\
        (faults w = [] ->
         pid_file (files (shut_down signal a w)) = None /\
         lines (shut_down signal a w)
         = (lines w ++ [log_line "graceful_shutdown" (VStr signal) w])%list)) /\
    (forall signal a w,
        In signal ["SIGTERM"; "SIGINT"; "SIGUSR2"] ->
        isShuttingDown a = false ->
        exit_code (trace w) = None ->
        exit_code (trace (snd (snd (on_signal signal (a, w))))) = Some 0%Z) /\
    (forall m, reachable toDateString toISOString m -> childProcess (fst m) = None).
Proof.
  intros toDateString toISOString. split; [| split].
  - intros signal a w El.
    split; [now apply gracefulShutdown_shut_down |].
    split; [apply shut_down_state_file |].
    split; [apply shut_down_trace |].
    intros Hf. split; [now apply shut_down_pid_file | now apply shut_down_lines].
  - intros signal a w Hs El Hn. unfold on_signal.
    rewrite (gracefulShutdown_shut_down _ _ _ El). cbn [snd].
    destruct (shut_down_trace signal a w) as [l [T Q]]. rewrite T.
    assert (E : (signal =? "MAX_RESTARTS_REACHED")%string = false).
    { simpl in Hs. destruct Hs as [<- | [<- | [<- | []]]]; reflexivity. }
    rewrite E. now apply exit_code_single.
  - induction 1 as [a0 w0 Ht | a w e c Hr IH | a w e p v1 v2 Hr IH].
    + now rewrite constructor_exact.
    + rewrite child_kept. exact IH.
    + now rewrite constructor_exact.
Qed.

(** [SIGTERM] on a new instance. *)
Lemma signal_shutdown_witness :
  exit_code (trace (snd (snd (on_signal "SIGTERM" booted)))) = Some 0%Z /\
  pid_file (files (shut_down "SIGTERM" fresh (first_world an_instant))) = None /\
  childProcess (fst booted) = None.
Proof.
  destruct (signal_shutdown utc_day utc_stamp) as [H1 [H2 H3]].
  split; [| split].
  - apply (H2 "SIGTERM" (fst booted) (snd booted)).
    + simpl. tauto.
    + reflexivity.
    + vm_compute. reflexivity.
  - destruct (H1 "SIGTERM" fresh (first_world an_instant)) as [_ [_ [_ H]]].
    + reflexivity.
    + apply H. reflexivity.
  - apply H3. apply booted_reachable.
Defined.

(** ** Behind the latch *)

Lemma calm_hushed {A} (c : M A) : calm c -> hushed c.
Proof.
  intros H a w Hl. destruct (H a w) as [x [w' [E C]]]. now exists x, a, w'.
Qed.

Lemma hushed_bind {A B} (c : M A) (k : A -> M B) :
  hushed c -> (forall x, hushed (k x)) -> hushed (bind c k).
Proof.
  intros Hc Hk a w Hl. destruct (Hc a w Hl) as [x [a1 [w1 [E1 [L1 C1]]]]].
  destruct (Hk x a1 w1 L1) as [y [a2 [w2 [E2 [L2 C2]]]]].
  exists y, a2, w2. rewrite (bind_return _ _ _ _ _ E1).
  split; [exact E2 |]. split; [exact L2 |]. now apply (continues_trans w w1 w2).
Qed.

Lemma hushed_if {A} (b : bool) (c1 c2 : M A) :
  hushed c1 -> hushed c2 -> hushed (if b then c1 else c2).
Proof. now destruct b. Qed.

Lemma hushed_block {A} (c : M A) (h : exn -> M A) :
  returns c -> hushed c -> hushed (try_catch c h).
Proof.
  intros Hr Hc a w Hl. rewrite (try_of_returns c h (a, w) Hr). now apply Hc.
Qed.

Lemma hushed_initiateRestart (reason : string) : hushed (initiateRestart reason).
Proof.
  intros a w Hl. exists tt, a, w.
  split; [now apply initiateRestart_latched |]. split; [exact Hl | apply continues_refl].
Qed.

Lemma hushed_gracefulShutdown (signal : string) : hushed (gracefulShutdown signal).
Proof.
  intros a w Hl. exists tt, a, w.
  split; [now apply gracefulShutdown_latched |]. split; [exact Hl | apply continues_refl].
Qed.

Lemma read_attempt_continues (w : World) : continues w (read_attempt w).
Proof.
  unfold read_attempt.
  eapply continues_trans; [apply continues_set_faults | now apply continues_emit].
Qed.

Lemma hushed_loadRestartState (toDateString : Z -> string) :
  hushed (loadRestartState toDateString).
Proof.
  intros a w Hl. rewrite loadRestartState_loaded. unfold loaded.
  destruct (accepted toDateString w) as [d |]; eexists tt, _, _;
    (split; [reflexivity |]); (split; [exact Hl |]).
  - eapply continues_trans; [apply read_attempt_continues | apply logged_continues].
  - apply read_attempt_continues.
Qed.

Lemma hushed_start (toDateString : Z -> string) : hushed (start toDateString).
Proof.
  unfold start. apply hushed_block.
  - apply returns_bind; [apply returns_loadRestartState | intros _].
    apply returns_bind; [auto with returns | intros this].
    apply returns_bind; [auto with returns | intros w0].
    apply returns_bind; [auto with returns | intros _].
    apply returns_if; apply calm_returns; auto with calm.
  - apply hushed_bind; [apply hushed_loadRestartState | intros _].
    apply calm_hushed. auto 10 with calm.
Qed.

Lemma hushed_stop : hushed stop.
Proof.
  intros a w Hl. unfold stop. rewrite run_modify_this, logEvent_logged.
  eexists tt, _, _. split; [reflexivity |].
  split; [reflexivity | apply logged_continues].
Qed.

Lemma hushed_checkMemoryUsage : hushed checkMemoryUsage.
Proof.
  unfold checkMemoryUsage. apply hushed_block.
  - apply returns_bind; [apply calm_returns, calm_get_world | intros w0].
    cbv zeta. apply returns_bind; [| intros _].
    + apply returns_if; apply calm_returns; auto with calm.
    + apply returns_if; [apply returns_initiateRestart |].
      apply calm_returns; auto with calm.
  - apply hushed_bind; [apply calm_hushed, calm_get_world | intros w0].
    cbv zeta. apply hushed_bind; [| intros _].
    + apply hushed_if; apply calm_hushed; auto with calm.
    + apply hushed_if; [apply hushed_initiateRestart |].
      apply calm_hushed; auto with calm.
Qed.

Lemma hushed_handleCriticalError (toISOString : Z -> string) (type : string)
  (error : js_error) :
  has_includes (errorMessage_of error) = true ->
  hushed (handleCriticalError toISOString type error).
Proof.
  intros Hs a w Hl.
  pose proof (logged_continues "critical_error"
                (critical_error_data toISOString type error a w) a w) as C.
  destruct (errorMessage_of error) as [| | | | msg | | items] eqn:Em;
    try discriminate Hs.
  - destruct (handleCriticalError_string toISOString type error a w msg Em)
      as [E _].
    rewrite E.
    destruct (needsRestart (criticalErrors a) msg (errorCode_of error)).
    + rewrite initiateRestart_latched by exact Hl. now eexists tt, _, _.
    + eexists tt, _, _. split; [reflexivity |]. split; [exact Hl |].
      eapply continues_trans; [exact C | now apply continues_emit].
  - destruct (handleCriticalError_array toISOString type error a w items Em)
      as [E _].
    rewrite E.
    destruct (listed (criticalErrors a) items (errorCode_of error)).
    + rewrite initiateRestart_latched by exact Hl. now eexists tt, _, _.
    + eexists tt, _, _. split; [reflexivity |]. split; [exact Hl |].
      eapply continues_trans; [exact C | now apply continues_emit].
Qed.

Lemma hushed_run (toDateString toISOString : Z -> string) (c : call) :
  latch_guarded c = true -> hushed (run toDateString toISOString c).
Proof.
  intros Hc. destruct c; try discriminate Hc; simpl.
  - apply hushed_start.
  - apply hushed_stop.
  - apply calm_hushed. unfold discard, getStats. auto 10 with calm.
  - unfold manualRestart.
    apply hushed_bind; [apply calm_hushed, calm_logEvent | intros _].
    apply hushed_initiateRestart.
  - now apply hushed_handleCriticalError.
  - apply hushed_checkMemoryUsage.
  - apply hushed_initiateRestart.
  - apply calm_hushed, calm_performEmergencyCleanup.
  - apply calm_hushed, calm_saveRestartState.
  - apply hushed_loadRestartState.
  - apply hushed_gracefulShutdown.
  - apply calm_hushed, calm_logEvent.
  - unfold on_warning. apply hushed_if; apply calm_hushed; auto with calm.
Qed.

Lemma latch_kept (toDateString toISOString : Z -> string) (c : call) :
  keeps (fun m => isShuttingDown (fst m) = true) (run toDateString toISOString c).
Proof.
  set (I := fun m : machine => isShuttingDown (fst m) = true).
  assert (R : runtime_invariant I (fun _ => true))
    by (constructor; intros; first [assumption | reflexivity]).
  assert (Hc : forall n a w, I (a, w) -> I (set_restartCount n a, w))
    by (intros; assumption).
  assert (Hl : forall t a w, I (a, w) -> I (set_lastRestart t a, w))
    by (intros; assumption).
  apply (keeps_run _ _ R toDateString toISOString).
  - intros reason. now apply (free_initiateRestart _ _ R Hc Hl).
  - intros signal. now apply (free_gracefulShutdown _ _ R).
  - now apply (free_loadRestartState _ _ R toDateString Hc Hl).
  - reflexivity.
  - now destruct c.
Qed.

Lemma hushed_run_all (toDateString toISOString : Z -> string)
  (calls : list (environment * call)) (t : list io_event) (m : machine) :
  forallb (fun ec => latch_guarded (snd ec)) calls = true ->
  isShuttingDown (fst m) = true ->
  (exists l, trace (snd m) = (t ++ l)%list /\ forallb quiet l = true) ->
  let m' := run_all toDateString toISOString calls m in
  isShuttingDown (fst m') = true /\
  exists l, trace (snd m') = (t ++ l)%list /\ forallb quiet l = true.
Proof.
  revert m. induction calls as [|[e c] r IH]; intros [a w] Hall Hl Ht; simpl.
  - now split.
  - simpl in Hall. apply andb_prop in Hall. destruct Hall as [Hc Hr].
    destruct (hushed_run toDateString toISOString c Hc a (observe e w) Hl)
      as [[] [a1 [w1 [E [L1 C1]]]]].
    cbn [fst snd] in *. rewrite E. cbn [snd].
    apply (IH (a1, w1) Hr L1).
    destruct Ht as [l [T Q]]. destruct C1 as [_ _ _ _ _ _ _ _ [l1 [T1 Q1]]].
    exists (l ++ l1)%list. cbn [snd]. split.
    + rewrite T1. cbn [observe trace]. rewrite T. now rewrite app_assoc.
    + now rewrite forallb_app, Q, Q1.
Qed.

(** X7.  Nothing in the class clears the latch: once set it stays set
    through any sequence of calls.  Behind it the supervisor restarts
    nothing by itself: through any sequence of calls other than
    [forceRestart] and [restartProcess], with errors whose message is a
    string or an array, no exit is armed, and the process ends as it would
    have before.
    [stop] sets the latch and arms nothing, so that after [stop] neither a
    critical error nor critical memory use nor a signal ends the process. *)
Theorem latch_arms_no_exit :
  forall (toDateString toISOString : Z -> string),
    (forall calls m,
        isShuttingDown (fst m) = true ->
        isShuttingDown (fst (run_all toDateString toISOString calls m)) = true) /\
    (forall calls a w,
        isShuttingDown a = true ->
        forallb (fun ec => latch_guarded (snd ec)) calls = true ->
        let m' := run_all toDateString toISOString calls (a, w) in
        isShuttingDown (fst m') = true /\
        (exists l, trace (snd m') = (trace w ++ l)%list /\ forallb quiet l = true) /\
        exit_code (trace (snd m')) = exit_code (trace w)) /\
    (forall calls a w,
        forallb (fun ec => latch_guarded (snd ec)) calls = true ->
        let m' := run_all toDateString toISOString calls (snd (stop (a, w))) in
        isShuttingDown (fst m') = true /\
        exit_code (trace (snd m')) = exit_code (trace w)).
Proof.
  intros toDateString toISOString. split; [| split].
  - intros calls. induction calls as [|[e c] r IH]; intros [a w] Hl; simpl.
    + exact Hl.
    + apply IH. now apply latch_kept.
  - intros calls a w Hl Hall m'.
    destruct (hushed_run_all toDateString toISOString calls (trace w) (a, w) Hall Hl)
      as [L [l [T Q]]].
    { exists []. now rewrite app_nil_r. }
    fold m' in L, T. split; [exact L |]. split; [now exists l |].
    rewrite T. now apply exit_code_quiet.
  - intros calls a w Hall m'.
    assert (E : stop (a, w)
                = (Return tt, (set_isShuttingDown true a,
                               logged "auto_restart_stopped" (VStr "Manual stop")
                                      (set_isShuttingDown true a) w))).
    { unfold stop. now rewrite run_modify_this, logEvent_logged. }
    destruct (logged_continues "auto_restart_stopped" (VStr "Manual stop")
                (set_isShuttingDown true a) w) as [_ _ _ _ _ _ _ _ [l0 [T0 Q0]]].
    destruct (hushed_run_all toDateString toISOString calls (trace w)
                (snd (stop (a, w))) Hall) as [L [l [T Q]]].
    { now rewrite E. }
    { rewrite E. now exists l0. }
    fold m' in L, T. split; [exact L |].
    rewrite T. now apply exit_code_quiet.
Qed.

(** An error of code [ENOSPC], then [SIGTERM]: on an instance that is
    restarting, and after [stop]. *)
Lemma latch_arms_no_exit_witness :
  isShuttingDown
    (fst (run_all utc_day utc_stamp
            [(calm_env a_minute_later, Call_forceRestart "again");
             (calm_env a_minute_later, Call_start)]
            (third_restart, restart_pending))) = true /\
  exit_code
    (trace (snd (run_all utc_day utc_stamp
                   [(calm_env a_minute_later,
                     Call_handleCriticalError "uncaughtException" no_space);
                    (calm_env a_minute_later, Call_gracefulShutdown "SIGTERM")]
                   (third_restart, restart_pending))))
  = Some 0%Z /\
  exit_code
    (trace (snd (run_all utc_day utc_stamp
                   [(calm_env a_minute_later,
                     Call_handleCriticalError "uncaughtException" no_space);
                    (calm_env a_minute_later, Call_gracefulShutdown "SIGTERM")]
                   (snd (stop (fresh, first_world an_instant))))))
  = None.
Proof.
  destruct (latch_arms_no_exit utc_day utc_stamp) as [H0 [H1 H2]].
  split; [| split].
  - apply (H0 [(calm_env a_minute_later, Call_forceRestart "again");
               (calm_env a_minute_later, Call_start)]
              (third_restart, restart_pending)).
    reflexivity.
  - destruct (H1 [(calm_env a_minute_later,
                   Call_handleCriticalError "uncaughtException" no_space);
                  (calm_env a_minute_later, Call_gracefulShutdown "SIGTERM")]
                 third_restart restart_pending) as [_ [_ Hx]].
    + reflexivity.
    + reflexivity.
    + rewrite Hx. vm_compute. reflexivity.
  - destruct (H2 [(calm_env a_minute_later,
                   Call_handleCriticalError "uncaughtException" no_space);
                  (calm_env a_minute_later, Call_gracefulShutdown "SIGTERM")]
                 fresh (first_world an_instant)) as [_ Hx].
    + reflexivity.
    + rewrite Hx. reflexivity.
Defined.

(** ** The memory check, in bytes *)

Lemma round_MB_above (bytes k : Z) :
  (round_MB bytes >? k)%Z = (1048576 * k + 524288 <=? bytes)%Z.
Proof.
  unfold round_MB.
  destruct (Z.gtb_spec ((bytes + 524288) / 1048576) k) as [H | H];
    destruct (Z.leb_spec (1048576 * k + 524288) bytes) as [H' | H'];
    try reflexivity; exfalso.
  - assert ((bytes + 524288) / 1048576 <= k)%Z; [| lia].
    apply Z.lt_succ_r, Z.div_lt_upper_bound; lia.
  - assert (k + 1 <= (bytes + 524288) / 1048576)%Z; [| lia].
    apply Z.div_le_lower_bound; lia.
Qed.

Lemma checkMemoryUsage_cases (a : AutoRestarter) (w : World) :
  checkMemoryUsage (a, w)
  = if (round_MB (heapUsed (memoryUsage w)) >? 1024)%Z then
      initiateRestart (memory_reason w)
        (a, logged "high_memory" (high_memory_data w) a w)
    else if (round_MB (heapUsed (memoryUsage w)) >? 512)%Z then
      (Return tt, (a, logged "high_memory" (high_memory_data w) a w))
    else (Return tt, (a, w)).
Proof.
  pose proof returns_checkMemoryUsage as R. unfold checkMemoryUsage in *.
  unfold try_catch. rewrite run_get_world. cbv zeta.
  unfold high_memory_data, memory_reason.
  destruct (Z.gtb_spec (round_MB (heapUsed (memoryUsage w))) 512) as [H1 | H1];
    destruct (Z.gtb_spec (round_MB (heapUsed (memoryUsage w))) 1024) as [H2 | H2];
    try lia.
  - rewrite run_logEvent.
    match goal with
    | |- match ?c ?m with _ => _ end = _ =>
        destruct (returns_initiateRestart
                    ("Uso crítico de memória: "
                     ++ string_of_Z (round_MB (heapUsed (memoryUsage w))) ++ "MB") m)
          as [[] [m' E]]
    end.
    now rewrite E.
  - rewrite run_logEvent. reflexivity.
  - reflexivity.
Qed.

(** X8.  The thresholds of the memory check, in bytes of heap in use.
    [Math.round] makes 512.5 MB the first value above 512: below
    537395200 bytes the check does nothing at all; from there up to
    1074266111 bytes it only appends a [high_memory] line; from 1074266112
    bytes on it logs and requests a restart, which, when the three guards
    let it through, counts one restart and ends the process with code 0. *)
Theorem memory_thresholds_in_bytes :
  forall a w,
    let used := heapUsed (memoryUsage w) in
    let w1 := logged "high_memory" (high_memory_data w) a w in
    ((used < 537395200)%Z -> checkMemoryUsage (a, w) = (Return tt, (a, w))) /\
    ((537395200 <= used < 1074266112)%Z ->
     checkMemoryUsage (a, w) = (Return tt, (a, w1))) /\
    ((1074266112 <= used)%Z ->
     checkMemoryUsage (a, w) = initiateRestart (memory_reason w) (a, w1)) /\
    ((1074266112 <= used)%Z ->
     isShuttingDown a = false ->
     (restartCooldown a <= clock w - lastRestart a)%Z ->
     (restartCount a < maxRestarts a)%Z ->
     restartCount (fst (snd (checkMemoryUsage (a, w)))) = (restartCount a + 1)%Z /\
     (exit_code (trace w) = None ->
      exit_code (trace (snd (snd (checkMemoryUsage (a, w))))) = Some 0%Z)).
Proof.
  intros a w used w1.
  pose proof (checkMemoryUsage_cases a w) as E.
  rewrite !round_MB_above in E. fold used in E. fold w1 in E.
  assert (C1 : continues w w1) by apply logged_continues.
  split; [| split; [| split]].
  - intros H. rewrite E.
    destruct (Z.leb_spec (1048576 * 1024 + 524288) used); [lia |].
    destruct (Z.leb_spec (1048576 * 512 + 524288) used); [lia | reflexivity].
  - intros H. rewrite E.
    destruct (Z.leb_spec (1048576 * 1024 + 524288) used); [lia |].
    destruct (Z.leb_spec (1048576 * 512 + 524288) used); [reflexivity | lia].
  - intros H. rewrite E.
    destruct (Z.leb_spec (1048576 * 1024 + 524288) used); [reflexivity | lia].
  - intros H El Hc Hlt. rewrite E.
    destruct (Z.leb_spec (1048576 * 1024 + 524288) used); [| lia].
    assert (Ec : (clock w1 - lastRestart a <? restartCooldown a)%Z = false)
      by (rewrite (cont_clock _ _ C1); apply Z.ltb_ge; lia).
    assert (Eg : (restartCount a >=? maxRestarts a)%Z = false)
      by (rewrite Z.geb_leb; apply Z.leb_gt; lia).
    rewrite (initiateRestart_restarted _ _ _ El Ec Eg). cbn [fst snd].
    split; [reflexivity |].
    intros Hn. destruct (restarted_trace (memory_reason w) a w1) as [l2 [T2 Q2]].
    destruct C1 as [Hclock _ _ _ _ _ _ _ [l1 [T1 Q1]]].
    rewrite T2, T1, <- app_assoc, (app_assoc l1).
    apply exit_code_single; [exact Hn |]. now rewrite forallb_app, Q1, Q2.
Qed.

(** One byte below the first threshold, the first threshold, the second. *)
Lemma memory_thresholds_in_bytes_witness :
  checkMemoryUsage (fresh, with_heap 537395199)
  = (Return tt, (fresh, with_heap 537395199)) /\
  map le_type (lines (snd (snd (checkMemoryUsage (fresh, with_heap 537395200))))) 
  = ["high_memory"] /\
  checkMemoryUsage (fresh, with_heap 1074266112)
  = initiateRestart (memory_reason (with_heap 1074266112))
      (fresh,
       logged "high_memory" (high_memory_data (with_heap 1074266112)) fresh
              (with_heap 1074266112)) /\
  restartCount (fst (snd (checkMemoryUsage (fresh, with_heap 1074266112)))) = 1%Z /\
  exit_code (trace (snd (snd (checkMemoryUsage (fresh, with_heap 1074266112)))))
  = Some 0%Z.
Proof.
  destruct (memory_thresholds_in_bytes fresh (with_heap 537395199)) as [H1 _].
  destruct (memory_thresholds_in_bytes fresh (with_heap 537395200)) as [_ [H2 _]].
  destruct (memory_thresholds_in_bytes fresh (with_heap 1074266112))
    as [_ [_ [H3 H4]]].
  split; [apply H1; simpl; lia |].
  split; [rewrite H2 by (simpl; lia); vm_compute; reflexivity |].
  split; [apply H3; simpl; lia |].
  destruct H4 as [H5 H6].
  - simpl. lia.
  - reflexivity.
  - vm_compute. discriminate.
  - simpl. lia.
  - split; [exact H5 | apply H6; reflexivity].
Defined.

(** ** From one process to the next *)

Lemma logged_faults_ok (type : string) (data : value) (a : AutoRestarter)
  (w : World) (r : list bool) :
  faults w = false :: false :: r -> faults (logged type data a w) = r.
Proof.
  intros H. unfold logged. rewrite H. reflexivity.
Qed.

Lemma restart_requested_state_file (a : AutoRestarter) (w : World) :
  state_file (files (restart_requested a w)) = state_file (files w).
Proof.
  unfold restart_requested. now rewrite files_emit, logged_state_file, files_emit.
Qed.

Lemma logged_damages (type : string) (data : value) (a : AutoRestarter)
  (w : World) :
  damages (logged type data a w) = damages w.
Proof.
  unfold logged. destruct (hd false (faults w)); [reflexivity |].
  destruct (hd false (tl (faults w))); reflexivity.
Qed.

Lemma cleaned_damages (w : World) : damages (cleaned w) = damages w.
Proof. unfold cleaned. now destruct (global_gc w), (global_messagesCache w). Qed.

Lemma restarted_unsaved (reason : string) (a : AutoRestarter) (w : World)
  (rest : list bool) :
  faults w = false :: false :: true :: rest ->
  state_file (files (restarted reason a w))
  = match hd Untouched (damages w) with
    | Untouched => state_file (files w)
    | Torn raw => Some (NotJSON raw)
    end.
Proof.
  intros Hf. unfold restarted.
  rewrite restart_requested_state_file, saved_state_file, cleaned_faults.
  rewrite (logged_faults_ok _ _ _ _ _ Hf). cbn [hd].
  now rewrite cleaned_damages, logged_damages, cleaned_files, logged_state_file.
Qed.

Lemma start_started (toDateString : Z -> string) (a : AutoRestarter) (w : World) :
  start toDateString (a, w) = (Return tt, started toDateString a w).
Proof.
  unfold start, started, try_catch.
  rewrite (bind_return _ _ _ _ _ (loadRestartState_loaded toDateString a w)).
  destruct (loaded toDateString a w) as [a1 w1]. cbn [fst snd].
  rewrite run_get_this, run_get_world, run_logEvent.
  destruct (strict_eq_string (env_NAZUNA_RESTARTED w1) "true").
  - now rewrite logEvent_logged.
  - reflexivity.
Qed.

Lemma next_process_object (toDateString : Z -> string) (e : environment)
  (p : Z) (v1 v2 : value) (m : machine) :
  fst (next_process toDateString e p v1 v2 m)
  = if hd false (env_faults e) then zeroed fresh
    else
      match state_file (files (snd m)) with
      | Some (JSONOf (PObject d)) =>
          if same_day toDateString (st_timestamp d) (env_clock e)
          then restored d fresh else zeroed fresh
      | _ => zeroed fresh
      end.
Proof.
  unfold next_process. rewrite constructor_exact. cbn [snd].
  rewrite start_started. cbn [snd]. unfold started. cbn [fst].
  unfold loaded, accepted.
  match goal with
  | |- context [hd false (faults ?w)] =>
      replace (hd false (faults w)) with (hd false (env_faults e)) by reflexivity;
      replace (state_file (files w)) with (state_file (files (snd m)))
        by reflexivity;
      replace (clock w) with (env_clock e) by reflexivity
  end.
  destruct (hd false (env_faults e)); [reflexivity |].
  destruct (state_file (files (snd m))) as [[raw | [ | | d]] |]; try reflexivity.
  now destruct (same_day toDateString (st_timestamp d) (env_clock e)).
Qed.

(** X9.  The restart cycle.  When a restart goes through and a new process
    is constructed and started over the disk it left, the new instance is
    not shutting down and has the constructor's parameters.  If the state
    was written, the new instance continues the count on the same day
    ([restartCount] one higher, [lastRestart] the time of the restart) and
    starts from zero on another day.  If the state could not be written
    (which [saveRestartState] only warns about), the restart is not
    counted: when the write failed before the file was open, the new
    instance is the one a process started on the old disk would have been;
    when it failed after, the file is unreadable and the new instance
    starts from zero. *)
Theorem restart_cycle :
  forall (toDateString : Z -> string) reason a w e p v1 v2,
    isShuttingDown a = false ->
    (restartCooldown a <= clock w - lastRestart a)%Z ->
    (restartCount a < maxRestarts a)%Z ->
    hd false (env_faults e) = false ->
    let m1 := snd (initiateRestart reason (a, w)) in
    let m2 := next_process toDateString e p v1 v2 m1 in
    isShuttingDown (fst m1) = true /\
    isShuttingDown (fst m2) = false /\
    config (fst m2) = config fresh /\
    (faults w = [] ->
     (toDateString (clock w) = toDateString (env_clock e) ->
      restartCount (fst m2) = (restartCount a + 1)%Z /\
      lastRestart (fst m2) = clock w) /\
     (toDateString (clock w) <> toDateString (env_clock e) ->
      restartCount (fst m2) = 0%Z /\ lastRestart (fst m2) = 0%Z)) /\
    (forall rest,
        faults w = false :: false :: true :: rest ->
        hd Untouched (damages w) = Untouched ->
        fst m2 = fst (next_process toDateString e p v1 v2 (a, w))) /\
    (forall rest raw,
        faults w = false :: false :: true :: rest ->
        hd Untouched (damages w) = Torn raw ->
        restartCount (fst m2) = 0%Z /\ lastRestart (fst m2) = 0%Z).
Proof.
  intros toDateString reason a w e p v1 v2 El Hc Hlt He m1 m2.
  assert (Ec : (clock w - lastRestart a <? restartCooldown a)%Z = false)
    by (apply Z.ltb_ge; lia).
  assert (Eg : (restartCount a >=? maxRestarts a)%Z = false)
    by (rewrite Z.geb_leb; apply Z.leb_gt; lia).
  assert (E1 : m1 = (restarting (clock w) a, restarted reason a w)).
  { unfold m1. now rewrite (initiateRestart_restarted _ _ _ El Ec Eg). }
  pose proof (next_process_object toDateString e p v1 v2 m1) as E2.
  fold m2 in E2. rewrite He in E2.
  split; [now rewrite E1 |].
  split; [| split].
  - rewrite E2. destruct (state_file (files (snd m1))) as [[raw | [ | | d]] |];
      try reflexivity.
    now destruct (same_day toDateString (st_timestamp d) (env_clock e)).
  - rewrite E2. destruct (state_file (files (snd m1))) as [[raw | [ | | d]] |];
      try reflexivity.
    now destruct (same_day toDateString (st_timestamp d) (env_clock e)).
  - split.
    + intros Hf. destruct (restarted_ok reason a w Hf) as [_ [Hs _]].
      rewrite E1 in E2. cbn [snd] in E2. rewrite Hs in E2.
      unfold JSON_stringify, saved_state in E2. cbn [st_timestamp same_day] in E2.
      split.
      * intros Hd. rewrite Hd, String.eqb_refl in E2. rewrite E2.
        unfold restored. cbn [st_restartCount st_lastRestart].
        rewrite !or_zero_some. now split.
      * intros Hd. apply String.eqb_neq in Hd. rewrite Hd in E2. rewrite E2.
        now split.
    + split.
      * intros rest Hf Hd.
        rewrite E2, (next_process_object toDateString e p v1 v2 (a, w)), He, E1.
        cbn [snd]. now rewrite (restarted_unsaved _ _ _ _ Hf), Hd.
      * intros rest raw Hf Hd. rewrite E2, E1. cbn [snd].
        rewrite (restarted_unsaved _ _ _ _ Hf), Hd. now split.
Qed.

(** The next day on a new instance, and restarts whose state cannot be
    written. *)
Lemma restart_cycle_witness :
  restartCount
    (fst (next_process utc_day (calm_env a_minute_later) 2 (VStr "true") (VNum 1)
            (snd (initiateRestart "ENOSPC" (after_first_restart,
                                            first_world a_minute_later)))))
  = 2%Z /\
  restartCount
    (fst (next_process utc_day (calm_env (an_instant + 86400000)) 2
            (VStr "true") (VNum 1)
            (snd (initiateRestart "ENOSPC" (after_first_restart,
                                            first_world a_minute_later)))))
  = 0%Z /\
  fst (next_process utc_day (calm_env a_minute_later) 2 (VStr "true") (VNum 1)
         (snd (initiateRestart "ENOSPC" (third_restart_open, state_write_fails))))
  = fst (next_process utc_day (calm_env a_minute_later) 2 (VStr "true") (VNum 1)
           (third_restart_open, state_write_fails)) /\
  restartCount
    (fst (next_process utc_day (calm_env a_minute_later) 2 (VStr "true") (VNum 1)
            (snd (initiateRestart "ENOSPC" (third_restart_open, state_write_torn)))))
  = 0%Z.
Proof.
  destruct (restart_cycle utc_day "ENOSPC" after_first_restart
              (first_world a_minute_later) (calm_env a_minute_later) 2
              (VStr "true") (VNum 1)) as [_ [_ [_ [H1 _]]]];
    [reflexivity | vm_compute; discriminate | simpl; lia | reflexivity |].
  destruct (restart_cycle utc_day "ENOSPC" after_first_restart
              (first_world a_minute_later) (calm_env (an_instant + 86400000)) 2
              (VStr "true") (VNum 1)) as [_ [_ [_ [H2 _]]]];
    [reflexivity | vm_compute; discriminate | simpl; lia | reflexivity |].
  destruct (restart_cycle utc_day "ENOSPC" third_restart_open
              state_write_fails (calm_env a_minute_later) 2
              (VStr "true") (VNum 1)) as [_ [_ [_ [_ [H3 _]]]]];
    [reflexivity | vm_compute; discriminate | simpl; lia | reflexivity |].
  destruct (restart_cycle utc_day "ENOSPC" third_restart_open
              state_write_torn (calm_env a_minute_later) 2
              (VStr "true") (VNum 1)) as [_ [_ [_ [_ [_ H4]]]]];
    [reflexivity | vm_compute; discriminate | simpl; lia | reflexivity |].
  split; [| split; [| split]].
  - destruct (H1 eq_refl) as [[H _] _]; [vm_compute; reflexivity | exact H].
  - destruct (H2 eq_refl) as [_ [H _]]; [vm_compute; discriminate | exact H].
  - apply (H3 []); reflexivity.
  - destruct (H4 [] EmptyString) as [H _]; [reflexivity | reflexivity | exact H].
Defined.

(** ** The exits the supervisor arms *)

Lemma loaded_continues (toDateString : Z -> string) (a : AutoRestarter) (w : World) :
  continues w (snd (loaded toDateString a w)).
Proof.
  unfold loaded. destruct (accepted toDateString w) as [d |]; cbn [snd].
  - eapply continues_trans; [apply read_attempt_continues | apply logged_continues].
  - apply read_attempt_continues.
Qed.

Section Emits.

Variable P : io_event -> bool.

Hypothesis P_quiet : forall e, quiet e = true -> P e = true.

Lemma quiet_events (l : list io_event) : forallb quiet l = true -> forallb P l = true.
Proof.
  induction l as [|e r IH]; simpl; [reflexivity |].
  intros H. apply andb_prop in H. destruct H as [H1 H2].
  now rewrite (P_quiet e H1), IH.
Qed.

Lemma continues_emits {A} (c : M A) :
  (forall m, continues (snd m) (snd (snd (c m)))) -> emits P c.
Proof.
  intros H m. destruct (H m) as [_ _ _ _ _ _ _ _ [l [T Q]]].
  exists l. split; [exact T | now apply quiet_events].
Qed.

Lemma tame_emits {A} (c : M A) : tame c -> emits P c.
Proof.
  intros H. apply continues_emits. intros [a w].
  destruct (H a w) as [w' [C [[x E] | [e E]]]]; now rewrite E.
Qed.

Lemma calm_emits {A} (c : M A) : calm c -> emits P c.
Proof. intros H. now apply tame_emits, calm_tame. Qed.

Lemma emits_bind {A B} (c : M A) (k : A -> M B) :
  emits P c -> (forall x, emits P (k x)) -> emits P (bind c k).
Proof.
  intros Hc Hk m. destruct (Hc m) as [l1 [T1 Q1]]. unfold bind.
  destruct (c m) as [[x | e | n] m1]; cbn [snd] in *; try now exists l1.
  destruct (Hk x m1) as [l2 [T2 Q2]]. exists (l1 ++ l2)%list. split.
  - now rewrite T2, T1, app_assoc.
  - now rewrite forallb_app, Q1, Q2.
Qed.

Lemma emits_try {A} (c : M A) (h : exn -> M A) :
  emits P c -> (forall e, emits P (h e)) -> emits P (try_catch c h).
Proof.
  intros Hc Hh m. destruct (Hc m) as [l1 [T1 Q1]]. unfold try_catch.
  destruct (c m) as [[x | e | n] m1]; cbn [snd] in *; try now exists l1.
  destruct (Hh e m1) as [l2 [T2 Q2]]. exists (l1 ++ l2)%list. split.
  - now rewrite T2, T1, app_assoc.
  - now rewrite forallb_app, Q1, Q2.
Qed.

Lemma emits_block {A} (c : M A) (h : exn -> M A) :
  returns c -> emits P c -> emits P (try_catch c h).
Proof.
  intros Hr Hc m. rewrite (try_of_returns c h m Hr). apply Hc.
Qed.

Lemma emits_if {A} (b : bool) (c1 c2 : M A) :
  emits P c1 -> emits P c2 -> emits P (if b then c1 else c2).
Proof. now destruct b. Qed.

Lemma emits_modify_this (f : AutoRestarter -> AutoRestarter) :
  emits P (modify_this f).
Proof. intros m. exists []. split; [now rewrite app_nil_r | reflexivity]. Qed.

Lemma emits_some {A} (l : list A) (f : A -> M bool) :
  (forall x, emits P (f x)) -> emits P (some l f).
Proof.
  intros H. induction l as [|x r IH]; simpl.
  - apply calm_emits, calm_ret.
  - apply emits_bind; [apply H | intros b].
    destruct b; [apply calm_emits, calm_ret | exact IH].
Qed.

Lemma emits_loadRestartState (toDateString : Z -> string) :
  emits P (loadRestartState toDateString).
Proof.
  apply continues_emits. intros [a w]. rewrite loadRestartState_loaded.
  apply loaded_continues.
Qed.

Lemma emits_start (toDateString : Z -> string) : emits P (start toDateString).
Proof.
  unfold start. apply emits_try.
  - apply emits_bind; [apply emits_loadRestartState | intros _].
    apply calm_emits. auto 10 with calm.
  - intros e. apply calm_emits. auto with calm.
Qed.

Lemma emits_setTimeout_exit (code delay : Z) :
  (forall t, P (Ev_setTimeout t delay code) = true) ->
  emits P (setTimeout_exit code delay).
Proof.
  intros H [a w]. exists [Ev_setTimeout (clock w) delay code]. split.
  - reflexivity.
  - simpl. now rewrite H.
Qed.

Hypothesis P_clean : forall t, P (Ev_setTimeout t 2000 0) = true.
Hypothesis P_limit : forall t, P (Ev_setTimeout t 2000 1) = true.

Lemma emits_restartProcess : emits P restartProcess.
Proof.
  unfold restartProcess. apply emits_block.
  - apply returns_bind; [auto with returns | intros _].
    apply returns_bind; [auto with returns | intros _]. auto with returns.
  - apply emits_bind; [apply calm_emits; auto with calm | intros _].
    apply emits_bind; [apply calm_emits, calm_logEvent | intros _].
    now apply emits_setTimeout_exit.
Qed.

Lemma emits_gracefulShutdown (signal : string) : emits P (gracefulShutdown signal).
Proof.
  intros [a w]. destruct (isShuttingDown a) eqn:El.
  - rewrite gracefulShutdown_latched by exact El.
    exists []. split; [now rewrite app_nil_r | reflexivity].
  - rewrite (gracefulShutdown_shut_down _ _ _ El). cbn [snd].
    destruct (shut_down_trace signal a w) as [l [T Q]].
    eexists. split; [exact T |].
    rewrite forallb_app, (quiet_events l Q). simpl.
    destruct (signal =? "MAX_RESTARTS_REACHED")%string;
      now rewrite ?P_clean, ?P_limit.
Qed.

Lemma emits_initiateRestart (reason : string) : emits P (initiateRestart reason).
Proof.
  unfold initiateRestart.
  apply emits_bind; [apply calm_emits, calm_get_this | intros this].
  apply emits_if; [apply calm_emits, calm_ret |].
  apply emits_bind; [apply calm_emits, calm_get_world | intros w0]. cbv zeta.
  apply emits_if; [apply calm_emits, calm_logEvent |].
  apply emits_if.
  - apply emits_bind; [apply calm_emits, calm_logEvent | intros _].
    apply emits_gracefulShutdown.
  - repeat (apply emits_bind; [apply emits_modify_this | intros _]).
    apply emits_bind; [apply calm_emits, calm_get_this | intros this'].
    apply emits_bind; [apply calm_emits, calm_logEvent | intros _].
    apply emits_block.
    + apply returns_bind; [apply calm_returns, calm_performEmergencyCleanup | intros _].
      apply returns_bind; [apply calm_returns, calm_saveRestartState | intros _].
      apply returns_restartProcess.
    + apply emits_bind; [apply calm_emits, calm_performEmergencyCleanup | intros _].
      apply emits_bind; [apply calm_emits, calm_saveRestartState | intros _].
      apply emits_restartProcess.
Qed.

Lemma emits_checkMemoryUsage : emits P checkMemoryUsage.
Proof.
  unfold checkMemoryUsage. apply emits_try.
  - apply emits_bind; [apply calm_emits, calm_get_world | intros w0]. cbv zeta.
    apply emits_bind; [| intros _].
    + apply emits_if; apply calm_emits; auto with calm.
    + apply emits_if; [apply emits_initiateRestart | apply calm_emits, calm_ret].
  - intros e. apply calm_emits. auto with calm.
Qed.

Lemma emits_handleCriticalError_classified (toISOString : Z -> string)
  (type : string) (error : js_error) :
  has_includes (errorMessage_of error) = true ->
  emits P (handleCriticalError toISOString type error).
Proof.
  intros Hs [a w].
  destruct (logged_continues "critical_error"
              (critical_error_data toISOString type error a w) a w)
    as [_ _ _ _ _ _ _ _ [l1 [T1 Q1]]].
  assert (G : forall (b : bool) (c : M unit),
             calm c ->
             handleCriticalError toISOString type error (a, w)
             = (if b then initiateRestart (critical_reason error) else c)
                 (a, logged "critical_error"
                       (critical_error_data toISOString type error a w) a w) ->
             exists l,
               trace (snd (snd (handleCriticalError toISOString type error (a, w))))
               = (trace (snd (a, w)) ++ l)%list /\ forallb P l = true).
  { intros b c Hc E. rewrite E.
    assert (H : emits P (if b then initiateRestart (critical_reason error) else c))
      by (apply emits_if; [apply emits_initiateRestart | now apply calm_emits]).
    match goal with
    | |- context [(if b then _ else _) ?m] => destruct (H m) as [l2 [T2 Q2]]
    end.
    exists (l1 ++ l2)%list. split.
    - cbn [snd] in *. now rewrite T2, T1, app_assoc.
    - now rewrite forallb_app, (quiet_events l1 Q1), Q2. }
  destruct (errorMessage_of error) as [| | | | msg | | items] eqn:Em;
    try discriminate Hs.
  - destruct (handleCriticalError_string toISOString type error a w msg Em)
      as [E _].
    apply (G _ _ (calm_console_error _) E).
  - destruct (handleCriticalError_array toISOString type error a w items Em)
      as [E _].
    refine (G _ _ _ E). now apply calm_io.
Qed.

Lemma emits_run_unforced (toDateString toISOString : Z -> string) (c : call) :
  unforced c = true -> emits P (run toDateString toISOString c).
Proof.
  intros Hc. destruct c; try discriminate Hc; simpl.
  - apply emits_start.
  - unfold stop. apply emits_bind; [apply emits_modify_this | intros _].
    apply calm_emits, calm_logEvent.
  - apply calm_emits. unfold discard, getStats. auto 10 with calm.
  - unfold manualRestart.
    apply emits_bind; [apply calm_emits, calm_logEvent | intros _].
    apply emits_initiateRestart.
  - now apply emits_handleCriticalError_classified.
  - apply emits_checkMemoryUsage.
  - apply emits_initiateRestart.
  - apply calm_emits, calm_performEmergencyCleanup.
  - apply calm_emits, calm_saveRestartState.
  - apply emits_loadRestartState.
  - apply emits_restartProcess.
  - apply emits_gracefulShutdown.
  - apply calm_emits, calm_logEvent.
  - unfold on_warning. apply emits_if; apply calm_emits; auto with calm.
Qed.

Hypothesis P_forced : forall t, P (Ev_setTimeout t 1000 1) = true.

Lemma emits_forceRestart (reason : string) : emits P (forceRestart reason).
Proof.
  intros [a w]. rewrite forceRestart_forced. cbn [snd].
  destruct (forced_trace reason a w) as [l [T Q]].
  eexists. split; [exact T |].
  rewrite forallb_app, (quiet_events l Q). simpl. now rewrite P_forced.
Qed.

Lemma emits_handleCriticalError (toISOString : Z -> string) (type : string)
  (error : js_error) :
  emits P (handleCriticalError toISOString type error).
Proof.
  destruct (has_includes (errorMessage_of error)) eqn:Es.
  { now apply emits_handleCriticalError_classified. }
  unfold handleCriticalError. apply emits_try.
  - unfold handleCriticalError_try. cbv zeta.
    apply emits_bind; [apply calm_emits, calm_get_this | intros this].
    apply emits_bind; [apply calm_emits, calm_get_world | intros w0].
    apply emits_bind; [apply calm_emits, calm_logEvent | intros _].
    apply emits_bind; [apply calm_emits, calm_get_this | intros this'].
    apply emits_bind.
    + apply emits_some. intros p.
      apply emits_bind; [| intros b; apply calm_emits, calm_ret].
      destruct (errorMessage_of error);
        first [apply calm_emits, calm_ret | apply tame_emits, tame_throw].
    + intros b. apply emits_if;
        [apply emits_initiateRestart | apply calm_emits; auto with calm].
  - intros e. apply emits_bind; [apply calm_emits; auto with calm | intros _].
    apply emits_forceRestart.
Qed.

Lemma emits_run (toDateString toISOString : Z -> string) (c : call) :
  emits P (run toDateString toISOString c).
Proof.
  destruct c;
    try (apply emits_run_unforced; reflexivity); simpl.
  - apply emits_handleCriticalError.
  - apply emits_forceRestart.
Qed.

End Emits.

Lemma emits_run_all (P : io_event -> bool)
  (toDateString toISOString : Z -> string)
  (allowed : call -> bool) (calls : list (environment * call)) (m : machine) :
  (forall c, allowed c = true -> emits P (run toDateString toISOString c)) ->
  forallb (fun ec => allowed (snd ec)) calls = true ->
  exists l,
    trace (snd (run_all toDateString toISOString calls m)) = (trace (snd m) ++ l)%list
    /\ forallb P l = true.
Proof.
  intros H. revert m. induction calls as [|[e c] r IH]; intros [a w] Hall; simpl.
  - exists []. split; [now rewrite app_nil_r | reflexivity].
  - simpl in Hall. apply andb_prop in Hall. destruct Hall as [Hc Hr].
    destruct (H c Hc (a, observe e w)) as [l1 [T1 Q1]].
    destruct (IH (snd (run toDateString toISOString c (a, observe e w))) Hr)
      as [l2 [T2 Q2]].
    exists (l1 ++ l2)%list. split.
    + rewrite T2, T1. cbn [snd observe trace]. now rewrite app_assoc.
    + now rewrite forallb_app, Q1, Q2.
Qed.

Lemma disciplined_exited (l : list io_event) :
  forallb disciplined l = true -> exited l = None.
Proof.
  induction l as [|e r IH]; simpl; [reflexivity |].
  intros H. apply andb_prop in H. destruct H as [H1 H2].
  destruct e; try discriminate H1; now apply IH.
Qed.

(** X10.  The supervisor ends the process through timers only.  Through
    any sequence of calls, every event is either harmless or the arming of
    [process.exit(0)] or [process.exit(1)] after 2000 ms, or of
    [process.exit(1)] after 1000 ms: [process.exit] is never called on the
    spot, so the handlers that would call it are never reached.  The
    one-second exit only comes from [forceRestart], called directly or for
    an error whose message is neither a string nor an array: in a sequence
    without these, every exit is armed two seconds ahead, so the fallback
    of [initiateRestart] is never taken. *)
Theorem exits_are_timers :
  forall (toDateString toISOString : Z -> string),
    (forall calls m,
        let m' := run_all toDateString toISOString calls m in
        (exists l, trace (snd m') = (trace (snd m) ++ l)%list /\
                   forallb disciplined l = true) /\
        exited (trace (snd m')) = exited (trace (snd m))) /\
    (forall calls m,
        forallb (fun ec => unforced (snd ec)) calls = true ->
        exists l,
          trace (snd (run_all toDateString toISOString calls m))
          = (trace (snd m) ++ l)%list /\
          forallb two_second_exit l = true).
Proof.
  intros toDateString toISOString. split.
  - intros calls m m'.
    destruct (emits_run_all disciplined toDateString toISOString
                (fun _ => true) calls m) as [l [T Q]].
    + intros c _. apply emits_run; try reflexivity. now intros [].
    + now induction calls.
    + fold m' in T. split; [now exists l |].
      rewrite T, exited_app, (disciplined_exited l Q).
      now destruct (exited (trace (snd m))).
  - intros calls m Hall.
    apply (emits_run_all two_second_exit toDateString toISOString unforced);
      [| exact Hall].
    intros c Hc. apply emits_run_unforced; try reflexivity; [| exact Hc].
    now intros [].
Qed.

(** Three requests and a memory check on a new instance. *)
Lemma exits_are_timers_witness :
  exists l,
    trace (snd (run_all utc_day utc_stamp
                  [(calm_env an_instant, Call_manualRestart "deploy");
                   (calm_env a_minute_later, Call_checkMemoryUsage);
                   (calm_env a_minute_later,
                    Call_handleCriticalError "uncaughtException" no_space);
                   (calm_env a_minute_later, Call_restartProcess)]
                  (fresh, first_world an_instant)))
    = (trace (first_world an_instant) ++ l)%list /\
    forallb two_second_exit l = true.
Proof.
  destruct (exits_are_timers utc_day utc_stamp) as [_ H].
  apply (H [(calm_env an_instant, Call_manualRestart "deploy");
            (calm_env a_minute_later, Call_checkMemoryUsage);
            (calm_env a_minute_later,
             Call_handleCriticalError "uncaughtException" no_space);
            (calm_env a_minute_later, Call_restartProcess)]
           (fresh, first_world an_instant)).
  reflexivity.
Defined.

(** ** File names *)

Lemma replace_non_alnum_ascii (name : list N) :
  Forall (fun c => (c < 128)%N) (replace_non_alnum name).
Proof.
  unfold replace_non_alnum. apply Forall_forall. intros c Hc.
  apply in_map_iff in Hc. destruct Hc as [x [<- _]].
  unfold is_lower_unit, is_upper_unit, is_digit_unit.
  destruct (N.leb_spec 97 x), (N.leb_spec x 122), (N.leb_spec 65 x),
    (N.leb_spec x 90), (N.leb_spec 48 x), (N.leb_spec x 57); simpl; lia.
Qed.

Lemma sanitize_unit_exact (c : N) :
  lower_unit (if is_lower_unit c || is_upper_unit c || is_digit_unit c
              then c else 95%N)
  = sanitize_unit c.
Proof.
  unfold lower_unit, sanitize_unit, is_lower_unit, is_upper_unit, is_digit_unit.
  destruct (N.leb_spec 97 c), (N.leb_spec c 122), (N.leb_spec 65 c),
    (N.leb_spec c 90), (N.leb_spec 48 c), (N.leb_spec c 57); simpl;
    try reflexivity; try lia;
    repeat match goal with
           | |- context [(?x <=? ?y)%N] => destruct (N.leb_spec x y); try lia
           end; simpl; try reflexivity; lia.
Qed.

Lemma sanitize_unit_safe (c : N) : safe_unit (sanitize_unit c) = true.
Proof.
  unfold safe_unit, sanitize_unit, is_lower_unit, is_upper_unit, is_digit_unit.
  destruct (N.leb_spec 97 c), (N.leb_spec c 122), (N.leb_spec 65 c),
    (N.leb_spec c 90), (N.leb_spec 48 c), (N.leb_spec c 57); simpl;
    try reflexivity; try lia;
    repeat match goal with
           | |- context [(?x <=? ?y)%N] => destruct (N.leb_spec x y); try lia
           end; reflexivity.
Qed.

Lemma sanitize_unit_fixed (c : N) : sanitize_unit c = c <-> safe_unit c = true.
Proof.
  unfold safe_unit, sanitize_unit, is_lower_unit, is_upper_unit, is_digit_unit.
  destruct (N.eqb_spec c 95) as [-> | Hn]; [simpl; tauto |].
  destruct (N.leb_spec 97 c), (N.leb_spec c 122), (N.leb_spec 65 c),
    (N.leb_spec c 90), (N.leb_spec 48 c), (N.leb_spec c 57); simpl;
    split; intros E; try reflexivity; try discriminate E; try lia.
Qed.

Section Sanitized.

Variable toLowerCase : list N -> list N.

Hypothesis lowers : lowers_ascii toLowerCase.

Lemma sanitizeFileName_units (name : list N) :
  sanitizeFileName toLowerCase name = map sanitize_unit name.
Proof.
  unfold sanitizeFileName. rewrite (lowers _ (replace_non_alnum_ascii name)).
  unfold replace_non_alnum. rewrite map_map. apply map_ext. intros c.
  apply sanitize_unit_exact.
Qed.

End Sanitized.

(** X11.  For a [toLowerCase] that lowers the letters A to Z and leaves the
    other units below 128 alone, [sanitizeFileName] works unit by unit: the
    result has the length of the name and holds only lower-case letters,
    digits and underscores; names made of these are exactly the names it
    leaves as they are, so that sanitising twice is sanitising once.  It is
    not injective: a capital letter and its lower-case letter give the same
    name, and so do any two units outside the letters and digits. *)
Theorem sanitized_names :
  forall toLowerCase : list N -> list N,
    lowers_ascii toLowerCase ->
    (forall name,
        length (sanitizeFileName toLowerCase name) = length name /\
        Forall (fun c => safe_unit c = true) (sanitizeFileName toLowerCase name) /\
        sanitizeFileName toLowerCase (sanitizeFileName toLowerCase name)
        = sanitizeFileName toLowerCase name /\
        (sanitizeFileName toLowerCase name = name <->
         Forall (fun c => safe_unit c = true) name)) /\
    (forall c,
        is_upper_unit c = true ->
        sanitizeFileName toLowerCase [c] = sanitizeFileName toLowerCase [(c + 32)%N]) /\
    (forall c d,
        safe_unit c = false -> is_upper_unit c = false ->
        safe_unit d = false -> is_upper_unit d = false ->
        sanitizeFileName toLowerCase [c] = sanitizeFileName toLowerCase [d]).
Proof.
  intros toLowerCase H. split; [| split].
  - intros name.
    assert (S : Forall (fun c => safe_unit c = true)
                       (sanitizeFileName toLowerCase name)).
    { rewrite (sanitizeFileName_units _ H). apply Forall_forall. intros c Hc.
      apply in_map_iff in Hc. destruct Hc as [x [<- _]]. apply sanitize_unit_safe. }
    assert (F : forall s, sanitizeFileName toLowerCase s = s <->
                          Forall (fun c => safe_unit c = true) s).
    { intros s. rewrite (sanitizeFileName_units _ H). induction s as [|c r IH]; simpl.
      - split; [constructor | reflexivity].
      - split.
        + intros E. injection E as E1 E2. constructor.
          * now apply sanitize_unit_fixed.
          * now apply IH.
        + intros E. inversion E as [|? ? E1 E2]. subst. f_equal.
          * now apply sanitize_unit_fixed.
          * now apply IH. }
    split; [| split; [exact S | split; [now apply F | apply F]]].
    rewrite (sanitizeFileName_units _ H). apply length_map.
  - intros c Hc. rewrite !(sanitizeFileName_units _ H). simpl. f_equal.
    unfold sanitize_unit, is_lower_unit, is_upper_unit, is_digit_unit in *.
    destruct (N.leb_spec 65 c), (N.leb_spec c 90); try discriminate Hc.
    repeat match goal with
           | |- context [(?x <=? ?y)%N] => destruct (N.leb_spec x y); try lia
           end; simpl; try reflexivity; lia.
  - intros c d Hc Hc' Hd Hd'. rewrite !(sanitizeFileName_units _ H). simpl. f_equal.
    unfold safe_unit, sanitize_unit in *.
    apply orb_false_iff in Hc. destruct Hc as [Hc _].
    apply orb_false_iff in Hd. destruct Hd as [Hd _].
    now rewrite Hc, Hd, Hc', Hd'.
Qed.

(** The title [My Song!] becomes [my_song_]. *)
Lemma sanitized_names_witness :
  sanitizeFileName (map lower_unit) a_title
  = [109; 121; 95; 115; 111; 110; 103; 95]%N /\
  length (sanitizeFileName (map lower_unit) a_title) = length a_title /\
  sanitizeFileName (map lower_unit) [77%N] = sanitizeFileName (map lower_unit) [109%N] /\
  sanitizeFileName (map lower_unit) [32%N] = sanitizeFileName (map lower_unit) [33%N].
Proof.
  assert (L : lowers_ascii (map lower_unit)) by (intros s _; reflexivity).
  destruct (sanitized_names (map lower_unit) L) as [H1 [H2 H3]].
  split; [reflexivity |].
  split; [apply (H1 a_title) |].
  split; [apply (H2 77%N); reflexivity |].
  apply (H3 32%N 33%N); reflexivity.
Defined.

Lemma append_inj_length (a b s t : string) :
  String.length a = String.length b ->
  (a ++ s = b ++ t)%string -> a = b /\ s = t.
Proof.
  revert b. induction a as [|c a IH]; intros [|c' b] Hl E;
    try discriminate Hl; simpl in *.
  - now split.
  - injection E as -> E. injection Hl as Hl.
    destruct (IH b Hl E) as [-> ->]. now split.
Qed.

Lemma length_append (a s : string) :
  String.length (a ++ s) = (String.length a + String.length s)%nat.
Proof. induction a as [|c a IH]; simpl; [reflexivity | now rewrite IH]. Qed.

Lemma append_inj_l (s a b : string) : (s ++ a = s ++ b)%string -> a = b.
Proof.
  intros E. now destruct (append_inj_length s s a b eq_refl E).
Qed.

Lemma append_inj_suffix (a b s t : string) :
  String.length s = String.length t ->
  (a ++ s = b ++ t)%string -> a = b /\ s = t.
Proof.
  intros Hl E. apply append_inj_length; [| exact E].
  apply (f_equal String.length) in E. rewrite !length_append in E. lia.
Qed.

Lemma string_of_Z_inj (z z' : Z) : string_of_Z z = string_of_Z z' -> z = z'.
Proof.
  unfold string_of_Z. intros E.
  assert (N : forall n, Z.to_int n <> Decimal.Pos Decimal.Nil /\
                        Z.to_int n <> Decimal.Neg Decimal.Nil).
  { intros [|p|p]; simpl; split; try discriminate;
      intros E'; injection E' as E'; now apply Unsigned.to_uint_nonnil in E'. }
  apply (f_equal NilZero.int_of_string) in E.
  rewrite !NilZero.isi in E by apply N.
  injection E as E. now apply to_int_inj.
Qed.

(** X12.  The names of the downloaded files depend on the millisecond of
    the call and on nothing else.  Calls in different milliseconds write to
    different files, and a video and an audio download never share a file;
    but two downloads started in the same millisecond, of whatever two
    videos, are given the same file name. *)
Theorem download_file_names :
  forall (shell : string -> exec_result) (dir : string),
    (forall t1 t2, mp4_fileName dir t1 = mp4_fileName dir t2 <-> t1 = t2) /\
    (forall t1 t2, m4a_fileName dir t1 = m4a_fileName dir t2 <-> t1 = t2) /\
    (forall dir' t1 t2, mp4_fileName dir t1 <> m4a_fileName dir' t2) /\
    (forall url1 url2 now f1 f2,
        snd (downloadYoutubeMp4_Fast shell dir url1 now) = Resolved f1 ->
        snd (downloadYoutubeMp4_Fast shell dir url2 now) = Resolved f2 ->
        f1 = f2).
Proof.
  intros shell dir.
  assert (V : forall t1 t2, mp4_fileName dir t1 = mp4_fileName dir t2 -> t1 = t2).
  { unfold mp4_fileName, path_join. intros t1 t2 E.
    apply append_inj_l in E. simpl in E. injection E as E.
    apply append_inj_suffix in E; [| reflexivity].
    now apply string_of_Z_inj. }
  assert (A : forall t1 t2, m4a_fileName dir t1 = m4a_fileName dir t2 -> t1 = t2).
  { unfold m4a_fileName, path_join. intros t1 t2 E.
    apply append_inj_l in E. simpl in E. injection E as E.
    apply append_inj_suffix in E; [| reflexivity].
    now apply string_of_Z_inj. }
  split; [| split; [| split]].
  - intros t1 t2. split; [apply V | now intros ->].
  - intros t1 t2. split; [apply A | now intros ->].
  - intros dir' t1 t2 E. unfold mp4_fileName, m4a_fileName, path_join in E.
    rewrite <- !append_append in E.
    apply append_inj_suffix in E; [| reflexivity].
    destruct E as [_ E]. discriminate E.
  - intros url1 url2 now f1 f2.
    unfold downloadYoutubeMp4_Fast, downloadYoutubeMp4_Fast_try. cbv zeta.
    destruct (exec_error (shell (mp4_command (mp4_fileName dir now) url1)));
      [discriminate |].
    destruct (negb (exists_after _ _)); [discriminate |].
    destruct (exec_error (shell (mp4_command (mp4_fileName dir now) url2)));
      [discriminate |].
    destruct (negb (exists_after _ _)); [discriminate |].
    simpl. congruence.
Qed.

(** Two videos requested in the same millisecond. *)
Lemma download_file_names_witness :
  mp4_fileName "/app/temp" an_instant <> mp4_fileName "/app/temp" a_minute_later /\
  "/app/temp/video_1700000000000.mp4" = mp4_fileName "/app/temp" an_instant.
Proof.
  destruct (download_file_names shell_ok "/app/temp") as [H1 [_ [_ H4]]].
  split.
  - intros E. apply H1 in E. discriminate E.
  - apply (H4 "https://youtu.be/one" "https://youtu.be/two" an_instant);
      reflexivity.
Defined.

(** ** How the downloads settle *)

(** X13.  Each downloader resolves only with the path of a file that exists
    once its command has run without error: the path it was given
    ([downloadMp3V2]) or the one it made from the time of the call (the two
    fast ones), and then nothing is written on the console.  The fast
    downloaders reject with one fixed message whatever went wrong: the
    cause (the error of the command, or the missing file) only appears on
    the console.  [downloadMp3V2] tells the two failures apart, reports the
    first on the console (the error output of the command, or the message
    of the error when there is none) and says nothing about the second. *)
Theorem downloads_settle :
  forall (shell : string -> exec_result) (dir : string),
    (forall url now,
        let f := mp4_fileName dir now in
        let r := shell (mp4_command f url) in
        let d := downloadYoutubeMp4_Fast shell dir url now in
        (forall p, snd d = Resolved p ->
                   p = f /\ exec_error r = None /\ exists_after r p = true /\
                   fst d = []) /\
        (forall msg, snd d = Rejected msg ->
                     msg = mp4_failure /\
                     exists cause,
                       fst d = ["ERRO NO DOWNLOAD DE VÍDEO: " ++ cause] /\
                       (exec_error r = Some cause \/
                        exec_error r = None /\ exists_after r f = false /\
                        cause = "Erro: Arquivo não encontrado após download."))) /\
    (forall url now,
        let f := m4a_fileName dir now in
        let r := shell (m4a_command f url) in
        let d := downloadYoutubeM4A_Fast shell dir url now in
        (forall p, snd d = Resolved p ->
                   p = f /\ exec_error r = None /\ exists_after r p = true /\
                   fst d = []) /\
        (forall msg, snd d = Rejected msg ->
                     msg = m4a_failure /\
                     exists cause,
                       fst d = ["Erro no download de áudio: " ++ cause] /\
                       (exec_error r = Some cause \/
                        exec_error r = None /\ exists_after r f = false /\
                        cause = "Arquivo não encontrado após o download."))) /\
    (forall url outputPath bitrate,
        let r := shell (mp3_command url outputPath bitrate) in
        let d := downloadMp3V2 shell url outputPath bitrate in
        (forall p, snd d = Resolved p ->
                   p = outputPath /\ exec_error r = None /\
                   exists_after r p = true /\ fst d = []) /\
        (forall msg, snd d = Rejected msg ->
                     (exists cause,
                         exec_error r = Some cause /\
                         msg = "❌ Falha na conversão de áudio. Tente o modo rápido." /\
                         fst d = ["[ERRO DOWNLOAD V2]: "
                                  ++ (if (exec_stderr r =? EmptyString)%string
                                      then cause else exec_stderr r)]) \/
                     (exec_error r = None /\ exists_after r outputPath = false /\
                      msg = "❌ Arquivo de saída não foi gerado." /\ fst d = []))).
Proof.
  intros shell dir. split; [| split].
  - intros url now f r d.
    unfold d, downloadYoutubeMp4_Fast, downloadYoutubeMp4_Fast_try. cbv zeta.
    fold f. fold r.
    destruct (exec_error r) as [message |] eqn:Ee;
      [| destruct (exists_after r f) eqn:Ex]; cbn [negb fst snd]; split;
      intros x E; try discriminate E; injection E as <-.
    + split; [reflexivity |]. exists message. split; [reflexivity | now left].
    + now repeat split.
    + split; [reflexivity |]. eexists. split; [reflexivity |]. right. now repeat split.
  - intros url now f r d.
    unfold d, downloadYoutubeM4A_Fast, downloadYoutubeM4A_Fast_try. cbv zeta.
    fold f. fold r.
    destruct (exec_error r) as [message |] eqn:Ee;
      [| destruct (exists_after r f) eqn:Ex]; cbn [negb fst snd]; split;
      intros x E; try discriminate E; injection E as <-.
    + split; [reflexivity |]. exists message. split; [reflexivity | now left].
    + now repeat split.
    + split; [reflexivity |]. eexists. split; [reflexivity |]. right. now repeat split.
  - intros url outputPath bitrate r d.
    unfold d, downloadMp3V2. cbv zeta. fold r.
    destruct (exec_error r) as [message |] eqn:Ee;
      [| destruct (exists_after r outputPath) eqn:Ex]; cbn [negb fst snd]; split;
      intros x E; try discriminate E; injection E as <-.
    + left. exists message. now repeat split.
    + now repeat split.
    + right. now repeat split.
Qed.

(** A video that downloads, a command that fails, and a conversion that
    leaves no file. *)
Lemma downloads_settle_witness :
  downloadYoutubeMp4_Fast shell_ok "/app/temp" "https://youtu.be/one" an_instant
  = ([], Resolved "/app/temp/video_1700000000000.mp4") /\
  snd (downloadYoutubeM4A_Fast shell_down "/app/temp" "https://youtu.be/one" an_instant)
  = Rejected m4a_failure /\
  downloadMp3V2 shell_empty "https://youtu.be/one" "/app/temp/one.mp3" "128k"
  = ([], Rejected "❌ Arquivo de saída não foi gerado.").
Proof.
  destruct (downloads_settle shell_ok "/app/temp") as [H1 _].
  destruct (downloads_settle shell_down "/app/temp") as [_ [H2 _]].
  destruct (downloads_settle shell_empty "/app/temp") as [_ [_ H3]].
  split; [| split].
  - destruct (H1 "https://youtu.be/one" an_instant) as [H _].
    destruct (H "/app/temp/video_1700000000000.mp4") as [_ [_ [_ Hc]]];
      [reflexivity |].
    now rewrite (surjective_pairing (downloadYoutubeMp4_Fast _ _ _ _)), Hc.
  - destruct (H2 "https://youtu.be/one" an_instant) as [_ H].
    destruct (H m4a_failure) as [_ _]; reflexivity.
  - destruct (H3 "https://youtu.be/one" "/app/temp/one.mp3" "128k") as [_ H].
    destruct (H "❌ Arquivo de saída não foi gerado.") as [[c [E _]] | [_ [_ [_ Hc]]]];
      [reflexivity | discriminate E |].
    now rewrite (surjective_pairing (downloadMp3V2 _ _ _ _)), Hc.
Defined.

(** ** Looking a video up *)

(** X14.  [getVideoMetadata] resolves exactly when the command ran without
    error and its output parsed to something other than [null], and then
    writes nothing on the console; every failure is rejected with one fixed
    message, its cause appearing only on the console.  Nothing in the
    document is required: output that parses to a number or a string
    resolves with every field undefined.  The [views] of a video that has
    none are shown as [N/A], like those of a document without
    [view_count]; the [duration] returned is never empty. *)
Theorem metadata_lookup :
  forall (shell : string -> exec_result)
         (parse : string -> string + parsed_document)
         (format : Z -> string) (query : string),
    let r := shell (metadata_command query) in
    let d := getVideoMetadata shell parse format query in
    (forall info,
        snd d = Resolved info ->
        exec_error r = None /\ fst d = [] /\
        truthy (vm_duration info) = true /\
        exists doc,
          info = metadata_of format doc /\
          (parse (exec_stdout r) = inr (DObject doc) \/
           parse (exec_stdout r) = inr DScalar /\ doc = no_document)) /\
    (forall msg,
        snd d = Rejected msg ->
        msg = metadata_failure /\
        (exists cause, fst d = ["Erro ao buscar metadados: " ++ cause]) /\
        (exec_error r <> None \/
         (exists cause, parse (exec_stdout r) = inl cause) \/
         parse (exec_stdout r) = inr DNull)) /\
    (forall doc,
        doc_view_count doc = Some 0%Z \/ doc_view_count doc = None ->
        vm_views (metadata_of format doc) = VStr "N/A") /\
    (forall doc n,
        doc_view_count doc = Some n -> n <> 0%Z ->
        vm_views (metadata_of format doc) = VStr (format n)).
Proof.
  intros shell parse format query r d.
  assert (T : forall doc, truthy (vm_duration (metadata_of format doc)) = true).
  { intros doc. unfold metadata_of, js_or. cbn [vm_duration].
    now destruct (truthy (doc_duration_string doc)) eqn:E. }
  split; [| split; [| split]].
  - intros info. unfold d, getVideoMetadata, getVideoMetadata_try. cbv zeta.
    fold r. destruct (exec_error r) as [message |]; [discriminate |].
    destruct (parse (exec_stdout r)) as [message | [ | | doc]];
      cbn [fst snd]; intros E; try discriminate E; injection E as <-.
    + split; [reflexivity |]. split; [reflexivity |]. split; [apply T |].
      exists no_document. split; [reflexivity |]. right. now split.
    + split; [reflexivity |]. split; [reflexivity |]. split; [apply T |].
      exists doc. split; [reflexivity | now left].
  - intros msg. unfold d, getVideoMetadata, getVideoMetadata_try. cbv zeta.
    fold r. destruct (exec_error r) as [message |].
    { cbn [fst snd]. intros E. injection E as <-.
      split; [reflexivity |]. split; [now eexists | left; discriminate]. }
    destruct (parse (exec_stdout r)) as [message | [ | | doc]];
      cbn [fst snd]; intros E; try discriminate E; injection E as <-.
    + split; [reflexivity |]. split; [now eexists |]. right. left. now eexists.
    + split; [reflexivity |]. split; [now eexists |]. right. now right.
  - intros doc [E | E]; unfold metadata_of; cbn [vm_views]; now rewrite E.
  - intros doc n E Hn. unfold metadata_of. cbn [vm_views]. rewrite E. simpl.
    destruct (Z.eqb_spec n 0); [contradiction | reflexivity].
Qed.

(** A video without views, and output that is a number; the format of the
    example writes the digits ungrouped. *)
Lemma metadata_lookup_witness :
  vm_views (metadata_of string_of_Z unwatched) = VStr "N/A" /\
  vm_views (metadata_of string_of_Z watched) = VStr "1500" /\
  fst (getVideoMetadata shell_found parse_unwatched string_of_Z "demo") = [] /\
  fst (getVideoMetadata shell_found parse_number string_of_Z "demo") = [] /\
  (exists cause,
      fst (getVideoMetadata shell_down parse_unwatched string_of_Z "demo")
      = ["Erro ao buscar metadados: " ++ cause]).
Proof.
  destruct (metadata_lookup shell_found parse_unwatched string_of_Z "demo")
    as [H1 [_ [H3 _]]].
  destruct (metadata_lookup shell_found parse_number string_of_Z "demo")
    as [H1' _].
  destruct (metadata_lookup shell_down parse_unwatched string_of_Z "demo")
    as [_ [H2 [_ H4]]].
  split; [apply H3; left; reflexivity |].
  split; [apply (H4 watched 1500%Z); [reflexivity | discriminate] |].
  split; [| split].
  - destruct (H1 (metadata_of string_of_Z unwatched)) as [_ [H _]];
      [reflexivity | exact H].
  - destruct (H1' (metadata_of string_of_Z no_document)) as [_ [H _]];
      [reflexivity | exact H].
  - destruct (H2 metadata_failure) as [_ [H _]]; [reflexivity | exact H].
Defined.
